(** * UL-Arche-Analyser: schedules, CSV loading and per-student results

    A shallow embedding of the computational core of the application:

    - [lib/supervisor.py]       the [supervisor] decorator;
    - [frame/widget_query.py]   [TwoColumnWidget] (schedule table, JSON
                                persistence) and [CheckableComboBox];
    - [lib/csv_file_manager.py] [load_data], [open_csv] and the header of
                                [PandasModel];
    - [frame/widget_result.py]  [WidgetResult.compute];
    - [frame/tool_bar.py]       the actions of [ToolBar].

    Python exceptions are values of type [exn]; a call either returns or
    raises ([outcome]).  Code that mutates widgets or the parent window is a
    function from the state before the call to the outcome and the state
    after it ([M]): what was assigned before an exception stays assigned,
    as in Python.  Scores are binary64 floats ([spec_float] at precision 53),
    timestamps are tick counts in [Z] with [None] for NaT. *)

From Stdlib Require Import ZArith List String Ascii Bool Lia Arith.
From Stdlib Require Import Sorting.Sorted RelationClasses.
From Stdlib Require Import Structures.OrdersEx.
From Stdlib Require Import Floats.SpecFloat.
From Stdlib Require Import DecimalString.
Import ListNotations.

Local Open Scope string_scope.
Local Open Scope list_scope.

(* ===================================================================== *)
(** * Python values, exceptions and effects *)
(* ===================================================================== *)

Module Py.

(** The exception classes the code meets.  [KeyboardInterrupt],
    [SystemExit] and [GeneratorExit] derive from [BaseException] only;
    every other class derives from [Exception]. *)
Inductive exn_class :=
| ValueError | TypeError | KeyError | AttributeError | IndexError
| OSError | KeyboardInterrupt | SystemExit | GeneratorExit.

(** What an exception carries: a message, a column name, or a set of
    column names (the [missing_cols] of the two column checks). *)
Inductive exn_arg :=
| Msg (text : string)
| MissingCols (missing : list string).

Record exn := mk_exn { exn_cls : exn_class; exn_args : exn_arg }.

(** [isinstance(e, Exception)]. *)
Definition is_Exception (e : exn) : bool :=
  match exn_cls e with
  | KeyboardInterrupt | SystemExit | GeneratorExit => false
  | _ => true
  end.

Inductive outcome (A : Type) :=
| Returned (a : A)
| Raised (e : exn).
Arguments Returned {A} a.
Arguments Raised {A} e.

Definition obind {A B} (c : outcome A) (k : A -> outcome B) : outcome B :=
  match c with
  | Returned a => k a
  | Raised e => Raised e
  end.

(** Statements over a mutable state [S]: the state reached when an
    exception is raised is kept. *)
Definition M (S A : Type) := S -> outcome A * S.

Definition ret {S A} (a : A) : M S A := fun s => (Returned a, s).
Definition raise {S A} (e : exn) : M S A := fun s => (Raised e, s).
Definition bind {S A B} (c : M S A) (k : A -> M S B) : M S B :=
  fun s => match c s with
           | (Returned a, s') => k a s'
           | (Raised e, s') => (Raised e, s')
           end.
Definition get {S} : M S S := fun s => (Returned s, s).
Definition modify {S} (f : S -> S) : M S unit := fun s => (Returned tt, f s).
Definition lift {S A} (c : outcome A) : M S A := fun s => (c, s).

(** [x in l] for a list of strings. *)
Fixpoint mem (x : string) (l : list string) : bool :=
  match l with
  | [] => false
  | y :: l' => if String.eqb x y then true else mem x l'
  end.

(** [set(a).difference(b)], listed without repetition in the order of [a]. *)
Fixpoint difference (a b : list string) : list string :=
  match a with
  | [] => []
  | x :: a' =>
      let d := difference a' b in
      if mem x b then d else if mem x d then d else x :: d
  end.

(** [set(a).issubset(b)]. *)
Definition issubset (a b : list string) : bool :=
  forallb (fun x => mem x b) a.

(** [sep.join(l)]. *)
Fixpoint join (sep : string) (l : list string) : string :=
  match l with
  | [] => ""
  | [x] => x
  | x :: l' => x ++ sep ++ join sep l'
  end.

(** A Python [dict] with text keys, in insertion order; keys are unique. *)
Definition dict (V : Type) := list (string * V).

(** [d[k] = v]: the value of an existing key is replaced where it stands,
    a new key goes to the end. *)
Fixpoint dict_set {V} (d : dict V) (k : string) (v : V) : dict V :=
  match d with
  | [] => [(k, v)]
  | (k', v') :: d' =>
      if String.eqb k k' then (k, v) :: d' else (k', v') :: dict_set d' k v
  end.

Fixpoint dict_get {V} (d : dict V) (k : string) : option V :=
  match d with
  | [] => None
  | (k', v') :: d' => if String.eqb k k' then Some v' else dict_get d' k
  end.

Definition keys {V} (d : dict V) : list string := map fst d.

(** [s.replace(old, new)] for one-character [old] and [new]: every
    occurrence is replaced. *)
Fixpoint replace (old new : ascii) (s : string) : string :=
  match s with
  | EmptyString => EmptyString
  | String c s' =>
      String (if Ascii.eqb c old then new else c) (replace old new s')
  end.

End Py.

Export Py.

Declare Scope py_scope.
Delimit Scope py_scope with py.
Notation "x <- c ;; k" := (bind c (fun x => k))
  (at level 61, c at next level, right associativity) : py_scope.
Notation "c ;;; k" := (bind c (fun _ => k))
  (at level 61, right associativity) : py_scope.

(* ===================================================================== *)
(** * lib/supervisor.py *)
(* ===================================================================== *)

Module Supervisor.
Section Decorator.
(** [S] is everything the wrapped function can change, [Args] stands for
    [*args, **kwargs], [A] for the Python values it may return, among
    them [None]. *)
Variables S Args A : Type.
Variable py_None : A.
(** [QMessageBox().critical(None, "Error", format_exc())] for the
    exception being handled. *)
Variable critical : exn -> S -> S.

Definition wrapper (func : Args -> M S A) : Args -> M S A :=
  fun args s =>
    match func args s with
    | (Returned v, s') => (Returned v, s')
    | (Raised e, s') =>
        if is_Exception e
        then (Returned py_None, critical e s')
        else (Raised e, s')
    end.

Definition supervisor (func : Args -> M S A) : Args -> M S A :=
  wrapper func.
End Decorator.

(** A decorated function in a program whose message boxes are recorded:
    the state is the state of [func] together with the exceptions shown
    so far. *)
Definition decorated {S Args A} (py_None : A) (func : Args -> M S A)
  : Args -> M (S * list exn) A :=
  supervisor (S * list exn) Args A py_None
             (fun e sb => (fst sb, snd sb ++ [e]))
             (fun args sb =>
                let '(o, s') := func args (fst sb) in (o, (s', snd sb))).
End Supervisor.

(* ===================================================================== *)
(** * Python floats (binary64) *)
(* ===================================================================== *)

Module Float64.
Local Open Scope Z_scope.

Definition float := spec_float.
Definition prec : Z := 53.
Definition emax : Z := 1024.

Definition nan : float := S754_nan.
Definition zero : float := S754_zero false.

(** [x > y] and [x <= y] on floats; both are false when an operand is NaN. *)
Definition gt (x y : float) : bool := SFltb y x.
Definition le (x y : float) : bool := SFleb x y.
Definition is_nan (x : float) : bool :=
  match x with S754_nan => true | _ => false end.

(** ** Formatting: [f"{x:.2f}"] *)

Definition string_of_N (n : N) : string :=
  NilZero.string_of_uint (N.to_uint n).

(** [n / d] rounded to the nearest integer, ties to even ([0 < d]). *)
Definition round_half_even (n d : Z) : Z :=
  let q := n / d in
  let r := n mod d in
  match 2 * r ?= d with
  | Lt => q
  | Gt => q + 1
  | Eq => if Z.even q then q else q + 1
  end.

(** The value [m * 2^e], in hundredths, rounded to the nearest integer. *)
Definition hundredths (m : positive) (e : Z) : Z :=
  match e with
  | Zneg p => round_half_even (Zpos m * 100) (2 ^ Zpos p)
  | _ => Zpos m * 100 * 2 ^ e
  end.

Definition two_digits (n : Z) : string :=
  (if n <? 10 then "0" else "") ++ string_of_N (Z.to_N n).

Definition fixed2 (n : Z) : string :=
  string_of_N (Z.to_N (n / 100)) ++ "." ++ two_digits (n mod 100).

Definition format_2f (x : float) : string :=
  match x with
  | S754_nan => "nan"
  | S754_infinity s => if s then "-inf" else "inf"
  | S754_zero s => if s then "-0.00" else "0.00"
  | S754_finite s m e => (if s then "-" else "") ++ fixed2 (hundredths m e)
  end.

(** ** Parsing: [float(text)] on decimal literals

    [float] rounds the decimal value to the nearest binary64, ties to
    even.  This is the conversion on the literals [digits], [digits.digits],
    [digits.] and [.digits] with an optional sign, the form of the score
    column; the other spellings [float] accepts (exponents, surrounding
    blanks, underscores, [inf], [nan]) are not covered, which is why the
    loader below takes the conversion as a parameter. *)

Definition digit_value (c : ascii) : option N :=
  let n := N_of_ascii c in
  if ((48 <=? n) && (n <=? 57))%N then Some (n - 48)%N else None.

(** The number a digit string denotes, after [acc]. *)
Fixpoint digits_value (s : string) (acc : N) : option N :=
  match s with
  | EmptyString => Some acc
  | String c s' =>
      match digit_value c with
      | Some d => digits_value s' (acc * 10 + d)%N
      | None => None
      end
  end.

Fixpoint all_digits (s : string) : bool :=
  match s with
  | EmptyString => true
  | String c s' =>
      match digit_value c with
      | Some _ => all_digits s'
      | None => false
      end
  end.

(** [s] cut at its first ["."]: the text before it and the text after it
    ([None] when there is no dot). *)
Fixpoint cut_at_dot (s : string) : string * option string :=
  match s with
  | EmptyString => (EmptyString, None)
  | String c s' =>
      if Ascii.eqb c "."%char then (EmptyString, Some s')
      else let '(a, b) := cut_at_dot s' in (String c a, b)
  end.

(** The binary64 nearest to [(-1)^sign * m / 10^k]. *)
Definition of_decimal (sign : bool) (m : N) (k : nat) : float :=
  match m with
  | N0 => S754_zero sign
  | Npos p =>
      SFdiv prec emax (S754_finite sign p 0)
                      (S754_finite false (Z.to_pos (10 ^ Z.of_nat k)) 0)
  end.

Definition of_unsigned (sign : bool) (s : string) : option float :=
  let '(ip, fp) := cut_at_dot s in
  let fp := match fp with Some f => f | None => EmptyString end in
  match (ip ++ fp)%string with
  | EmptyString => None
  | _ =>
      match digits_value (ip ++ fp) 0%N with
      | Some m => Some (of_decimal sign m (String.length fp))
      | None => None
      end
  end.

Definition float_of_string (s : string) : option float :=
  match s with
  | String "-" s' => of_unsigned true s'
  | String "+" s' => of_unsigned false s'
  | _ => of_unsigned false s
  end.

(** ** [Series.max()]: the largest value that is not NaN, NaN if none *)

Definition fmax (acc x : float) : float :=
  match acc, x with
  | S754_nan, _ => x
  | _, S754_nan => acc
  | _, _ => if SFltb acc x then x else acc
  end.

Definition nanmax (l : list float) : float := fold_left fmax l nan.

End Float64.

(* ===================================================================== *)
(** * Timestamps *)
(* ===================================================================== *)

Module Timestamp.
Local Open Scope Z_scope.

(** A [datetime64[ns]] value: nanoseconds since 1970-01-01, or NaT. *)
Definition time := option Z.
Definition NaT : time := None.

(** [x >= t] and [x <= t]; false as soon as one side is NaT. *)
Definition ge (x t : time) : bool :=
  match x, t with
  | Some a, Some b => b <=? a
  | _, _ => false
  end.
Definition le (x t : time) : bool :=
  match x, t with
  | Some a, Some b => a <=? b
  | _, _ => false
  end.

(** Days from 1970-01-01 to the civil date [y-m-d]. *)
Definition days_from_civil (y m d : Z) : Z :=
  let y' := if m <=? 2 then y - 1 else y in
  let era := y' / 400 in
  let yoe := y' - era * 400 in
  let doy := (153 * (if 2 <? m then m - 3 else m + 9) + 2) / 5 + d - 1 in
  let doe := yoe * 365 + yoe / 4 - yoe / 100 + doy in
  era * 146097 + doe - 719468.

Definition is_leap (y : Z) : bool :=
  ((y mod 4 =? 0) && negb (y mod 100 =? 0)) || (y mod 400 =? 0).

Definition days_in_month (y m : Z) : Z :=
  if m =? 2 then (if is_leap y then 29 else 28)
  else if (m =? 4) || (m =? 6) || (m =? 9) || (m =? 11) then 30 else 31.

Definition civil (y m d hh mm ss : Z) : option Z :=
  if (1 <=? m) && (m <=? 12) && (1 <=? d) && (d <=? days_in_month y m)
     && (hh <? 24) && (mm <? 60) && (ss <? 60)
  then Some ((((days_from_civil y m d * 24 + hh) * 60 + mm) * 60 + ss)
             * 1000000000)
  else None.

(** A non-empty digit string, as a number. *)
Definition number (s : string) : option Z :=
  match s with
  | EmptyString => None
  | _ => option_map Z.of_N (Float64.digits_value s 0%N)
  end.

(** [s.split(sep)]. *)
Fixpoint split (sep : ascii) (s : string) : list string :=
  match s with
  | EmptyString => [EmptyString]
  | String c s' =>
      if Ascii.eqb c sep then EmptyString :: split sep s'
      else match split sep s' with
           | w :: ws => String c w :: ws
           | [] => [String c EmptyString]
           end
  end.

Definition fields (l : list string) : option (list Z) :=
  fold_right (fun s acc =>
                match number s, acc with
                | Some n, Some ns => Some (n :: ns)
                | _, _ => None
                end) (Some []) l.

(** Texts of the form the schedule table asks for, [YYYY-MM-DD HH:MM]
    (seconds optional).  The empty text denotes NaT, as in
    [Timestamp("")]; the result is [None] when the text is not read as a
    datetime.  The result engine below is stated for an arbitrary text
    parser; this one serves the worked examples. *)
Definition parse_iso (s : string) : option time :=
  match s with
  | EmptyString => Some NaT
  | _ =>
      match split " " s with
      | [date; clock] =>
          match fields (split "-" date), fields (split ":" clock) with
          | Some [y; m; d], Some [hh; mm] =>
              option_map Some (civil y m d hh mm 0)
          | Some [y; m; d], Some [hh; mm; ss] =>
              option_map Some (civil y m d hh mm ss)
          | _, _ => None
          end
      | _ => None
      end
  end.

(** ASCII lower case. *)
Definition lower (c : ascii) : ascii :=
  let n := N_of_ascii c in
  if ((65 <=? n) && (n <=? 90))%N then ascii_of_N (n + 32) else c.

Fixpoint lowercase (s : string) : string :=
  match s with
  | EmptyString => EmptyString
  | String c s' => String (lower c) (lowercase s')
  end.

(** Month names of the [fr_FR] locale, for [%B]. *)
Definition mois : list string :=
  ["janvier"; "février"; "mars"; "avril"; "mai"; "juin"; "juillet";
   "août"; "septembre"; "octobre"; "novembre"; "décembre"].

Fixpoint index_of (x : string) (l : list string) (i : Z) : option Z :=
  match l with
  | [] => None
  | y :: l' => if String.eqb x y then Some i else index_of x l' (i + 1)
  end.

(** One cell under the format ["%d %B %Y %X"] in the French locale, as in
    ["12 Mars 2024 10:30:00"]: an instance for the worked examples of the
    conversion the loader is parameterised by. *)
Definition strptime_fr (s : string) : option Z :=
  match split " " s with
  | [d; b; y; clock] =>
      match number d, index_of (lowercase b) mois 1, number y,
            fields (split ":" clock) with
      | Some d, Some m, Some y, Some [hh; mm; ss] => civil y m d hh mm ss
      | _, _, _, _ => None
      end
  | _ => None
  end.

End Timestamp.

(* ===================================================================== *)
(** * frame/widget_query.py *)
(* ===================================================================== *)

Module Schedule.

(** An interval of a schedule: start text and end text, kept as typed. *)
Definition interval := (string * string)%type.

(** ** The two-column table

    A [QTableWidget(0, 2)]: each row has, per column, an item holding a
    text, or no item at all ([item(row, col)] is then [None]). *)
Definition QTableWidgetItem := string.
Definition table_row := (option QTableWidgetItem * option QTableWidgetItem)%type.
Definition QTableWidget := list table_row.

Definition rowCount (t : QTableWidget) : nat := List.length t.

Definition item (t : QTableWidget) (row col : nat) : option QTableWidgetItem :=
  match nth_error t row with
  | Some (c0, c1) =>
      match col with
      | 0 => c0
      | 1 => c1
      | _ => None
      end
  | None => None
  end.

(** [it.text()]; calling it on [None] raises [AttributeError]. *)
Definition text (it : option QTableWidgetItem) : outcome string :=
  match it with
  | Some s => Returned s
  | None =>
      Raised (mk_exn AttributeError
                (Msg "'NoneType' object has no attribute 'text'"))
  end.

(** Truth value of [item(row, col)] in a condition: an item object is
    true, [None] is false. *)
Definition truthy (it : option QTableWidgetItem) : bool :=
  match it with Some _ => true | None => false end.

(** [self.table.item(row, col).text() if self.table.item(row, col) else ""] *)
Definition cell_text (t : QTableWidget) (row col : nat) : outcome string :=
  if truthy (item t row col) then text (item t row col) else Returned "".

(** The loop of [get_data] over [range(self.table.rowCount())]. *)
Fixpoint get_data_loop (t : QTableWidget) (rows : list nat)
         (list_schedule : list interval) : outcome (list interval) :=
  match rows with
  | [] => Returned list_schedule
  | row :: rows' =>
      obind (cell_text t row 0) (fun col1 =>
      obind (cell_text t row 1) (fun col2 =>
      get_data_loop t rows' (list_schedule ++ [(col1, col2)])))
  end.

Definition get_data (t : QTableWidget) : outcome (list interval) :=
  get_data_loop t (seq 0 (rowCount t)) [].

(** The intervals the table shows: per row, the texts of its two items,
    the empty text standing for an item that is absent. *)
Definition intervals_of (t : QTableWidget) : list interval :=
  map (fun r => (match fst r with Some s => s | None => "" end,
                 match snd r with Some s => s | None => "" end)) t.

(** ** The persisted document

    [SAVE_FILE] holds one JSON document or does not exist.  The document
    is kept as a JSON value: the text that [json.dump] writes and
    [json.load] reads back is the library's. *)
#[local] Unset Elimination Schemes.
Inductive json :=
| JNull
| JBool (b : bool)
| JNumber (z : Z)
| JString (s : string)
| JArray (elements : list json)
| JObject (members : list (string * json)).
#[local] Set Elimination Schemes.

Definition file := option json.

(** [json.dump]: a dict becomes an object with its keys in order, a list
    or a tuple becomes an array, a text becomes a string. *)
Definition dump_interval (iv : interval) : json :=
  JArray [JString (fst iv); JString (snd iv)].

Definition dump (class_info : dict (list interval)) : json :=
  JObject (map (fun kv => (fst kv, JArray (map dump_interval (snd kv))))
               class_info).

(** [json.load], read at the type of [class_info]: an object whose values
    are arrays of two-string arrays ([for col1, col2 in schedule_list]
    unpacks each).  Members are inserted one after the other, so of two
    members with one name the later value stays.  Documents of another
    shape are not covered ([None]). *)
Definition load_interval (j : json) : option interval :=
  match j with
  | JArray [JString a; JString b] => Some (a, b)
  | _ => None
  end.

Fixpoint load_intervals (l : list json) : option (list interval) :=
  match l with
  | [] => Some []
  | j :: l' =>
      match load_interval j, load_intervals l' with
      | Some iv, Some ivs => Some (iv :: ivs)
      | _, _ => None
      end
  end.

Fixpoint load_members (members : list (string * json))
         (d : dict (list interval)) : option (dict (list interval)) :=
  match members with
  | [] => Some d
  | (k, JArray l) :: members' =>
      match load_intervals l with
      | Some ivs => load_members members' (dict_set d k ivs)
      | None => None
      end
  | _ => None
  end.

Definition load (j : json) : option (dict (list interval)) :=
  match j with
  | JObject members => load_members members []
  | _ => None
  end.

(** ** TwoColumnWidget *)

(** A [QComboBox]: its items and the current index ([None] for -1). *)
Record QComboBox := {
  items : list string;
  currentIndex : option nat
}.

Definition currentText (c : QComboBox) : string :=
  match currentIndex c with
  | Some i => nth i (items c) ""
  | None => ""
  end.

(** [addItems] on a combo box: an empty box selects its first new item. *)
Definition addItems (c : QComboBox) (l : list string) : QComboBox :=
  {| items := items c ++ l;
     currentIndex := match currentIndex c, items c ++ l with
                     | None, _ :: _ => Some 0
                     | i, _ => i
                     end |}.

Record TwoColumnWidget := {
  class_info : dict (list interval);
  class_selection : QComboBox;
  table : QTableWidget
}.

(** [load_data]: the table shows the intervals of the selected class, and
    is emptied when the selected text is no key of [class_info]. *)
Definition load_data (w : TwoColumnWidget) : TwoColumnWidget :=
  match dict_get (class_info w) (currentText (class_selection w)) with
  | Some schedule_list =>
      {| class_info := class_info w;
         class_selection := class_selection w;
         table := map (fun iv => (Some (fst iv), Some (snd iv))) schedule_list |}
  | None =>
      {| class_info := class_info w;
         class_selection := class_selection w;
         table := [] |}
  end.

(** The part of [__init__] that reads [SAVE_FILE], fills the drop-down
    and shows the first class. *)
Definition init (f : file) : option TwoColumnWidget :=
  let loaded :=
    match f with
    | Some j => load j
    | None => Some []
    end in
  match loaded with
  | Some ci =>
      Some (load_data
              {| class_info := ci;
                 class_selection :=
                   addItems {| items := []; currentIndex := None |} (keys ci);
                 table := [] |})
  | None => None
  end.

(** [self.class_info != {'': []}] *)
Definition is_placeholder (ci : dict (list interval)) : bool :=
  match ci with
  | [(k, [])] => String.eqb k ""
  | _ => false
  end.

(** [class_save], over the widget and the file. *)
Definition class_save : M (TwoColumnWidget * file) unit :=
  fun '(w, f) =>
    match get_data (table w) with
    | Raised e => (Raised e, (w, f))
    | Returned data =>
        let w' := {| class_info :=
                       dict_set (class_info w)
                                (currentText (class_selection w)) data;
                     class_selection := class_selection w;
                     table := table w |} in
        if negb (is_placeholder (class_info w'))
        then (Returned tt, (w', Some (dump (class_info w'))))
        else match f with
             | Some _ => (Returned tt, (w', None))
             | None => (Returned tt, (w', f))
             end
    end.

(** ** Editing the rows of the table *)

Definition set_table (t : QTableWidget) (w : TwoColumnWidget)
  : TwoColumnWidget :=
  {| class_info := class_info w;
     class_selection := class_selection w;
     table := t |}.

Definition set_class_info (ci : dict (list interval)) (w : TwoColumnWidget)
  : TwoColumnWidget :=
  {| class_info := ci;
     class_selection := class_selection w;
     table := table w |}.

Definition set_selection (c : QComboBox) (w : TwoColumnWidget)
  : TwoColumnWidget :=
  {| class_info := class_info w;
     class_selection := c;
     table := table w |}.

(** [insertRow(row)]: a new row with no item; a [row] beyond the end is
    ignored. *)
Definition insertRow (t : QTableWidget) (row : nat) : QTableWidget :=
  if Nat.leb row (rowCount t)
  then firstn row t ++ (None, None) :: skipn row t
  else t.

(** [removeRow(row)]: a [row] that does not exist is ignored. *)
Definition removeRow (t : QTableWidget) (row : nat) : QTableWidget :=
  if Nat.ltb row (rowCount t)
  then firstn row t ++ skipn (S row) t
  else t.

Definition add_row (w : TwoColumnWidget) : TwoColumnWidget :=
  set_table (insertRow (table w) (rowCount (table w))) w.

(** [remove_selected_row], [currentRow] being [self.table.currentRow()]:
    -1 when the table has no current cell. *)
Definition remove_selected_row (currentRow : Z) (w : TwoColumnWidget)
  : TwoColumnWidget :=
  if (0 <=? currentRow)%Z
  then set_table (removeRow (table w) (Z.to_nat currentRow)) w
  else w.

(** ** The drop-down and its signal *)

(** [findText(text)]: the index of the first item with that text. *)
Fixpoint findText (l : list string) (text : string) : option nat :=
  match l with
  | [] => None
  | x :: l' =>
      if String.eqb x text then Some 0 else option_map S (findText l' text)
  end.

(** [addItem(text)] *)
Definition addItem (c : QComboBox) (text : string) : QComboBox :=
  addItems c [text].

(** [setCurrentText(text)] on a drop-down that is not editable: the first
    item with that text becomes current; nothing happens without one. *)
Definition setCurrentText (c : QComboBox) (text : string) : QComboBox :=
  match findText (items c) text with
  | Some i => {| items := items c; currentIndex := Some i |}
  | None => c
  end.

(** [removeItem(index)]: an index without item is ignored.  When the
    current item is removed, the item that takes its place, or else the
    last one, becomes current; an item removed before the current one
    leaves the current item as it is. *)
Definition removeItem (c : QComboBox) (index : nat) : QComboBox :=
  if Nat.ltb index (List.length (items c)) then
    let items' := firstn index (items c) ++ skipn (S index) (items c) in
    {| items := items';
       currentIndex :=
         match currentIndex c with
         | Some i =>
             if Nat.eqb i index then
               match items' with
               | [] => None
               | _ :: _ => Some (Nat.min (List.length items' - 1) index)
               end
             else if Nat.ltb index i then Some (i - 1)
             else Some i
         | None => None
         end |}
  else c.

(** [currentTextChanged] is emitted by an operation that leaves the
    drop-down with another current text; [__init__] connects it to
    [load_data].  [signal c c' w] is the widget once the operation that
    took the drop-down from [c] to [c'] has returned. *)
Definition signal (c c' : QComboBox) (w : TwoColumnWidget) : TwoColumnWidget :=
  if String.eqb (currentText c) (currentText c') then w else load_data w.

(** An operation of the drop-down of the widget, with its signal. *)
Definition on_selection (op : QComboBox -> QComboBox) (w : TwoColumnWidget)
  : TwoColumnWidget :=
  let c := class_selection w in
  signal c (op c) (set_selection (op c) w).

(** ** Adding and removing a class *)

(** [class_add], [(name, ok)] being what [QInputDialog.getText] returns. *)
Definition class_add (name : string) (ok : bool) (w : TwoColumnWidget)
  : TwoColumnWidget :=
  if ok && negb (String.eqb name "") then
    let w1 := set_class_info (dict_set (class_info w) name []) w in
    let w2 := on_selection (fun c => addItem c name) w1 in
    let w3 := on_selection (fun c => setCurrentText c name) w2 in
    load_data w3
  else w.

(** [d.pop(k)] on the entries: the entry of [k] is taken out. *)
Fixpoint dict_del {V} (d : dict V) (k : string) : dict V :=
  match d with
  | [] => []
  | (k', v') :: d' =>
      if String.eqb k k' then d' else (k', v') :: dict_del d' k
  end.

(** [class_remove], over the widget and the file. *)
Definition class_remove : M (TwoColumnWidget * file) unit :=
  fun '(w, f) =>
    let current := currentText (class_selection w) in
    if negb (String.eqb current "") then
      match dict_get (class_info w) current with
      | None => (Raised (mk_exn KeyError (Msg current)), (w, f))
      | Some _ =>
          let w1 := set_class_info (dict_del (class_info w) current) w in
          match currentIndex (class_selection w1) with
          | Some index =>
              class_save (on_selection (fun c => removeItem c index) w1, f)
          | None => class_save (w1, f)
          end
      end
    else (Returned tt, (w, f)).

(** ** CheckableComboBox *)

(** The items of the model: text and check state. *)
Definition CheckableComboBox := list (string * bool).

Definition add_checkable_item (c : CheckableComboBox) (text : string)
           (checked : bool) : CheckableComboBox :=
  c ++ [(text, checked)].

Fixpoint checked_items_loop (c : CheckableComboBox) (items : list string)
  : list string :=
  match c with
  | [] => items
  | (text, checked) :: c' =>
      checked_items_loop c' (if checked then items ++ [text] else items)
  end.

Definition checked_items (c : CheckableComboBox) : list string :=
  checked_items_loop c [].

(** [handle_item_pressed(index)]: the check state of the item at [index]
    is inverted; [itemFromIndex] gives [None] for an index without item. *)
Definition handle_item_pressed (c : CheckableComboBox) (index : nat)
  : outcome CheckableComboBox :=
  match nth_error c index with
  | Some (text, checked) =>
      Returned (firstn index c ++ (text, negb checked) :: skipn (S index) c)
  | None =>
      Raised (mk_exn AttributeError
                (Msg "'NoneType' object has no attribute 'checkState'"))
  end.

End Schedule.

(* ===================================================================== *)
(** * Grouping by (last name, first name) *)
(* ===================================================================== *)

Module Group.

(** A group key of [groupby(['Nom de famille', 'Prénom'])]. *)
Definition key := (string * string)%type.

(** Keys compare as Python tuples of [str]: last names first, then first
    names, each by code point (bytewise on UTF-8 text). *)
Definition key_compare (a b : key) : comparison :=
  match String_as_OT.compare (fst a) (fst b) with
  | Eq => String_as_OT.compare (snd a) (snd b)
  | c => c
  end.

Definition key_lt (a b : key) : Prop := key_compare a b = Lt.

Definition key_eqb (a b : key) : bool :=
  String.eqb (fst a) (fst b) && String.eqb (snd a) (snd b).

(** [k] put at its place in a sorted list of distinct keys. *)
Fixpoint insert_key (k : key) (l : list key) : list key :=
  match l with
  | [] => [k]
  | k' :: l' =>
      match key_compare k k' with
      | Lt => k :: l
      | Eq => l
      | Gt => k' :: insert_key k l'
      end
  end.

(** The distinct keys of the rows, sorted ([groupby] sorts its keys); a
    row with a missing key component belongs to no group. *)
Definition sorted_keys (l : list (option key)) : list key :=
  fold_right (fun o acc => match o with
                           | Some k => insert_key k acc
                           | None => acc
                           end) [] l.

(** [f"{name[0]} {name[1]}"] *)
Definition full_name (name : key) : string :=
  fst name ++ " " ++ snd name.

End Group.

(* ===================================================================== *)
(** * lib/csv_file_manager.py *)
(* ===================================================================== *)

Module Loader.
Import Schedule.

(** A value in a column of the frame that [read_csv] returns or that
    [load_data] converts: text, a number or a boolean inferred by
    [read_csv] (a missing value is the float NaN), a timestamp. *)
Inductive cell :=
| CStr (s : string)
| CInt (z : Z)
| CFloat (x : Float64.float)
| CBool (b : bool)
| CTime (t : Timestamp.time).

Definition Series := list cell.

(** A [DataFrame]: its columns in order, each with its name. *)
Definition DataFrame := dict Series.

(** [df.columns.to_list()] *)
Definition columns (df : DataFrame) : list string := keys df.

Definition key_error {A} (col : string) : outcome A :=
  Raised (mk_exn KeyError (Msg col)).

(** [df[col]] *)
Definition getitem (df : DataFrame) (col : string) : outcome Series :=
  match dict_get df col with
  | Some s => Returned s
  | None => key_error col
  end.

(** [df[col] = s] *)
Definition setitem (df : DataFrame) (col : string) (s : Series) : DataFrame :=
  dict_set df col s.

Fixpoint remove (df : DataFrame) (col : string) : DataFrame :=
  match df with
  | [] => []
  | (c, s) :: df' =>
      if String.eqb col c then df' else (c, s) :: remove df' col
  end.

(** [df.pop(col)]: the column, and the frame without it. *)
Definition pop (df : DataFrame) (col : string) : outcome (Series * DataFrame) :=
  match dict_get df col with
  | Some s => Returned (s, remove df col)
  | None => key_error col
  end.

(** [df.insert(idx, col, s)]: [ValueError] when the column exists,
    [IndexError] when [idx] is beyond the last position. *)
Definition insert (df : DataFrame) (idx : nat) (col : string) (s : Series)
  : outcome DataFrame :=
  if mem col (columns df) then
    Raised (mk_exn ValueError (Msg "cannot insert, already exists"))
  else if Nat.ltb (List.length df) idx then
    Raised (mk_exn IndexError (Msg "index out of bounds"))
  else Returned (firstn idx df ++ (col, s) :: skipn idx df).

(** [Series.apply(f)]: the cells in order, stopping at the first that
    raises. *)
Fixpoint apply (f : cell -> outcome cell) (s : Series) : outcome Series :=
  match s with
  | [] => Returned []
  | x :: s' =>
      obind (f x) (fun y => obind (apply f s') (fun ys => Returned (y :: ys)))
  end.

(** The key of a row in the two identity columns, which are text columns:
    a row with a missing value (NaN) in one of them belongs to no group,
    and so does, here, a row with a cell of another kind. *)
Definition cell_key (last first : cell) : option Group.key :=
  match last, first with
  | CStr a, CStr b => Some (a, b)
  | _, _ => None
  end.

(** [PandasModel(data, header)] *)
Record PandasModel := {
  _data : DataFrame;
  _header : list string
}.

(** What [load_data] reads and writes of its [parent], the main window:
    [data] is [None] until a frame has been assigned. *)
Record MainWindow := {
  data : option DataFrame;
  widget_input_file : string;
  model : option PandasModel;
  widget_table_data : option PandasModel;
  widget_student_filter : CheckableComboBox
}.

Definition set_data (d : DataFrame) (p : MainWindow) : MainWindow :=
  {| data := Some d;
     widget_input_file := widget_input_file p;
     model := model p;
     widget_table_data := widget_table_data p;
     widget_student_filter := widget_student_filter p |}.

Definition set_model (m : PandasModel) (p : MainWindow) : MainWindow :=
  {| data := data p;
     widget_input_file := widget_input_file p;
     model := Some m;
     widget_table_data := widget_table_data p;
     widget_student_filter := widget_student_filter p |}.

Definition set_table_model (p : MainWindow) : MainWindow :=
  {| data := data p;
     widget_input_file := widget_input_file p;
     model := model p;
     widget_table_data := model p;
     widget_student_filter := widget_student_filter p |}.

Definition set_student_filter (c : CheckableComboBox) (p : MainWindow)
  : MainWindow :=
  {| data := data p;
     widget_input_file := widget_input_file p;
     model := model p;
     widget_table_data := widget_table_data p;
     widget_student_filter := c |}.

(** [parent.data], which is a frame from the first statement on. *)
Definition the_data : M MainWindow DataFrame :=
  fun p => match data p with
           | Some d => (Returned d, p)
           | None => (Raised (mk_exn AttributeError (Msg "data")), p)
           end.

Section LoadData.
(** [EXPECTED_COLUMNS] of [lib/parameters.py]. *)
Variable EXPECTED_COLUMNS : list string.
(** [read_csv(path)]: the frame read from the file, or the exception
    raised on a file that cannot be read. *)
Variable read_csv : string -> outcome DataFrame.
(** [to_datetime(series, format='%d %B %Y %X', errors='raise')] *)
Variable to_datetime : Series -> outcome Series.
(** [float(text)]; [None] when it raises [ValueError]. *)
Variable float_of_text : string -> option Float64.float.

(** [lambda x: float(x.replace(',', '.'))] on one cell: only text has
    the [replace] the call needs. *)
Definition score_of_cell (x : cell) : outcome cell :=
  match x with
  | CStr s =>
      match float_of_text (replace "," "." s) with
      | Some v => Returned (CFloat v)
      | None =>
          Raised (mk_exn ValueError (Msg "could not convert string to float"))
      end
  | CTime _ =>
      Raised (mk_exn TypeError (Msg "not a text with a decimal comma"))
  | _ =>
      Raised (mk_exn AttributeError (Msg "object has no attribute 'replace'"))
  end.

(** The cells [score_of_cell] converts. *)
Definition coercible (x : cell) : bool :=
  match x with
  | CStr s =>
      match float_of_text (replace "," "." s) with
      | Some _ => true
      | None => false
      end
  | _ => false
  end.

(** [parent.data[col] = f(parent.data[col])] *)
Definition convert_column (col : string) (f : Series -> outcome Series)
  : M MainWindow unit :=
  (d <- the_data ;;
   s <- lift (getitem d col) ;;
   s' <- lift (f s) ;;
   d' <- the_data ;;
   modify (set_data (setitem d' col s')))%py.

(** The loop that moves the four columns to positions 2 to 5. *)
Fixpoint reorder (l : list (string * nat)) : M MainWindow unit :=
  match l with
  | [] => ret tt
  | (col, idx) :: l' =>
      (d <- the_data ;;
       popped <- lift (pop d col) ;;
       d' <- lift (insert (snd popped) idx col (fst popped)) ;;
       modify (set_data d') ;;;
       reorder l')%py
  end.

(** The names of the groups of
    [parent.data.groupby(['Nom de famille', 'Pr√©nom'])]. *)
Definition group_names (d : DataFrame) : outcome (list Group.key) :=
  obind (getitem d "Nom de famille") (fun last =>
  obind (getitem d "Pr√©nom") (fun first =>
  Returned (Group.sorted_keys
              (map (fun lf => cell_key (fst lf) (snd lf))
                   (combine last first))))).

Definition load_data : M MainWindow unit :=
  (parent <- get ;;
   d <- lift (read_csv (widget_input_file parent)) ;;
   modify (set_data d) ;;;
   (let missing_cols := difference EXPECTED_COLUMNS (columns d) in
    match missing_cols with
    | _ :: _ => raise (mk_exn ValueError (MissingCols missing_cols))
    | [] =>
        convert_column "Commenc√©" to_datetime ;;;
        convert_column "Termin√©" to_datetime ;;;
        convert_column "Note/20,00" (apply score_of_cell) ;;;
        reorder (combine ["Statut"; "Commenc√©"; "Termin√©"; "Note/20,00"]
                         [2; 3; 4; 5]%nat) ;;;
        d <- the_data ;;
        modify (set_model {| _data := d; _header := columns d |}) ;;;
        modify set_table_model ;;;
        modify (set_student_filter []) ;;;
        names <- lift (group_names d) ;;
        modify (fun p =>
                  set_student_filter
                    (fold_left (fun c name =>
                                  add_checkable_item c (Group.full_name name) true)
                               names (widget_student_filter p)) p)
    end))%py.
End LoadData.

(** ** PandasModel *)

(** [self._data.columns.size] *)
Definition columnCount (m : PandasModel) : nat := List.length (_data m).

Inductive Orientation := Horizontal | Vertical.
Inductive ItemDataRole := DisplayRole | EditRole | ToolTipRole.

(** What [headerData] returns: a text of the model's own, or what the base
    class returns. *)
Inductive header :=
| HeaderText (text : string)
| BaseHeader.

(** [headerData(section, orientation, role)]: [self._header[section]] for
    the horizontal header in the display role. *)
Definition headerData (m : PandasModel) (section : nat) (o : Orientation)
           (role : ItemDataRole) : outcome header :=
  match o, role with
  | Horizontal, DisplayRole =>
      match nth_error (_header m) section with
      | Some h => Returned (HeaderText h)
      | None => Raised (mk_exn IndexError (Msg "list index out of range"))
      end
  | _, _ => Returned BaseHeader
  end.

(** [getDataFrame] *)
Definition getDataFrame (m : PandasModel) : DataFrame := _data m.

(** [updateDataFrame(new_df)]: the frame is replaced, the header is not. *)
Definition updateDataFrame (new_df : DataFrame) (m : PandasModel)
  : PandasModel :=
  {| _data := new_df; _header := _header m |}.

(** ** open_csv *)

(** [s.endswith(suffix)] *)
Definition endswith (s suffix : string) : bool :=
  let n := String.length s in
  let k := String.length suffix in
  Nat.leb k n && String.eqb (substring (n - k) k s) suffix.

Definition set_input_file (text : string) (p : MainWindow) : MainWindow :=
  {| data := data p;
     widget_input_file := text;
     model := model p;
     widget_table_data := widget_table_data p;
     widget_student_filter := widget_student_filter p |}.

(** The window together with the message boxes shown so far. *)
Definition gui := (MainWindow * list exn)%type.

Definition report (e : exn) (g : gui) : gui := (fst g, snd g ++ [e]).

Section OpenCsv.
Variable EXPECTED_COLUMNS : list string.
Variable read_csv : string -> outcome DataFrame.
Variable to_datetime : Series -> outcome Series.
Variable float_of_text : string -> option Float64.float.

(** [load_data] as the module exports it, under [@supervisor]. *)
Definition load_data_supervised : unit -> M gui unit :=
  Supervisor.decorated tt
    (fun _ : unit =>
       load_data EXPECTED_COLUMNS read_csv to_datetime float_of_text).

(** The body of [open_csv], [filename] being what the file dialog returns:
    the empty text when the dialog is cancelled.  The lower case of the
    name matters for its last four characters only, and is taken on ASCII
    letters. *)
Definition open_csv_body (filename : string) : M gui unit :=
  fun g =>
    match filename with
    | EmptyString => (Returned tt, g)
    | _ =>
        if negb (endswith (Timestamp.lowercase filename) ".csv") then
          (Raised (mk_exn ValueError
                     (Msg ("Unsupported file type: " ++ filename))), g)
        else
          load_data_supervised
            tt (set_input_file ("File: " ++ filename) (fst g), snd g)
    end.

(** [open_csv], under [@supervisor]. *)
Definition open_csv : string -> M gui unit :=
  Supervisor.supervisor gui string unit tt report open_csv_body.
End OpenCsv.


End Loader.

(* ===================================================================== *)
(** * frame/widget_result.py *)
(* ===================================================================== *)

Module Engine.
Import Schedule.

(** One row of the loaded frame, read through the six columns [compute]
    uses: ['Nom de famille'], ['Prénom'] and ['Statut'] are text ([None]
    for a missing value), ['Commencé'] and ['Terminé'] are timestamps,
    ['Note/20,00'] is a float. *)
Record Row := {
  nom_de_famille : option string;
  prenom : option string;
  statut : option string;
  commence : Timestamp.time;
  termine : Timestamp.time;
  note : Float64.float
}.

(** The frame: the names of all its columns, and its rows in order. *)
Record DataFrame := {
  columns : list string;
  rows : list Row
}.

(** What [compute] reads of its parent window. *)
Record Parent := {
  data : option DataFrame;
  widget_student_filter : CheckableComboBox;
  widget_json_schedule : QTableWidget
}.

(** The three labels [compute] puts on one row of the grid. *)
Record ResultRow := {
  grid_row : nat;
  student : string;
  max_score : string;
  notes : string
}.

(** The part of the widget [compute] changes: the labels added to
    [layout_result], and how many times the dialog was shown. *)
Record WidgetResult := {
  layout_result : list ResultRow;
  dialog_exec : nat
}.

Definition addWidgets (r : ResultRow) (w : WidgetResult) : WidgetResult :=
  {| layout_result := layout_result w ++ [r]; dialog_exec := dialog_exec w |}.

Definition exec_dialog (w : WidgetResult) : WidgetResult :=
  {| layout_result := layout_result w; dialog_exec := S (dialog_exec w) |}.

Definition row_key (r : Row) : option Group.key :=
  match nom_de_famille r, prenom r with
  | Some a, Some b => Some (a, b)
  | _, _ => None
  end.

Definition in_group (k : Group.key) (r : Row) : bool :=
  match row_key r with
  | Some k' => Group.key_eqb k k'
  | None => false
  end.

(** [data.groupby(['Nom de famille', 'Prénom'])], as the sequence it
    iterates: the keys in sorted order, each with its rows in frame order. *)
Definition groupby (d : DataFrame) : list (Group.key * list Row) :=
  map (fun k => (k, filter (in_group k) (rows d)))
      (Group.sorted_keys (map row_key (rows d))).

(** [group.query("Statut == 'Terminée'")] *)
Definition completed (r : Row) : bool :=
  match statut r with
  | Some s => String.eqb s "Terminée"
  | None => false
  end.

(** [frame[mask]] *)
Fixpoint select (l : list Row) (mask : list bool) : list Row :=
  match l, mask with
  | r :: l', b :: mask' => if b then r :: select l' mask' else select l' mask'
  | _, _ => []
  end.

(** [mask1 & mask2] *)
Fixpoint mask_and (m1 m2 : list bool) : list bool :=
  match m1, m2 with
  | a :: m1', b :: m2' => (a && b) :: mask_and m1' m2'
  | _, _ => []
  end.

(** [f"{df['Note/20,00'].max():.2f}" if df['Note/20,00'].max() > 0 else ''] *)
Definition max_label (df : list Row) : string :=
  if Float64.gt (Float64.nanmax (map note df)) Float64.zero
  then Float64.format_2f (Float64.nanmax (map note df))
  else "".

(** The formatted values that the third label joins. *)
Definition notes_list (df : list Row) : list string :=
  map (fun r => Float64.format_2f (note r)) df.

Definition notes_label (df : list Row) : string :=
  match map note df with
  | _ :: _ => join ", " (notes_list df)
  | [] => ""
  end.

Section Compute.
(** [EXPECTED_COLUMNS] of [lib/parameters.py]. *)
Variable EXPECTED_COLUMNS : list string.
(** How pandas reads the text that a [datetime64] column is compared
    with: [Some t] for a timestamp or NaT, [None] when the text is not read
    as a datetime. *)
Variable parse_timestamp : string -> option Timestamp.time.

Definition invalid_comparison : exn :=
  mk_exn TypeError
         (Msg "Invalid comparison between dtype=datetime64[ns] and str").

(** [column >= text] and [column <= text] on a [datetime64] column: the
    text is read as a timestamp and compared with each value; a text that
    is not read as one makes the comparison raise [TypeError], whatever the
    column holds. *)
Definition ge_text (column : list Timestamp.time) (text : string)
  : outcome (list bool) :=
  match parse_timestamp text with
  | Some t => Returned (map (fun x => Timestamp.ge x t) column)
  | None => Raised invalid_comparison
  end.

Definition le_text (column : list Timestamp.time) (text : string)
  : outcome (list bool) :=
  match parse_timestamp text with
  | Some t => Returned (map (fun x => Timestamp.le x t) column)
  | None => Raised invalid_comparison
  end.

(** The loop over [schedule_data]: each interval appends the rows of
    [row_first_checked] it selects to [df]. *)
Fixpoint schedule_loop (row_first_checked : list Row)
         (schedule_data : list interval) (df : list Row)
  : outcome (list Row) :=
  match schedule_data with
  | [] => Returned df
  | (start, end_) :: schedule_data' =>
      obind (ge_text (map commence row_first_checked) start) (fun m1 =>
      obind (le_text (map termine row_first_checked) end_) (fun m2 =>
      schedule_loop row_first_checked schedule_data'
                    (df ++ select row_first_checked (mask_and m1 m2))))
  end.

(** The loop over the groups, [cpt] being the next free row of the grid. *)
Fixpoint compute_loop (p : Parent) (student : list (Group.key * list Row))
         (cpt : nat) : M WidgetResult unit :=
  match student with
  | [] => ret tt
  | (name, group) :: student' =>
      let full_name := Group.full_name name in
      if mem full_name (checked_items (widget_student_filter p)) then
        (let row_first_checked := filter completed group in
         schedule_data <- lift (get_data (widget_json_schedule p)) ;;
         df <- lift (schedule_loop row_first_checked schedule_data []) ;;
         modify (addWidgets {| grid_row := cpt;
                               student := full_name;
                               max_score := max_label df;
                               notes := notes_label df |}) ;;;
         compute_loop p student' (S cpt))%py
      else compute_loop p student' cpt
  end.

Definition compute (p : Parent) : M WidgetResult unit :=
  match data p with
  | None => raise (mk_exn ValueError (Msg "There is no data to compute"))
  | Some d =>
      if negb (issubset EXPECTED_COLUMNS (columns d)) then
        raise (mk_exn ValueError
                      (MissingCols (difference EXPECTED_COLUMNS (columns d))))
      else
        (compute_loop p (groupby d) 1 ;;;
         modify exec_dialog)%py
  end.

(** ** What [compute] is expected to produce

    The notions the statements about [compute] are phrased with. *)

(** Both texts of the interval are read (as a timestamp or as NaT). *)
Definition readable (iv : interval) : Prop :=
  parse_timestamp (fst iv) <> None /\ parse_timestamp (snd iv) <> None.

Definition readableb (iv : interval) : bool :=
  match parse_timestamp (fst iv), parse_timestamp (snd iv) with
  | Some _, Some _ => true
  | _, _ => false
  end.

(** The row started at or after the start of the interval and was
    completed at or before its end. *)
Definition within (iv : interval) (r : Row) : bool :=
  match parse_timestamp (fst iv), parse_timestamp (snd iv) with
  | Some t0, Some t1 =>
      Timestamp.ge (commence r) t0 && Timestamp.le (termine r) t1
  | _, _ => false
  end.

(** The matched rows of a group: interval after interval, the completed
    rows of the group that lie within it. *)
Definition matched_rows (schedule_data : list interval) (group : list Row)
  : list Row :=
  flat_map (fun iv => filter (within iv) (filter completed group))
           schedule_data.

Definition selected (checked : list string) (g : Group.key * list Row) : bool :=
  mem (Group.full_name (fst g)) checked.

(** The result row of a group, put on row [cpt] of the grid. *)
Definition result_row (schedule_data : list interval) (cpt : nat)
           (g : Group.key * list Row) : ResultRow :=
  {| grid_row := cpt;
     student := Group.full_name (fst g);
     max_score := max_label (matched_rows schedule_data (snd g));
     notes := notes_label (matched_rows schedule_data (snd g)) |}.

(** The result rows of the given groups, numbered from [cpt] on. *)
Fixpoint result_rows (schedule_data : list interval)
         (groups : list (Group.key * list Row)) (cpt : nat)
  : list ResultRow :=
  match groups with
  | [] => []
  | g :: groups' =>
      result_row schedule_data cpt g
      :: result_rows schedule_data groups' (S cpt)
  end.
End Compute.

Definition float_eq_dec (x y : Float64.float) : {x = y} + {x <> y}.
Proof.
  decide equality; auto using Bool.bool_dec, Pos.eq_dec, Z.eq_dec.
Defined.

Definition option_eq_dec {A} (dec : forall a b : A, {a = b} + {a <> b})
           (x y : option A) : {x = y} + {x <> y}.
Proof.
  decide equality.
Defined.

Definition Row_eq_dec (x y : Row) : {x = y} + {x <> y}.
Proof.
  decide equality;
    solve [ apply float_eq_dec
          | apply (option_eq_dec Z.eq_dec)
          | apply (option_eq_dec string_dec) ].
Defined.

(** [compute] as the class exports it, under [@supervisor]: over the
    widget and the message boxes shown so far. *)
Definition compute_supervised (EXPECTED_COLUMNS : list string)
           (parse_timestamp : string -> option Timestamp.time)
  : Parent -> M (WidgetResult * list exn) unit :=
  Supervisor.decorated tt (compute EXPECTED_COLUMNS parse_timestamp).

End Engine.

(* ===================================================================== *)
(** * Worked examples *)
(* ===================================================================== *)

Module Examples.
Import Schedule.

(** ** A callback under the supervisor *)

(** A callback that raises [e] at once, in a program whose state is the
    list of the exceptions reported so far. *)
Definition failing (e : exn) : unit -> M (list exn) unit := fun _ => raise e.

(** The message box: the exception is added to those reported. *)
Definition message_box (e : exn) (boxes : list exn) : list exn := boxes ++ [e].

Definition supervised_failing (e : exn) : unit -> M (list exn) unit :=
  Supervisor.supervisor (list exn) unit unit tt message_box (failing e).

Definition no_data : exn :=
  mk_exn ValueError (Msg "There is no data to compute").
Definition interrupt : exn := mk_exn KeyboardInterrupt (Msg "").

(** ** A schedule *)

Definition math_widget : TwoColumnWidget :=
  {| class_info := [("Math", [])];
     class_selection := {| items := ["Math"]; currentIndex := Some 0 |};
     table := [(Some "2024-01-01 00:00", Some "2024-01-02 00:00")] |}.

(** A widget with no class and an empty table: saving it records the
    placeholder [{'': []}]. *)
Definition empty_widget : TwoColumnWidget :=
  {| class_info := [];
     class_selection := {| items := []; currentIndex := None |};
     table := [] |}.

(** ** Frames for the loader *)

(** Modelled from the spec: [EXPECTED_COLUMNS] of [lib/parameters.py],
    which is not among the sources.  The six required columns of the
    input format, with the accented names in the bytes that
    [csv_file_manager.py] has for them. *)
Definition EXPECTED_COLUMNS : list string :=
  ["Nom de famille"; "Pr√©nom"; "Statut"; "Commenc√©"; "Termin√©";
   "Note/20,00"].

Definition csv_notes (scores : list string) : Loader.DataFrame :=
  [("Nom de famille", [Loader.CStr "Durand"; Loader.CStr "Martin"]);
   ("Pr√©nom", [Loader.CStr "Alice"; Loader.CStr "Bob"]);
   ("Adresse de courriel", [Loader.CStr "a@x.fr"; Loader.CStr "b@x.fr"]);
   ("Statut", [Loader.CStr "Terminée"; Loader.CStr "Terminée"]);
   ("Commenc√©", [Loader.CStr "12 Mars 2024 10:30:00";
                   Loader.CStr "12 Mars 2024 10:31:00"]);
   ("Termin√©", [Loader.CStr "12 Mars 2024 11:00:00";
                  Loader.CStr "12 Mars 2024 11:05:00"]);
   ("Note/20,00", map Loader.CStr scores)].

(** An earlier export, already loaded when the examples start. *)
Definition frame_loaded : Loader.DataFrame :=
  [("Nom de famille", [Loader.CStr "Petit"]);
   ("Pr√©nom", [Loader.CStr "Zoé"]);
   ("Statut", [Loader.CStr "Terminée"]);
   ("Commenc√©", [Loader.CTime (Timestamp.civil 2024 3 1 9 0 0)]);
   ("Termin√©", [Loader.CTime (Timestamp.civil 2024 3 1 9 30 0)]);
   ("Note/20,00", [Loader.CFloat (Float64.of_decimal false 1400 2)])].

(** An export without its status column. *)
Definition csv_no_status : Loader.DataFrame :=
  Loader.remove (csv_notes ["15,50"; "0,00"]) "Statut".

Definition read_csv (path : string) : outcome Loader.DataFrame :=
  if String.eqb path "notes.csv" then Returned (csv_notes ["15,50"; "0,00"])
  else if String.eqb path "no_status.csv" then Returned csv_no_status
  else if String.eqb path "bad_score.csv"
       then Returned (csv_notes ["15,50"; "absent"])
  else Raised (mk_exn OSError (Msg "No such file or directory")).

(** [to_datetime] with the French format, cell by cell. *)
Definition to_datetime : Loader.Series -> outcome Loader.Series :=
  Loader.apply
    (fun x =>
       match x with
       | Loader.CStr s =>
           match Timestamp.strptime_fr s with
           | Some t => Returned (Loader.CTime (Some t))
           | None =>
               Raised (mk_exn ValueError
                         (Msg "time data doesn't match format"))
           end
       | Loader.CFloat S754_nan => Returned (Loader.CTime Timestamp.NaT)
       | Loader.CTime t => Returned (Loader.CTime t)
       | _ => Raised (mk_exn TypeError (Msg "not convertible to datetime"))
       end).

Definition window (path : string) : Loader.MainWindow :=
  {| Loader.data := Some frame_loaded;
     Loader.widget_input_file := path;
     Loader.model :=
       Some {| Loader._data := frame_loaded;
               Loader._header := Loader.columns frame_loaded |};
     Loader.widget_table_data :=
       Some {| Loader._data := frame_loaded;
               Loader._header := Loader.columns frame_loaded |};
     Loader.widget_student_filter := [("Petit Zoé", true)] |}.

Definition load_data : M Loader.MainWindow unit :=
  Loader.load_data EXPECTED_COLUMNS read_csv to_datetime
                   Float64.float_of_string.

(** ** A frame for the result engine *)

(** Modelled from the spec: [EXPECTED_COLUMNS] of [lib/parameters.py],
    with the accented names in the bytes that [widget_result.py] has for
    them. *)
Definition EXPECTED : list string :=
  ["Nom de famille"; "Prénom"; "Statut"; "Commencé"; "Terminé";
   "Note/20,00"].

Definition attempt (last first status : string) (day hour : Z)
           (score : Float64.float) : Engine.Row :=
  {| Engine.nom_de_famille := Some last;
     Engine.prenom := Some first;
     Engine.statut := Some status;
     Engine.commence := Timestamp.civil 2024 1 day hour 0 0;
     Engine.termine := Timestamp.civil 2024 1 day hour 30 0;
     Engine.note := score |}.

Definition score (hundredths : N) : Float64.float :=
  Float64.of_decimal false hundredths 2.

(** Martin Bob comes first in the file, Durand Alice first in the
    groups.  Alice has three completed attempts on 1 January and one
    that is still in progress; Bob has one completed attempt whose
    score is NaN. *)
Definition frame : Engine.DataFrame :=
  {| Engine.columns := "Adresse de courriel" :: EXPECTED;
     Engine.rows :=
       [attempt "Martin" "Bob" "Terminée" 1 9 Float64.nan;
        attempt "Durand" "Alice" "Terminée" 1 10 (score 1250);
        attempt "Durand" "Alice" "Terminée" 1 11 (score 0);
        attempt "Durand" "Alice" "En cours" 1 12 (score 2000);
        attempt "Durand" "Alice" "Terminée" 1 13 (score 1800)] |}.

Definition everyone : CheckableComboBox :=
  [("Durand Alice", true); ("Martin Bob", true)].
Definition alice_only : CheckableComboBox :=
  [("Durand Alice", true); ("Martin Bob", false)].
Definition bob_only : CheckableComboBox :=
  [("Durand Alice", false); ("Martin Bob", true)].

Definition new_year : table_row :=
  (Some "2024-01-01 00:00", Some "2024-01-02 00:00").
Definition morning : table_row :=
  (Some "2024-01-01 00:00", Some "2024-01-01 12:00").
Definition garbled : table_row :=
  (Some "demain", Some "2024-01-02 00:00").
Definition untouched : table_row := (None, None).

Definition parent (checked : CheckableComboBox) (t : QTableWidget)
  : Engine.Parent :=
  {| Engine.data := Some frame;
     Engine.widget_student_filter := checked;
     Engine.widget_json_schedule := t |}.

Definition fresh : Engine.WidgetResult :=
  {| Engine.layout_result := []; Engine.dialog_exec := 0 |}.

Definition compute : Engine.Parent -> M Engine.WidgetResult unit :=
  Engine.compute EXPECTED Timestamp.parse_iso.

End Examples.

(* ===================================================================== *)
(** * frame/tool_bar.py *)
(* ===================================================================== *)

Module ToolBar.
Section Actions.
(** The functions connected to actions: each is called with the parent
    window. *)
Variable slot : Type.

(** A [QAction] child of the toolbar: its object name and the functions
    connected to its [triggered] signal by [on_triggered], in connection
    order. *)
Record QAction := {
  objectName : string;
  connected : list slot
}.

(** The [QAction] children of the toolbar, in creation order. *)
Definition ToolBar := list QAction.

Definition add_action (action_name : string) (t : ToolBar) : ToolBar :=
  t ++ [{| objectName := action_name; connected := [] |}].

(** [findChild(QAction, action_name)] for a name that is not empty: the
    first action of that name. *)
Fixpoint findChild (t : ToolBar) (action_name : string) : option QAction :=
  match t with
  | [] => None
  | a :: t' =>
      if String.eqb (objectName a) action_name then Some a
      else findChild t' action_name
  end.

(** [button.triggered.connect(...)] on the action that [findChild] gives. *)
Fixpoint connect (t : ToolBar) (action_name : string) (function : slot)
  : ToolBar :=
  match t with
  | [] => []
  | a :: t' =>
      if String.eqb (objectName a) action_name
      then {| objectName := objectName a;
              connected := connected a ++ [function] |} :: t'
      else a :: connect t' action_name function
  end.

Definition on_triggered (action_name : string) (function : slot) (t : ToolBar)
  : outcome ToolBar :=
  match findChild t action_name with
  | None =>
      Raised (mk_exn ValueError
                (Msg ("Action '" ++ action_name ++ "' not found in toolbar.")))
  | Some _ => Returned (connect t action_name function)
  end.
End Actions.
End ToolBar.

(* ===================================================================== *)
(** * Scenarios *)
(* ===================================================================== *)

Module Scenarios.
Import Schedule.

(** Two classes, the second selected, with an edit of its table that is
    not saved yet. *)
Definition two_classes : TwoColumnWidget :=
  {| class_info :=
       [("Math", [("2024-01-01 00:00", "2024-01-02 00:00")]);
        ("Physics", [("2024-02-01 08:00", "2024-02-01 10:00")])];
     class_selection :=
       {| items := ["Math"; "Physics"]; currentIndex := Some 1 |};
     table := [(Some "2024-02-01 08:00", Some "2024-02-01 12:00");
               (None, None)] |}.

(** The file written when both classes were saved. *)
Definition two_classes_file : file :=
  Some (dump (class_info two_classes)).

(** A drop-down whose current text names no class of the collection. *)
Definition orphan : TwoColumnWidget :=
  {| class_info := [];
     class_selection := {| items := ["Math"]; currentIndex := Some 0 |};
     table := [] |}.

(** The student filter after a load, the second student then unchecked. *)
Definition filter : CheckableComboBox :=
  [("Durand Alice", true); ("Martin Bob", false); ("Petit Zoé", true)].

(** The path the file dialog returns for the export of [Examples.csv_notes]
    and what [read_csv] makes of the text of the input line. *)
Definition read_csv (path : string) : outcome Loader.DataFrame :=
  if String.eqb path "File: /home/prof/notes.CSV"
  then Returned (Examples.csv_notes ["15,50"; "0,00"])
  else if String.eqb path "File: /home/prof/no_status.csv"
  then Returned Examples.csv_no_status
  else Raised (mk_exn OSError (Msg "No such file or directory")).

Definition open_csv : string -> M Loader.gui unit :=
  Loader.open_csv Examples.EXPECTED_COLUMNS read_csv Examples.to_datetime
                  Float64.float_of_string.

(** The window with one message box shown earlier. *)
Definition gui : Loader.gui := (Examples.window "", [Examples.no_data]).

(** The window after the export "notes.csv" is loaded. *)
Definition loaded : Loader.MainWindow :=
  Eval vm_compute in snd (Examples.load_data (Examples.window "notes.csv")).

(** The model of the frame loaded first, and a frame with one more
    column. *)
Definition old_model : Loader.PandasModel :=
  {| Loader._data := Examples.frame_loaded;
     Loader._header := Loader.columns Examples.frame_loaded |}.

(** The widget after one [compute] on the example frame. *)
Definition computed : Engine.WidgetResult :=
  Eval vm_compute in
  snd (Examples.compute (Examples.parent Examples.everyone
                                         [Examples.new_year])
                        Examples.fresh).

End Scenarios.

(* ===================================================================== *)
(** * Facts: sets of names and texts *)
(* ===================================================================== *)

Section TextFacts.

Lemma mem_In x l : mem x l = true <-> In x l.
Proof.
  induction l as [| y l IH]; simpl; [split; [discriminate | tauto] |].
  destruct (String.eqb_spec x y) as [-> | N]; [tauto |].
  rewrite IH. split; [tauto | intros [E | H]; [congruence | exact H]].
Qed.

Lemma difference_spec a b x :
  In x (difference a b) <-> In x a /\ ~ In x b.
Proof.
  induction a as [| y a IH]; simpl; [tauto |].
  destruct (mem y b) eqn:Eb.
  - apply mem_In in Eb. rewrite IH.
    split; [tauto | intros [[-> | H] N]; tauto].
  - assert (Nb : ~ In y b) by (rewrite <- mem_In; congruence).
    destruct (mem y (difference a b)) eqn:Ed.
    + apply mem_In in Ed. rewrite IH in *.
      split; [tauto | intros [[<- | H] N]; tauto].
    + simpl. rewrite IH.
      split; [intros [<- | H]; tauto | tauto].
Qed.

Lemma difference_NoDup a b : NoDup (difference a b).
Proof.
  induction a as [| y a IH]; simpl; [constructor |].
  destruct (mem y b); [exact IH |].
  destruct (mem y (difference a b)) eqn:Ed; [exact IH |].
  constructor; [| exact IH]. rewrite <- mem_In. congruence.
Qed.

Lemma issubset_difference a b :
  issubset a b = true <-> difference a b = [].
Proof.
  unfold issubset. rewrite forallb_forall. split.
  - intros H. destruct (difference a b) as [| x l] eqn:E; [reflexivity |].
    assert (Hx : In x (difference a b)) by (rewrite E; now left).
    apply difference_spec in Hx. destruct Hx as [Ha Hb].
    apply H, mem_In in Ha. contradiction.
  - intros E x Hx. destruct (mem x b) eqn:Eb; [reflexivity |].
    assert (Hd : In x (difference a b)).
    { apply difference_spec. split; [exact Hx |].
      rewrite <- mem_In. congruence. }
    rewrite E in Hd. destruct Hd.
Qed.

(** A character other than [old] and [new] is left where it is. *)
Lemma replace_app old new s t :
  replace old new (s ++ t)%string =
    (replace old new s ++ replace old new t)%string.
Proof.
  induction s as [| c s IH]; simpl; [reflexivity |]. now rewrite IH.
Qed.

Lemma digit_not_comma c d :
  Float64.digit_value c = Some d -> Ascii.eqb c "," = false.
Proof.
  unfold Float64.digit_value. intros H.
  destruct (Ascii.eqb_spec c ","); [subst; discriminate | reflexivity].
Qed.

Lemma digit_not_dot c d :
  Float64.digit_value c = Some d -> Ascii.eqb c "." = false.
Proof.
  unfold Float64.digit_value. intros H.
  destruct (Ascii.eqb_spec c "."); [subst; discriminate | reflexivity].
Qed.

Lemma replace_digits s :
  Float64.all_digits s = true -> replace "," "." s = s.
Proof.
  induction s as [| c s IH]; simpl; [reflexivity |].
  destruct (Float64.digit_value c) eqn:E; [| discriminate].
  intros H. rewrite (digit_not_comma _ _ E), IH by exact H. reflexivity.
Qed.

Lemma cut_at_dot_digits i f :
  Float64.all_digits i = true ->
  Float64.cut_at_dot (i ++ "." ++ f)%string = (i, Some f).
Proof.
  induction i as [| c i IH]; simpl; [reflexivity |].
  destruct (Float64.digit_value c) eqn:E; [| discriminate].
  intros H. simpl in IH. rewrite (digit_not_dot _ _ E), IH by exact H.
  reflexivity.
Qed.

Lemma all_digits_app s t :
  Float64.all_digits (s ++ t)%string =
    Float64.all_digits s && Float64.all_digits t.
Proof.
  induction s as [| c s IH]; simpl; [reflexivity |].
  destruct (Float64.digit_value c); [exact IH | reflexivity].
Qed.

Lemma digits_value_total s : forall acc,
  Float64.all_digits s = true ->
  exists m, Float64.digits_value s acc = Some m.
Proof.
  induction s as [| c s IH]; simpl; intros acc H; [now exists acc |].
  destruct (Float64.digit_value c); [now apply IH | discriminate].
Qed.

(** On [integer.fraction], [float] is the nearest binary64 to the decimal
    number the digits denote. *)
Lemma float_of_string_decimal i f m :
  Float64.all_digits i = true ->
  Float64.all_digits f = true ->
  i <> "" ->
  Float64.digits_value (i ++ f)%string 0 = Some m ->
  Float64.float_of_string (i ++ "." ++ f)%string =
    Some (Float64.of_decimal false m (String.length f)).
Proof.
  intros Hi Hf Hne Hm.
  destruct i as [| c i]; [congruence |].
  assert (Hc : exists d, Float64.digit_value c = Some d).
  { simpl in Hi. destruct (Float64.digit_value c); [eauto | discriminate]. }
  destruct Hc as [d Hd].
  assert (Hsign : Float64.float_of_string (String c i ++ "." ++ f)%string =
                  Float64.of_unsigned false (String c i ++ "." ++ f)%string).
  { unfold Float64.float_of_string. simpl.
    destruct c as [[] [] [] [] [] [] [] []]; try reflexivity;
      discriminate Hd. }
  rewrite Hsign. unfold Float64.of_unsigned.
  rewrite (cut_at_dot_digits _ _ Hi). simpl in Hm |- *. rewrite Hm.
  reflexivity.
Qed.
End TextFacts.

(* ===================================================================== *)
(** * Facts: the supervisor decorator *)
(* ===================================================================== *)

Section SupervisorFacts.
Variables S Args A : Type.
Variable py_None : A.
Variable critical : exn -> S -> S.

#[local] Abbreviation supervised :=
  (Supervisor.supervisor S Args A py_None critical).

Lemma supervisor_returned (func : Args -> M S A) args s v s' :
  func args s = (Returned v, s') ->
  supervised func args s = (Returned v, s').
Proof.
  unfold Supervisor.supervisor, Supervisor.wrapper.
  intros ->. reflexivity.
Qed.

Lemma supervisor_raised (func : Args -> M S A) args s e s' :
  func args s = (Raised e, s') ->
  supervised func args s =
    if is_Exception e then (Returned py_None, critical e s')
    else (Raised e, s').
Proof.
  unfold Supervisor.supervisor, Supervisor.wrapper.
  intros ->. reflexivity.
Qed.

(** C9, as amended.  A wrapped function that returns has its value and
    its effects passed on unchanged.  When it raises an exception of the
    [Exception] hierarchy, the wrapper reports it in a message box and
    returns [None]: nothing reaches the caller.  An exception outside
    that hierarchy ([KeyboardInterrupt], [SystemExit], [GeneratorExit])
    is not caught and reaches the caller as raised. *)
Theorem supervisor_catches_Exception (func : Args -> M S A) args s :
  (forall v s', func args s = (Returned v, s') ->
                supervised func args s = (Returned v, s')) /\
  (forall e s', func args s = (Raised e, s') ->
                is_Exception e = true ->
                supervised func args s = (Returned py_None, critical e s')) /\
  (forall e s', func args s = (Raised e, s') ->
                is_Exception e = false ->
                supervised func args s = (Raised e, s')) /\
  ((forall e s', func args s = (Raised e, s') -> is_Exception e = true) ->
   exists v s', supervised func args s = (Returned v, s')).
Proof.
  split; [| split; [| split]].
  - intros v s' H. now apply supervisor_returned.
  - intros e s' H He. rewrite (supervisor_raised _ _ _ _ _ H), He. reflexivity.
  - intros e s' H He. rewrite (supervisor_raised _ _ _ _ _ H), He. reflexivity.
  - intros Hexc. destruct (func args s) as [[v | e] s'] eqn:H.
    + exists v, s'. now apply supervisor_returned.
    + exists py_None, (critical e s').
      rewrite (supervisor_raised _ _ _ _ _ H), (Hexc e s' eq_refl).
      reflexivity.
Qed.
End SupervisorFacts.

(* ===================================================================== *)
(** * Facts: the schedule table and its persistence *)
(* ===================================================================== *)

Section ScheduleFacts.
Import Schedule.

Lemma cell_text_item (t : QTableWidget) row col :
  cell_text t row col =
    Returned (match item t row col with Some s => s | None => "" end).
Proof.
  unfold cell_text. destruct (item t row col); reflexivity.
Qed.

Lemma item_at (pre : QTableWidget) r rest :
  item (pre ++ r :: rest) (List.length pre) 0 = fst r /\
  item (pre ++ r :: rest) (List.length pre) 1 = snd r.
Proof.
  unfold item. rewrite nth_error_app2, Nat.sub_diag by lia.
  destruct r; split; reflexivity.
Qed.

(** The loop appends, row after row, the interval of each remaining row. *)
Lemma get_data_loop_spec rest : forall pre acc,
  get_data_loop (pre ++ rest) (seq (List.length pre) (List.length rest)) acc
  = Returned (acc ++ intervals_of rest).
Proof.
  induction rest as [| r rest IH]; intros pre acc; simpl.
  - now rewrite app_nil_r.
  - rewrite !cell_text_item.
    destruct (item_at pre r rest) as [-> ->]. simpl.
    replace (pre ++ r :: rest) with ((pre ++ [r]) ++ rest)
      by (rewrite <- app_assoc; reflexivity).
    replace (Datatypes.S (List.length pre)) with (List.length (pre ++ [r]))
      by (rewrite length_app; simpl; lia).
    rewrite IH, <- app_assoc. reflexivity.
Qed.

Lemma get_data_spec (t : QTableWidget) :
  get_data t = Returned (intervals_of t).
Proof.
  unfold get_data, rowCount. apply (get_data_loop_spec t [] []).
Qed.

(** C10.  Whatever the table holds, [get_data] returns and never raises:
    its result has one pair of texts per row of the table, in row order,
    the pair of a row being the texts of its two items with the empty
    text in place of an item that is absent; a row with no item at all
    gives the pair of two empty texts. *)
Theorem get_data_one_pair_per_row (t : QTableWidget) :
  exists l,
    get_data t = Returned l /\
    List.length l = rowCount t /\
    (forall row c0 c1,
        nth_error t row = Some (c0, c1) ->
        nth_error l row =
          Some (match c0 with Some s => s | None => "" end,
                match c1 with Some s => s | None => "" end)) /\
    (forall row, nth_error t row = Some (None, None) ->
                 nth_error l row = Some ("", "")).
Proof.
  exists (intervals_of t). split; [apply get_data_spec |].
  unfold intervals_of, rowCount. split; [apply length_map |].
  split.
  - intros row c0 c1 H. now rewrite (map_nth_error _ _ _ H).
  - intros row H. now rewrite (map_nth_error _ _ _ H).
Qed.

(** ** Dictionaries *)

Lemma dict_set_fresh {V} (d : dict V) k v :
  ~ In k (keys d) -> dict_set d k v = d ++ [(k, v)].
Proof.
  induction d as [| [k' v'] d IH]; simpl; intros H; [reflexivity |].
  destruct (String.eqb_spec k k') as [-> | _]; [tauto |].
  rewrite IH by tauto. reflexivity.
Qed.

Lemma keys_dict_set {V} (d : dict V) k v :
  keys (dict_set d k v) = if mem k (keys d) then keys d else keys d ++ [k].
Proof.
  induction d as [| [k' v'] d IH]; simpl; [reflexivity |].
  destruct (String.eqb_spec k k') as [-> | _]; simpl; [reflexivity |].
  rewrite IH. destruct (mem k (keys d)); reflexivity.
Qed.

Lemma NoDup_keys_dict_set {V} (d : dict V) k v :
  NoDup (keys d) -> NoDup (keys (dict_set d k v)).
Proof.
  intros H. rewrite keys_dict_set.
  destruct (mem k (keys d)) eqn:E; [exact H |].
  apply NoDup_app; [exact H | repeat constructor; simpl; tauto |].
  intros x Hx [<- | []]. apply mem_In in Hx. congruence.
Qed.

(** ** [json.load] after [json.dump] *)

Lemma load_intervals_dump (ivs : list interval) :
  load_intervals (map dump_interval ivs) = Some ivs.
Proof.
  induction ivs as [| [a b] ivs IH]; simpl; [reflexivity |].
  rewrite IH. reflexivity.
Qed.

Lemma load_members_dump (ci : dict (list interval)) : forall d,
  NoDup (keys d ++ keys ci) ->
  load_members
    (map (fun kv => (fst kv, JArray (map dump_interval (snd kv)))) ci) d
  = Some (d ++ ci).
Proof.
  induction ci as [| [k ivs] ci IH]; intros d H; simpl.
  - now rewrite app_nil_r.
  - rewrite load_intervals_dump.
    assert (Hk : ~ In k (keys d)).
    { simpl in H. apply NoDup_remove_2 in H. rewrite in_app_iff in H. tauto. }
    rewrite (dict_set_fresh d k ivs Hk), IH.
    + rewrite <- app_assoc. reflexivity.
    + unfold keys in *. rewrite map_app, <- app_assoc. exact H.
Qed.

Lemma load_dump (ci : dict (list interval)) :
  NoDup (keys ci) -> load (dump ci) = Some ci.
Proof.
  intros H. unfold load, dump. now rewrite load_members_dump.
Qed.

Lemma class_info_load_data w : class_info (load_data w) = class_info w.
Proof.
  unfold load_data.
  destruct (dict_get (class_info w) (currentText (class_selection w)));
    reflexivity.
Qed.

Lemma init_class_info f ci :
  match f with Some j => load j | None => Some [] end = Some ci ->
  option_map class_info (init f) = Some ci.
Proof.
  unfold init. intros ->. simpl. now rewrite class_info_load_data.
Qed.

(** C4.  [class_save] first records the intervals of the table under the
    selected class.  When the collection is then anything but the
    placeholder [{'': []}], the file holds its JSON document, and a widget
    initialised from the file has an equal collection: same classes in
    the same order, same intervals.  When it is the placeholder, the file
    is gone, whether it existed or not, and a widget initialised
    afterwards has the empty collection. *)
Theorem class_save_then_init (w : TwoColumnWidget) (f : file) :
  NoDup (keys (class_info w)) ->
  exists w' f',
    class_save (w, f) = (Returned tt, (w', f')) /\
    class_info w' =
      dict_set (class_info w) (currentText (class_selection w))
               (intervals_of (table w)) /\
    (is_placeholder (class_info w') = false ->
     f' = Some (dump (class_info w')) /\
     option_map class_info (init f') = Some (class_info w')) /\
    (is_placeholder (class_info w') = true ->
     f' = None /\ option_map class_info (init f') = Some []).
Proof.
  intros Hnd. unfold class_save. rewrite get_data_spec. cbn [class_info].
  set (ci := dict_set _ _ _).
  assert (Hci : NoDup (keys ci)) by (apply NoDup_keys_dict_set, Hnd).
  destruct (is_placeholder ci) eqn:E; cbn [negb].
  - exists {| class_info := ci; class_selection := class_selection w;
              table := table w |}, None.
    split; [destruct f; reflexivity |]. cbn [class_info].
    split; [reflexivity |]. rewrite E. split; [discriminate |].
    intros _. split; reflexivity.
  - eexists _, _. split; [reflexivity |]. cbn [class_info].
    split; [reflexivity |]. fold ci. rewrite E. split; [| discriminate].
    intros _. split; [reflexivity |].
    apply init_class_info, load_dump, Hci.
Qed.
End ScheduleFacts.

(* ===================================================================== *)
(** * Facts: the dataset loader *)
(* ===================================================================== *)

Section LoaderFacts.
Import Loader.

Variable EXPECTED_COLUMNS : list string.
Variable read_csv : string -> outcome DataFrame.
Variable to_datetime : Series -> outcome Series.
Variable float_of_text : string -> option Float64.float.

#[local] Abbreviation load :=
  (load_data EXPECTED_COLUMNS read_csv to_datetime float_of_text).
#[local] Abbreviation score := (score_of_cell float_of_text).

Lemma set_data_set_data d d' p : set_data d' (set_data d p) = set_data d' p.
Proof. reflexivity. Qed.

(** One column assignment, from a window whose [data] is [d]. *)
Lemma convert_column_run col f d p :
  convert_column col f (set_data d p) =
    match getitem d col with
    | Raised e => (Raised e, set_data d p)
    | Returned s =>
        match f s with
        | Raised e => (Raised e, set_data d p)
        | Returned s' => (Returned tt, set_data (setitem d col s') p)
        end
    end.
Proof.
  unfold convert_column, bind, lift, modify, the_data. simpl.
  destruct (getitem d col); [| reflexivity].
  destruct (f a); reflexivity.
Qed.

(** The statements of [load_data] up to the column check. *)
Lemma load_data_run p :
  load p =
    match read_csv (widget_input_file p) with
    | Raised e => (Raised e, p)
    | Returned d =>
        match difference EXPECTED_COLUMNS (columns d) with
        | (_ :: _) as missing_cols =>
            (Raised (mk_exn ValueError (MissingCols missing_cols)),
             set_data d p)
        | [] =>
            bind (convert_column "Commenc√©" to_datetime) (fun _ =>
            bind (convert_column "Termin√©" to_datetime) (fun _ =>
            bind (convert_column "Note/20,00" (apply score)) (fun _ =>
            bind (reorder (combine ["Statut"; "Commenc√©"; "Termin√©";
                                    "Note/20,00"] [2; 3; 4; 5]%nat))
                 (fun _ =>
            bind the_data (fun d =>
            bind (modify (set_model {| _data := d; _header := columns d |}))
                 (fun _ =>
            bind (modify set_table_model) (fun _ =>
            bind (modify (set_student_filter [])) (fun _ =>
            bind (lift (group_names d)) (fun names =>
            modify (fun p =>
                      set_student_filter
                        (fold_left
                           (fun c name =>
                              Schedule.add_checkable_item
                                c (Group.full_name name) true)
                           names (widget_student_filter p)) p))))))))))
              (set_data d p)
        end
    end.
Proof.
  unfold load_data. unfold bind at 1 2 3. unfold get, lift at 1.
  unfold modify at 1.
  destruct (read_csv (widget_input_file p)) as [d | e]; [| reflexivity].
  destruct (difference EXPECTED_COLUMNS (columns d)); reflexivity.
Qed.

(** [apply] raises exactly when a cell does, with the exception of the
    first such cell. *)
Lemma apply_raises f (s : Series) x e :
  In x s -> f x = Raised e -> exists e', apply f s = Raised e'.
Proof.
  induction s as [| y s IH]; simpl; [tauto |].
  intros [-> | Hin] Hx.
  - rewrite Hx. simpl. eauto.
  - destruct (f y); simpl; [| eauto].
    destruct (IH Hin Hx) as [e' ->]. simpl. eauto.
Qed.

Lemma apply_returns f (s s' : Series) :
  apply f s = Returned s' ->
  List.length s' = List.length s /\
  forall i x, nth_error s i = Some x ->
              exists y, f x = Returned y /\ nth_error s' i = Some y.
Proof.
  revert s'. induction s as [| x s IH]; simpl; intros s' H.
  - inversion H. split; [reflexivity |]. intros [] ? ?; discriminate.
  - destruct (f x) as [y |] eqn:Ex; simpl in H; [| discriminate].
    destruct (apply f s) as [ys |] eqn:Es; simpl in H; [| discriminate].
    inversion H; subst. destruct (IH ys eq_refl) as [Hl Hn].
    split; [simpl; now rewrite Hl |].
    intros [| i] z Hz; simpl in *.
    + inversion Hz; subst. eauto.
    + now apply Hn.
Qed.

(** C5.  When the frame read from the file lacks required columns, the
    load stops at the column check, which comes first: it raises the
    error that names the missing set, which is exactly the required
    columns that are not columns of the frame, each once.  Nothing later
    has run: [parent.data] is the frame as read, no column converted or
    moved, and the model, its view and the student filter are as before
    the call, whatever the date and score conversions would have done. *)
Theorem load_data_missing_columns_first (p : MainWindow) (d : DataFrame) :
  read_csv (widget_input_file p) = Returned d ->
  difference EXPECTED_COLUMNS (columns d) <> [] ->
  load p =
    (Raised (mk_exn ValueError
               (MissingCols (difference EXPECTED_COLUMNS (columns d)))),
     set_data d p) /\
  (forall c, In c (difference EXPECTED_COLUMNS (columns d)) <->
             In c EXPECTED_COLUMNS /\ ~ In c (columns d)) /\
  NoDup (difference EXPECTED_COLUMNS (columns d)).
Proof.
  intros Hread Hmiss. rewrite load_data_run, Hread.
  split; [| split].
  - destruct (difference EXPECTED_COLUMNS (columns d)); [congruence |].
    reflexivity.
  - intros c. apply difference_spec.
  - apply difference_NoDup.
Qed.

(** C2, as amended.  A load that fails while the file is read leaves the
    window, and so the previously loaded dataset, unchanged.  A load that
    fails later has already put the frame just read in [parent.data]: as
    read when required columns are missing or when the started-at column
    does not convert; with the started-at column converted when the
    completed-at column does not convert; with both date columns
    converted when a score does not convert.  In all these cases the
    model, its view and the student filter are those of before the call. *)
Theorem load_data_failure_state (p : MainWindow) :
  (forall e, read_csv (widget_input_file p) = Raised e ->
             load p = (Raised e, p)) /\
  (forall d, read_csv (widget_input_file p) = Returned d ->
     (difference EXPECTED_COLUMNS (columns d) <> [] ->
      load p =
        (Raised (mk_exn ValueError
                   (MissingCols (difference EXPECTED_COLUMNS (columns d)))),
         set_data d p)) /\
     (difference EXPECTED_COLUMNS (columns d) = [] ->
      forall c0, getitem d "Commenc√©" = Returned c0 ->
       (forall e, to_datetime c0 = Raised e ->
                  load p = (Raised e, set_data d p)) /\
       (forall c0', to_datetime c0 = Returned c0' ->
        let d1 := setitem d "Commenc√©" c0' in
        forall c1, getitem d1 "Termin√©" = Returned c1 ->
         (forall e, to_datetime c1 = Raised e ->
                    load p = (Raised e, set_data d1 p)) /\
         (forall c1', to_datetime c1 = Returned c1' ->
          let d2 := setitem d1 "Termin√©" c1' in
          forall c2 e, getitem d2 "Note/20,00" = Returned c2 ->
                       apply score c2 = Raised e ->
                       load p = (Raised e, set_data d2 p))))).
Proof.
  split.
  - intros e Hread. now rewrite load_data_run, Hread.
  - intros d Hread. split.
    + intros Hmiss. rewrite load_data_run, Hread.
      destruct (difference EXPECTED_COLUMNS (columns d)); [congruence |].
      reflexivity.
    + intros Hmiss c0 Hc0. rewrite load_data_run, Hread, Hmiss. split.
      * intros e He. unfold bind at 1.
        now rewrite convert_column_run, Hc0, He.
      * intros c0' Hc0' d1 c1 Hc1. split.
        -- intros e He. unfold bind at 1.
           rewrite convert_column_run, Hc0, Hc0'. unfold bind at 1.
           fold d1. now rewrite convert_column_run, Hc1, He.
        -- intros c1' Hc1' d2 c2 e Hc2 He. unfold bind at 1.
           rewrite convert_column_run, Hc0, Hc0'. unfold bind at 1.
           fold d1. rewrite convert_column_run, Hc1, Hc1'. unfold bind at 1.
           fold d2. now rewrite convert_column_run, Hc2, He.
Qed.

Lemma not_coercible_raises x :
  coercible float_of_text x = false -> exists e, score x = Raised e.
Proof.
  unfold coercible, score_of_cell. destruct x; eauto.
  destruct (float_of_text (replace "," "." s)); [discriminate | eauto].
Qed.

Lemma replace_comma_decimal i f :
  Float64.all_digits i = true -> Float64.all_digits f = true ->
  replace "," "." (i ++ "," ++ f)%string = (i ++ "." ++ f)%string.
Proof.
  intros Hi Hf. rewrite replace_app, (replace_digits i Hi). simpl.
  now rewrite (replace_digits f Hf).
Qed.

(** C6.  A score written [integer,fraction] has its comma replaced by a
    dot and is converted to the binary64 float nearest to the decimal
    number its digits denote: ["15,50"] gives 15.5, which prints back as
    ["15.50"], and ["0,00"] gives 0.0.  A score cell that does not convert,
    because it is not text or because its text with dots for commas is no
    float literal, makes the whole load fail: [load_data] raises at that
    column, and neither the model nor the student filter is updated. *)
Theorem score_parsing_comma_decimal :
  (forall i f,
      Float64.all_digits i = true -> Float64.all_digits f = true ->
      replace "," "." (i ++ "," ++ f)%string = (i ++ "." ++ f)%string) /\
  (forall i f m,
      Float64.all_digits i = true -> Float64.all_digits f = true ->
      i <> ""%string ->
      Float64.digits_value (i ++ f)%string 0 = Some m ->
      score_of_cell Float64.float_of_string (CStr (i ++ "," ++ f)%string) =
        Returned (CFloat (Float64.of_decimal false m (String.length f)))) /\
  score_of_cell Float64.float_of_string (CStr "15,50") =
    Returned (CFloat (S754_finite false (31 * 2 ^ 48) (-49))) /\
  Float64.format_2f (S754_finite false (31 * 2 ^ 48) (-49)) = "15.50" /\
  score_of_cell Float64.float_of_string (CStr "0,00") =
    Returned (CFloat (S754_zero false)) /\
  (forall p d c0 c0' c1 c1' c2 x,
      read_csv (widget_input_file p) = Returned d ->
      difference EXPECTED_COLUMNS (columns d) = [] ->
      getitem d "Commenc√©" = Returned c0 ->
      to_datetime c0 = Returned c0' ->
      getitem (setitem d "Commenc√©" c0') "Termin√©" = Returned c1 ->
      to_datetime c1 = Returned c1' ->
      let d2 := setitem (setitem d "Commenc√©" c0') "Termin√©" c1' in
      getitem d2 "Note/20,00" = Returned c2 ->
      In x c2 ->
      coercible float_of_text x = false ->
      exists e, load p = (Raised e, set_data d2 p)).
Proof.
  split; [exact replace_comma_decimal |].
  split.
  { intros i f m Hi Hf Hne Hm. unfold score_of_cell.
    rewrite (replace_comma_decimal i f Hi Hf).
    now rewrite (float_of_string_decimal i f m Hi Hf Hne Hm). }
  split; [reflexivity |]. split; [reflexivity |]. split; [reflexivity |].
  intros p d c0 c0' c1 c1' c2 x Hread Hmiss Hc0 Hc0' Hc1 Hc1' d2 Hc2 Hx Hn.
  destruct (not_coercible_raises x Hn) as [e0 He0].
  destruct (apply_raises score c2 x e0 Hx He0) as [e He].
  exists e. rewrite load_data_run, Hread, Hmiss.
  unfold bind at 1. rewrite convert_column_run, Hc0, Hc0'.
  unfold bind at 1. rewrite convert_column_run, Hc1, Hc1'.
  unfold bind at 1. fold d2. now rewrite convert_column_run, Hc2, He.
Qed.
End LoaderFacts.

(* ===================================================================== *)
(** * Facts: order on floats and the running maximum *)
(* ===================================================================== *)

Section FloatFacts.
Import Float64.

Ltac cases_compare :=
  repeat match goal with
    | |- context [Z.compare ?a ?b] => destruct (Z.compare_spec a b)
    | H : context [Z.compare ?a ?b] |- _ => destruct (Z.compare_spec a b)
    | |- context [Pos.compare ?a ?b] => destruct (Pos.compare_spec a b)
    | H : context [Pos.compare ?a ?b] |- _ => destruct (Pos.compare_spec a b)
    end.

Ltac float_cases x :=
  destruct x as [[] | [] | | [] ? ?].

(** [<=] is transitive. *)
Lemma float_le_trans x y z : le x y = true -> le y z = true -> le x z = true.
Proof.
  unfold le, SFleb, SFcompare.
  change (Pos.compare_cont Eq) with Pos.compare.
  float_cases x; float_cases y; float_cases z;
    try (intros; reflexivity); try (intros; discriminate);
    cbn [CompOpp]; intros H1 H2; cases_compare; cbn [CompOpp] in *;
    subst; try reflexivity; try discriminate; try lia.
Qed.

(** Two floats that are not NaN compare one way or the other. *)
Lemma float_not_lt_le x y :
  is_nan x = false -> is_nan y = false ->
  SFltb x y = false -> le y x = true.
Proof.
  unfold le, SFleb, SFltb, SFcompare, is_nan.
  change (Pos.compare_cont Eq) with Pos.compare.
  float_cases x; float_cases y;
    try (intros; reflexivity); try (intros; discriminate);
    cbn [CompOpp]; intros _ _ H; cases_compare; cbn [CompOpp] in *;
    subst; try reflexivity; try discriminate; try lia.
Qed.

Lemma float_lt_le x y : SFltb x y = true -> le x y = true.
Proof.
  unfold le, SFleb, SFltb. destruct (SFcompare x y) as [[] |];
    intros; try reflexivity; discriminate.
Qed.

Lemma float_le_refl x : is_nan x = false -> le x x = true.
Proof.
  intros H. apply float_not_lt_le; try exact H.
  unfold SFltb, SFcompare. change (Pos.compare_cont Eq) with Pos.compare.
  float_cases x; try reflexivity; try discriminate;
    rewrite Z.compare_refl, Pos.compare_refl; reflexivity.
Qed.

(** For a float that is not NaN, [x > 0] is the negation of [x <= 0]. *)
Lemma gt_zero_not_le x :
  is_nan x = false -> gt x zero = negb (le x zero).
Proof.
  unfold gt, le, SFltb, SFleb, zero. float_cases x; intros H;
    try reflexivity; discriminate.
Qed.

Lemma gt_nan y : gt nan y = false.
Proof. unfold gt, SFltb. now destruct y. Qed.

Lemma fmax_not_nan acc x :
  is_nan acc = false -> is_nan (fmax acc x) = false.
Proof.
  unfold fmax. destruct acc; try discriminate; intros _;
    destruct x; try reflexivity;
    match goal with |- context [SFltb ?a ?b] => destruct (SFltb a b) end;
    reflexivity.
Qed.

Lemma fmax_cases acc x :
  fmax acc x = acc \/ fmax acc x = x.
Proof.
  unfold fmax. destruct acc; destruct x; auto;
    match goal with |- context [SFltb ?a ?b] => destruct (SFltb a b) end;
    auto.
Qed.

Lemma fmax_ge_acc acc x :
  is_nan acc = false -> le acc (fmax acc x) = true.
Proof.
  intros Ha. destruct (is_nan x) eqn:Ex.
  - destruct x; try discriminate.
    replace (fmax acc S754_nan) with acc by (now destruct acc).
    now apply float_le_refl.
  - unfold fmax. destruct acc; try discriminate; destruct x; try discriminate;
      match goal with |- context [SFltb ?a ?b] =>
        destruct (SFltb a b) eqn:E end;
      solve [ now apply float_lt_le | now apply float_le_refl ].
Qed.

Lemma fmax_ge_new acc x :
  is_nan x = false -> le x (fmax acc x) = true.
Proof.
  intros Hx. destruct (is_nan acc) eqn:Ea.
  - destruct acc; try discriminate. simpl. now apply float_le_refl.
  - unfold fmax. destruct acc; try discriminate; destruct x; try discriminate;
      match goal with |- context [SFltb ?a ?b] =>
        destruct (SFltb a b) eqn:E end;
      solve [ now apply float_le_refl | now apply float_not_lt_le ].
Qed.

Lemma fold_fmax_not_nan l : forall acc,
  is_nan acc = false -> is_nan (fold_left fmax l acc) = false.
Proof.
  induction l as [| x l IH]; simpl; intros acc H; [exact H |].
  now apply IH, fmax_not_nan.
Qed.

Lemma fold_fmax_ge_acc l : forall acc,
  is_nan acc = false -> le acc (fold_left fmax l acc) = true.
Proof.
  induction l as [| x l IH]; simpl; intros acc H; [now apply float_le_refl |].
  eapply float_le_trans; [apply fmax_ge_acc, H | apply IH, fmax_not_nan, H].
Qed.

Lemma fold_fmax_ge l : forall acc x,
  In x l -> is_nan x = false -> le x (fold_left fmax l acc) = true.
Proof.
  induction l as [| y l IH]; simpl; intros acc x [] Hx.
  - subst y. eapply float_le_trans; [apply fmax_ge_new, Hx |].
    apply fold_fmax_ge_acc. destruct (fmax_cases acc x) as [E | E].
    + rewrite E. destruct acc; try reflexivity.
      simpl in E. subst x. discriminate.
    + now rewrite E.
  - now apply IH.
Qed.

Lemma fold_fmax_in l : forall acc,
  fold_left fmax l acc = acc \/ In (fold_left fmax l acc) l.
Proof.
  induction l as [| x l IH]; simpl; intros acc; [now left |].
  destruct (IH (fmax acc x)) as [E | H]; [| now right; right].
  rewrite E. destruct (fmax_cases acc x) as [-> | ->]; [now left |].
  right. now left.
Qed.

Lemma fold_fmax_all_nan l :
  Forall (fun x => is_nan x = true) l -> fold_left fmax l nan = nan.
Proof.
  induction 1 as [| x l Hx _ IH]; [reflexivity |].
  simpl. destruct x; try discriminate. exact IH.
Qed.

(** [nanmax] is NaN exactly when no score is a number. *)
Lemma nanmax_nan l :
  is_nan (nanmax l) = true <-> Forall (fun x => is_nan x = true) l.
Proof.
  unfold nanmax. split.
  - intros H. apply Forall_forall. intros x Hx.
    destruct (is_nan x) eqn:E; [reflexivity |].
    pose proof (fold_fmax_ge l nan x Hx E) as Hle.
    destruct (fold_left fmax l nan); try discriminate.
    unfold le, SFleb in Hle. destruct x; discriminate.
  - intros H. now rewrite fold_fmax_all_nan.
Qed.

(** Otherwise it is one of the scores, and no score exceeds it. *)
Lemma nanmax_greatest l :
  is_nan (nanmax l) = false ->
  In (nanmax l) l /\
  forall x, In x l -> is_nan x = false -> le x (nanmax l) = true.
Proof.
  intros H. split.
  - destruct (fold_fmax_in l nan) as [E | Hin]; [| exact Hin].
    unfold nanmax in H. rewrite E in H. discriminate.
  - intros x Hx Hn. now apply fold_fmax_ge.
Qed.
End FloatFacts.

(* ===================================================================== *)
(** * Facts: grouping keys *)
(* ===================================================================== *)

Section GroupFacts.
Import Group.

Lemma string_compare_refl s : String_as_OT.compare s s = Eq.
Proof.
  destruct (String_as_OT.compare_spec s s) as [_ | H | H];
    [reflexivity | |]; now apply StrictOrder_Irreflexive in H.
Qed.

Lemma key_compare_eq a b : key_compare a b = Eq <-> a = b.
Proof.
  unfold key_compare. destruct a as [a1 a2], b as [b1 b2]; simpl.
  destruct (String_as_OT.compare_spec a1 b1) as [-> | H | H].
  - destruct (String_as_OT.compare_spec a2 b2) as [-> | H | H].
    + tauto.
    + split; [discriminate |]. intros E; inversion E; subst.
      now apply StrictOrder_Irreflexive in H.
    + split; [discriminate |]. intros E; inversion E; subst.
      now apply StrictOrder_Irreflexive in H.
  - split; [discriminate |]. intros E; inversion E; subst.
    now apply StrictOrder_Irreflexive in H.
  - split; [discriminate |]. intros E; inversion E; subst.
    now apply StrictOrder_Irreflexive in H.
Qed.

Lemma key_compare_lt a b :
  key_lt a b <->
  String_as_OT.lt (fst a) (fst b) \/
  (fst a = fst b /\ String_as_OT.lt (snd a) (snd b)).
Proof.
  unfold key_lt, key_compare.
  destruct (String_as_OT.compare_spec (fst a) (fst b)) as [E | H | H].
  - rewrite E. split.
    + intros H. right. split; [reflexivity | exact H].
    + intros [H | [_ H]]; [| exact H].
      now apply StrictOrder_Irreflexive in H.
  - split; [now left | reflexivity].
  - split; [discriminate |]. intros [H' | [E _]].
    + exfalso. apply (StrictOrder_Irreflexive (fst a)).
      now transitivity (fst b).
    + rewrite E in H. now apply StrictOrder_Irreflexive in H.
Qed.

Lemma key_compare_gt a b : key_compare a b = Gt -> key_lt b a.
Proof.
  intros H. apply key_compare_lt. unfold key_compare in H.
  destruct (String_as_OT.compare_spec (fst a) (fst b)) as [E | H1 | H1];
    try discriminate.
  - right. split; [now symmetry |].
    destruct (String_as_OT.compare_spec (snd a) (snd b)); try discriminate.
    assumption.
  - now left.
Qed.

Lemma key_lt_trans a b c : key_lt a b -> key_lt b c -> key_lt a c.
Proof.
  rewrite !key_compare_lt. intros [H1 | [E1 H1]] [H2 | [E2 H2]].
  - left. now transitivity (fst b).
  - left. now rewrite <- E2.
  - left. now rewrite E1.
  - right. split; [congruence | now transitivity (snd b)].
Qed.

Lemma key_lt_irrefl a : ~ key_lt a a.
Proof.
  unfold key_lt. intros H.
  assert (E : key_compare a a = Eq) by now apply key_compare_eq.
  congruence.
Qed.

Lemma key_eqb_eq a b : key_eqb a b = true <-> a = b.
Proof.
  unfold key_eqb. destruct a, b; simpl.
  rewrite andb_true_iff, !String.eqb_eq. split.
  - intros [-> ->]. reflexivity.
  - intros E. inversion E. tauto.
Qed.

Lemma insert_key_In k l x : In x (insert_key k l) <-> x = k \/ In x l.
Proof.
  induction l as [| k' l IH]; simpl; [intuition |].
  destruct (key_compare k k') eqn:E; simpl.
  - apply key_compare_eq in E. subst. intuition.
  - intuition.
  - rewrite IH. intuition.
Qed.

Lemma insert_key_sorted k l :
  StronglySorted key_lt l -> StronglySorted key_lt (insert_key k l).
Proof.
  induction 1 as [| k' l Hs IH Hall]; simpl.
  - repeat constructor.
  - destruct (key_compare k k') eqn:E.
    + now constructor.
    + constructor; [now constructor |]. constructor; [exact E |].
      eapply Forall_impl; [| exact Hall]. intros x Hx.
      eapply key_lt_trans; [exact E | exact Hx].
    + constructor; [exact IH |]. apply Forall_forall. intros x Hx.
      apply insert_key_In in Hx. destruct Hx as [-> | Hx].
      * now apply key_compare_gt.
      * rewrite Forall_forall in Hall. now apply Hall.
Qed.

Lemma sorted_keys_sorted l : StronglySorted key_lt (sorted_keys l).
Proof.
  induction l as [| [k |] l IH]; simpl;
    [constructor | now apply insert_key_sorted | exact IH].
Qed.

Lemma sorted_keys_In l k : In k (sorted_keys l) <-> In (Some k) l.
Proof.
  induction l as [| [k' |] l IH]; simpl.
  - tauto.
  - rewrite insert_key_In, IH. split.
    + intros [-> | H]; auto.
    + intros [E | H]; [inversion E |]; auto.
  - rewrite IH. split; [auto | intros [E | H]; [discriminate | exact H]].
Qed.

Lemma sorted_NoDup l : StronglySorted key_lt l -> NoDup l.
Proof.
  induction 1 as [| k l Hs IH Hall]; constructor; [| exact IH].
  intros Hin. rewrite Forall_forall in Hall.
  exact (key_lt_irrefl k (Hall k Hin)).
Qed.
End GroupFacts.

(* ===================================================================== *)
(** * Facts: the result engine *)
(* ===================================================================== *)

Section EngineFacts.
Import Schedule Engine.

Variable EXPECTED_COLUMNS : list string.
Variable parse_timestamp : string -> option Timestamp.time.

#[local] Abbreviation readable := (Engine.readable parse_timestamp).
#[local] Abbreviation readableb := (Engine.readableb parse_timestamp).
#[local] Abbreviation within := (Engine.within parse_timestamp).
#[local] Abbreviation matched_rows := (Engine.matched_rows parse_timestamp).
#[local] Abbreviation result_row := (Engine.result_row parse_timestamp).
#[local] Abbreviation result_rows := (Engine.result_rows parse_timestamp).
#[local] Abbreviation schedule_loop := (Engine.schedule_loop parse_timestamp).
#[local] Abbreviation compute_loop := (Engine.compute_loop parse_timestamp).
#[local] Abbreviation compute := (Engine.compute EXPECTED_COLUMNS parse_timestamp).

(** ** The selection *)

Lemma checked_items_loop_spec c : forall acc,
  checked_items_loop c acc = acc ++ map fst (filter snd c).
Proof.
  induction c as [| [text checked] c IH]; intros acc; simpl.
  - now rewrite app_nil_r.
  - rewrite IH. destruct checked; simpl; [| reflexivity].
    now rewrite <- app_assoc.
Qed.

Lemma checked_items_spec c : checked_items c = map fst (filter snd c).
Proof. apply (checked_items_loop_spec c []). Qed.

(** ** One interval *)

Lemma readableb_iff iv : readableb iv = true <-> readable iv.
Proof.
  unfold Engine.readableb, Engine.readable.
  destruct (parse_timestamp (fst iv)), (parse_timestamp (snd iv)); split;
    solve [ reflexivity | discriminate | intros _; split; discriminate
          | intros [H1 H2]; congruence ].
Qed.

Lemma forallb_readable ivs :
  forallb readableb ivs = true <-> Forall readable ivs.
Proof.
  rewrite forallb_forall, Forall_forall.
  split; intros H iv Hin; apply readableb_iff, H, Hin.
Qed.

Lemma select_masks (f g : Row -> bool) l :
  select l (mask_and (map f l) (map g l)) = filter (fun r => f r && g r) l.
Proof.
  induction l as [| r l IH]; simpl; [reflexivity |].
  rewrite IH. reflexivity.
Qed.

Lemma schedule_loop_step rfc start end_ rest df :
  schedule_loop rfc ((start, end_) :: rest) df =
    if readableb (start, end_)
    then schedule_loop rfc rest (df ++ filter (within (start, end_)) rfc)
    else Raised invalid_comparison.
Proof.
  simpl. unfold ge_text, le_text, Engine.readableb, Engine.within. simpl.
  destruct (parse_timestamp start) as [t0 |]; [| reflexivity].
  destruct (parse_timestamp end_) as [t1 |]; [| reflexivity].
  simpl. rewrite !map_map, select_masks. reflexivity.
Qed.

(** The loop over the intervals: the rows each interval selects, one
    interval after the other, or the error of the first text that is
    not read. *)
Lemma schedule_loop_spec rfc ivs : forall df,
  schedule_loop rfc ivs df =
    if forallb readableb ivs
    then Returned (df ++ flat_map (fun iv => filter (within iv) rfc) ivs)
    else Raised invalid_comparison.
Proof.
  induction ivs as [| [start end_] ivs IH]; intros df.
  - simpl. now rewrite app_nil_r.
  - rewrite schedule_loop_step. cbn [forallb flat_map].
    destruct (readableb (start, end_)); [| reflexivity].
    rewrite IH. cbn [andb]. destruct (forallb readableb ivs); [| reflexivity].
    now rewrite app_assoc.
Qed.

(** An interval with a NaT end point selects nothing. *)
Lemma within_NaT iv r :
  parse_timestamp (fst iv) = Some Timestamp.NaT \/
  parse_timestamp (snd iv) = Some Timestamp.NaT ->
  within iv r = false.
Proof.
  unfold Engine.within. intros [-> | ->].
  - destruct (parse_timestamp (snd iv)); [| reflexivity].
    unfold Timestamp.ge. now destruct (commence r).
  - destruct (parse_timestamp (fst iv)); [| reflexivity].
    unfold Timestamp.le. destruct (termine r); now rewrite andb_false_r.
Qed.

(** ** The loop over the groups *)

Lemma result_rows_app ivs gs1 gs2 cpt :
  result_rows ivs (gs1 ++ gs2) cpt =
    result_rows ivs gs1 cpt ++
    result_rows ivs gs2 (List.length gs1 + cpt).
Proof.
  revert cpt. induction gs1 as [| g gs1 IH]; intros cpt; simpl;
    [reflexivity |].
  rewrite IH. do 3 f_equal. lia.
Qed.

Lemma compute_loop_spec p groups : forall cpt w,
  let ivs := intervals_of (widget_json_schedule p) in
  let checked := checked_items (widget_student_filter p) in
  compute_loop p groups cpt w =
    if forallb readableb ivs then
      (Returned tt,
       {| layout_result :=
            layout_result w ++
            result_rows ivs (filter (selected checked) groups) cpt;
          dialog_exec := dialog_exec w |})
    else if existsb (selected checked) groups
         then (Raised invalid_comparison, w)
         else (Returned tt, w).
Proof.
  intros cpt w ivs checked. revert cpt w.
  induction groups as [| [name group] groups IH]; intros cpt w.
  - simpl. destruct (forallb readableb ivs); [| reflexivity].
    rewrite app_nil_r. now destruct w.
  - cbn [Engine.compute_loop filter existsb].
    change (selected checked (name, group))
      with (mem (Group.full_name name) checked).
    cbv zeta. fold checked.
    destruct (mem (Group.full_name name) checked) eqn:Esel.
    + unfold bind, lift, modify. rewrite get_data_spec. fold ivs.
      rewrite schedule_loop_spec.
      destruct (forallb readableb ivs) eqn:Er; [| reflexivity].
      rewrite IH. cbn [layout_result dialog_exec addWidgets
                         Engine.result_rows app].
      rewrite <- app_assoc. reflexivity.
    + rewrite IH. cbn [orb]. reflexivity.
Qed.

Lemma compute_spec p d w :
  data p = Some d ->
  issubset EXPECTED_COLUMNS (columns d) = true ->
  let ivs := intervals_of (widget_json_schedule p) in
  let checked := checked_items (widget_student_filter p) in
  compute p w =
    if forallb readableb ivs then
      (Returned tt,
       {| layout_result :=
            layout_result w ++
            result_rows ivs (filter (selected checked) (groupby d)) 1;
          dialog_exec := Datatypes.S (dialog_exec w) |})
    else if existsb (selected checked) (groupby d)
         then (Raised invalid_comparison, w)
         else (Returned tt, exec_dialog w).
Proof.
  intros Hd Hsub ivs checked. unfold Engine.compute.
  rewrite Hd, Hsub. cbn [negb]. unfold bind.
  rewrite compute_loop_spec. fold ivs checked.
  destruct (forallb readableb ivs); [reflexivity |].
  destruct (existsb (selected checked) (groupby d)); reflexivity.
Qed.
End EngineFacts.

(* ===================================================================== *)
(** * The claims about the result engine *)
(* ===================================================================== *)

Section EngineClaims.
Import Schedule Engine.

Variable EXPECTED_COLUMNS : list string.
Variable parse_timestamp : string -> option Timestamp.time.

#[local] Abbreviation readable := (Engine.readable parse_timestamp).
#[local] Abbreviation readableb := (Engine.readableb parse_timestamp).
#[local] Abbreviation within := (Engine.within parse_timestamp).
#[local] Abbreviation matched_rows := (Engine.matched_rows parse_timestamp).
#[local] Abbreviation result_row := (Engine.result_row parse_timestamp).
#[local] Abbreviation result_rows := (Engine.result_rows parse_timestamp).
#[local] Abbreviation schedule_loop := (Engine.schedule_loop parse_timestamp).
#[local] Abbreviation compute := (Engine.compute EXPECTED_COLUMNS parse_timestamp).

(** ** The rows added to the grid *)

Lemma result_rows_student ivs gs : forall cpt,
  map student (result_rows ivs gs cpt) =
    map (fun g => Group.full_name (fst g)) gs.
Proof.
  induction gs as [| g gs IH]; intros cpt; simpl; [reflexivity |].
  now rewrite IH.
Qed.

Lemma result_rows_grid_row ivs gs : forall cpt,
  map grid_row (result_rows ivs gs cpt) = seq cpt (List.length gs).
Proof.
  induction gs as [| g gs IH]; intros cpt; simpl; [reflexivity |].
  now rewrite IH.
Qed.

Lemma result_rows_length ivs gs cpt :
  List.length (result_rows ivs gs cpt) = List.length gs.
Proof.
  revert cpt. induction gs as [| g gs IH]; intros cpt; simpl; [reflexivity |].
  now rewrite IH.
Qed.

Lemma result_rows_nth ivs gs : forall cpt i g,
  nth_error gs i = Some g ->
  nth_error (result_rows ivs gs cpt) i = Some (result_row ivs (i + cpt) g).
Proof.
  induction gs as [| g' gs IH]; intros cpt [| i] g H; simpl in *;
    try discriminate.
  - now inversion H.
  - rewrite (IH _ _ _ H). do 2 f_equal. lia.
Qed.

Lemma result_rows_In ivs gs : forall cpt rr,
  In rr (result_rows ivs gs cpt) ->
  exists n g, In g gs /\ rr = result_row ivs n g.
Proof.
  induction gs as [| g gs IH]; intros cpt rr; simpl; [tauto |].
  intros [<- | H]; [eauto |].
  destruct (IH _ _ H) as (n & g' & Hg & ->). eauto.
Qed.

Lemma map_filter_selected checked (gs : list (Group.key * list Row)) :
  map (fun g => Group.full_name (fst g)) (filter (selected checked) gs) =
    filter (fun n => mem n checked) (map Group.full_name (map fst gs)).
Proof.
  induction gs as [| g gs IH]; simpl; [reflexivity |].
  unfold selected at 1. destruct (mem (Group.full_name (fst g)) checked);
    simpl; now rewrite IH.
Qed.

(** ** The groups *)

Lemma groupby_keys d :
  map fst (groupby d) = Group.sorted_keys (map row_key (rows d)).
Proof.
  unfold groupby. rewrite map_map. simpl. apply map_id.
Qed.

Lemma groupby_In d name group :
  In (name, group) (groupby d) ->
  group = filter (in_group name) (rows d).
Proof.
  unfold groupby. rewrite in_map_iff. intros (k & E & _). now inversion E.
Qed.

Lemma groupby_key_iff d k :
  In k (map fst (groupby d)) <-> exists r, In r (rows d) /\ row_key r = Some k.
Proof.
  rewrite groupby_keys, sorted_keys_In, in_map_iff.
  split; intros (r & H1 & H2); exists r; tauto.
Qed.

(** ** Counting the matched rows *)

Lemma count_occ_filter (f : Row -> bool) l r :
  count_occ Row_eq_dec (filter f l) r =
    if f r then count_occ Row_eq_dec l r else 0.
Proof.
  induction l as [| x l IH]; simpl; [now destruct (f r) |].
  destruct (f x) eqn:Ex; simpl; destruct (Row_eq_dec x r) as [-> | N];
    rewrite IH.
  - now rewrite Ex.
  - reflexivity.
  - now rewrite Ex.
  - reflexivity.
Qed.

Lemma count_occ_matched_rows ivs group r :
  count_occ Row_eq_dec (matched_rows ivs group) r =
    count_occ Row_eq_dec (filter completed group) r *
    List.length (filter (fun iv => within iv r) ivs).
Proof.
  unfold Engine.matched_rows. induction ivs as [| iv ivs IH]; simpl; [lia |].
  rewrite count_occ_app, IH, count_occ_filter.
  destruct (within iv r); simpl; lia.
Qed.

Lemma join_notes_label df : notes_label df = join ", " (notes_list df).
Proof.
  unfold notes_label, notes_list. now destruct df.
Qed.

(** ** The maximum label *)

Lemma max_label_cases df :
  let scores := map note df in
  (Forall (fun x => Float64.is_nan x = true) scores -> max_label df = "") /\
  (Float64.le (Float64.nanmax scores) Float64.zero = true ->
   max_label df = "") /\
  (~ Forall (fun x => Float64.is_nan x = true) scores ->
   Float64.le (Float64.nanmax scores) Float64.zero = false ->
   max_label df = Float64.format_2f (Float64.nanmax scores) /\
   In (Float64.nanmax scores) scores /\
   forall x, In x scores -> Float64.is_nan x = false ->
             Float64.le x (Float64.nanmax scores) = true).
Proof.
  intros scores. unfold max_label. fold scores.
  split; [| split].
  - intros H. apply nanmax_nan in H.
    destruct (Float64.nanmax scores); try discriminate.
    now rewrite gt_nan.
  - intros H. destruct (Float64.is_nan (Float64.nanmax scores)) eqn:E.
    + destruct (Float64.nanmax scores); try discriminate.
    + now rewrite (gt_zero_not_le _ E), H.
  - intros Hn Hle.
    assert (E : Float64.is_nan (Float64.nanmax scores) = false).
    { destruct (Float64.is_nan (Float64.nanmax scores)) eqn:E; [| reflexivity].
      apply nanmax_nan in E. contradiction. }
    rewrite (gt_zero_not_le _ E), Hle. cbn [negb].
    split; [reflexivity |]. now apply nanmax_greatest.
Qed.

Lemma not_readable_forallb ivs :
  Exists (fun iv => ~ readable iv) ivs -> forallb readableb ivs = false.
Proof.
  intros H. destruct (forallb readableb ivs) eqn:E; [| reflexivity].
  apply forallb_readable in E. rewrite Forall_forall in E.
  apply Exists_exists in H. destruct H as (iv & Hin & Hn).
  now elim Hn; apply E.
Qed.

Lemma existsb_selected checked (gs : list (Group.key * list Row)) :
  existsb (selected checked) gs = true <->
  exists g, In g gs /\ selected checked g = true.
Proof. apply existsb_exists. Qed.

(** C1, as amended.  An interval with a text that is not read as a
    datetime is not skipped.  As soon as one student group is selected, the
    comparison with that text raises: [compute] stops there, having added
    no row to the grid and shown no dialog, also when other intervals are
    valid; under the supervisor the error is reported in a message box and
    nothing is raised to the caller.  Only when no group is selected are
    the intervals never looked at, and [compute] completes with no row.
    When every text is read, [compute] completes; an interval one of whose
    texts is read as NaT, as the empty text of an untouched cell is, then
    selects no row and the loop goes on to the next interval. *)
Theorem compute_stops_at_unreadable_interval p d w :
  data p = Some d ->
  issubset EXPECTED_COLUMNS (columns d) = true ->
  let ivs := intervals_of (widget_json_schedule p) in
  let checked := checked_items (widget_student_filter p) in
  (Exists (fun iv => ~ readable iv) ivs ->
   ((exists g, In g (groupby d) /\ selected checked g = true) ->
    compute p w = (Raised invalid_comparison, w) /\
    forall boxes,
      Supervisor.decorated tt (fun _ : unit => compute p) tt (w, boxes) =
        (Returned tt, (w, boxes ++ [invalid_comparison]))) /\
   ((forall g, In g (groupby d) -> selected checked g = false) ->
    compute p w = (Returned tt, exec_dialog w))) /\
  (Forall readable ivs ->
   compute p w =
     (Returned tt,
      {| layout_result :=
           layout_result w ++
           result_rows ivs (filter (selected checked) (groupby d)) 1;
         dialog_exec := Datatypes.S (dialog_exec w) |})) /\
  (forall iv rfc rest df,
      readable iv ->
      parse_timestamp (fst iv) = Some Timestamp.NaT \/
      parse_timestamp (snd iv) = Some Timestamp.NaT ->
      schedule_loop rfc (iv :: rest) df = schedule_loop rfc rest df).
Proof.
  intros Hd Hsub ivs checked.
  pose proof (compute_spec EXPECTED_COLUMNS parse_timestamp p d w Hd Hsub)
    as Hc. cbv zeta in Hc. fold ivs checked in Hc.
  split; [| split].
  - intros Hbad. rewrite (not_readable_forallb _ Hbad) in Hc. split.
    + intros Hsel. apply existsb_selected in Hsel. rewrite Hsel in Hc.
      split; [exact Hc |]. intros boxes.
      unfold Supervisor.decorated, Supervisor.supervisor, Supervisor.wrapper.
      cbn [fst snd]. rewrite Hc. reflexivity.
    + intros Hnone.
      destruct (existsb (selected checked) (groupby d)) eqn:E; [| exact Hc].
      apply existsb_selected in E. destruct E as (g & Hin & Hg).
      rewrite (Hnone g Hin) in Hg. discriminate.
  - intros Hall. apply forallb_readable in Hall. now rewrite Hall in Hc.
  - intros [start end_] rfc rest df Hr Hnat.
    rewrite (schedule_loop_step parse_timestamp).
    apply readableb_iff in Hr. rewrite Hr.
    assert (E : filter (within (start, end_)) rfc = []).
    { induction rfc as [| r rfc IH]; simpl; [reflexivity |].
      now rewrite (within_NaT parse_timestamp _ r Hnat). }
    now rewrite E, app_nil_r.
Qed.

(** C7.  With a frame loaded that has the expected columns and a schedule
    whose texts are all read, [compute] completes and adds to the grid one
    row per group whose full name ["Last First"] is checked in the student
    filter, and none for any other group: the names of the added rows are
    the full names of the groups, in the order of the groups, with the
    unchecked ones left out, on grid rows 1, 2, ...  The groups are the
    distinct (last name, first name) pairs of the frame in strictly
    increasing order, last name first. *)
Theorem compute_selected_students_in_group_order p d w :
  data p = Some d ->
  issubset EXPECTED_COLUMNS (columns d) = true ->
  Forall readable (intervals_of (widget_json_schedule p)) ->
  let keys := map fst (groupby d) in
  let checked := checked_items (widget_student_filter p) in
  StronglySorted Group.key_lt keys /\
  (forall a b,
      Group.key_lt a b <->
      String_as_OT.lt (fst a) (fst b) \/
      (fst a = fst b /\ String_as_OT.lt (snd a) (snd b))) /\
  (forall k, In k keys <-> exists r, In r (rows d) /\ row_key r = Some k) /\
  exists new,
    compute p w =
      (Returned tt,
       {| layout_result := layout_result w ++ new;
          dialog_exec := Datatypes.S (dialog_exec w) |}) /\
    map student new =
      filter (fun n => mem n checked) (map Group.full_name keys) /\
    map grid_row new = seq 1 (List.length new) /\
    (forall n, mem n checked = false -> ~ In n (map student new)).
Proof.
  intros Hd Hsub Hall keys checked.
  split; [unfold keys; rewrite groupby_keys; apply sorted_keys_sorted |].
  split; [exact key_compare_lt |].
  split; [intros k; apply groupby_key_iff |].
  pose proof (compute_spec EXPECTED_COLUMNS parse_timestamp p d w Hd Hsub)
    as Hc. cbv zeta in Hc.
  apply forallb_readable in Hall. rewrite Hall in Hc.
  eexists. split; [exact Hc |]. fold checked.
  rewrite result_rows_student, result_rows_grid_row, result_rows_length,
    map_filter_selected.
  split; [reflexivity |]. split; [reflexivity |].
  intros n Hn Hin. apply filter_In in Hin. destruct Hin as [_ Hin].
  congruence.
Qed.

(** C8.  Under the same conditions, the row added for the i-th selected
    group is computed from its matched rows: interval after interval in
    the order of the table, the completed rows of the group, in frame
    order, whose started-at is at or after the start of the interval and
    whose completed-at is at or before its end.  Nothing is removed: a row
    occurs in the matched rows as many times as it occurs among the
    completed rows, times the number of intervals it lies within.  The
    notes label joins, in that order, the scores of the matched rows, each
    formatted with two decimals. *)
Theorem compute_matched_rows_keep_duplicates p d w :
  data p = Some d ->
  issubset EXPECTED_COLUMNS (columns d) = true ->
  Forall readable (intervals_of (widget_json_schedule p)) ->
  let ivs := intervals_of (widget_json_schedule p) in
  let checked := checked_items (widget_student_filter p) in
  exists new,
    compute p w =
      (Returned tt,
       {| layout_result := layout_result w ++ new;
          dialog_exec := Datatypes.S (dialog_exec w) |}) /\
    forall i name group,
      nth_error (filter (selected checked) (groupby d)) i = Some (name, group) ->
      let m := matched_rows ivs group in
      (exists rr, nth_error new i = Some rr /\
                  student rr = Group.full_name name /\
                  notes rr = join ", " (notes_list m)) /\
      m = flat_map (fun iv => filter (within iv) (filter completed group)) ivs /\
      (forall iv r t0 t1,
          parse_timestamp (fst iv) = Some t0 ->
          parse_timestamp (snd iv) = Some t1 ->
          within iv r =
            Timestamp.ge (commence r) t0 && Timestamp.le (termine r) t1) /\
      (forall r,
          count_occ Row_eq_dec m r =
            count_occ Row_eq_dec (filter completed group) r *
            List.length (filter (fun iv => within iv r) ivs)) /\
      notes_list m = map (fun r => Float64.format_2f (note r)) m.
Proof.
  intros Hd Hsub Hall ivs checked.
  pose proof (compute_spec EXPECTED_COLUMNS parse_timestamp p d w Hd Hsub)
    as Hc. cbv zeta in Hc.
  apply forallb_readable in Hall. rewrite Hall in Hc.
  eexists. split; [exact Hc |]. fold ivs checked.
  intros i name group Hi m. split; [| split; [| split; [| split]]].
  - eexists. split; [apply result_rows_nth, Hi |].
    split; [reflexivity |]. apply join_notes_label.
  - reflexivity.
  - intros iv r t0 t1 H0 H1. unfold Engine.within. now rewrite H0, H1.
  - intros r. apply count_occ_matched_rows.
  - reflexivity.
Qed.

(** C3, as amended.  Under the same conditions, every row added to the
    grid is the row of a selected group, and its maximum label is the
    empty text when the group has no matched row, when none of the matched
    scores is a number (all are NaN), or when their maximum is at most
    zero; otherwise it is the maximum formatted with two decimals, the
    maximum being a matched score that no matched score exceeds. *)
Theorem compute_max_label p d w :
  data p = Some d ->
  issubset EXPECTED_COLUMNS (columns d) = true ->
  Forall readable (intervals_of (widget_json_schedule p)) ->
  let ivs := intervals_of (widget_json_schedule p) in
  let checked := checked_items (widget_student_filter p) in
  exists new,
    compute p w =
      (Returned tt,
       {| layout_result := layout_result w ++ new;
          dialog_exec := Datatypes.S (dialog_exec w) |}) /\
    forall rr, In rr new ->
      exists name group,
        In (name, group) (groupby d) /\
        mem (Group.full_name name) checked = true /\
        student rr = Group.full_name name /\
        let scores := map note (matched_rows ivs group) in
        let all_nan := Forall (fun x => Float64.is_nan x = true) scores in
        (matched_rows ivs group = [] -> max_score rr = "") /\
        (all_nan -> max_score rr = "") /\
        (Float64.le (Float64.nanmax scores) Float64.zero = true ->
         max_score rr = "") /\
        (~ all_nan ->
         Float64.le (Float64.nanmax scores) Float64.zero = false ->
         max_score rr = Float64.format_2f (Float64.nanmax scores) /\
         In (Float64.nanmax scores) scores /\
         forall x, In x scores -> Float64.is_nan x = false ->
                   Float64.le x (Float64.nanmax scores) = true).
Proof.
  intros Hd Hsub Hall ivs checked.
  pose proof (compute_spec EXPECTED_COLUMNS parse_timestamp p d w Hd Hsub)
    as Hc. cbv zeta in Hc.
  apply forallb_readable in Hall. rewrite Hall in Hc.
  eexists. split; [exact Hc |]. fold ivs checked.
  intros rr Hrr. apply result_rows_In in Hrr.
  destruct Hrr as (n & [name group] & Hg & ->).
  apply filter_In in Hg. destruct Hg as [Hin Hsel].
  exists name, group. split; [exact Hin |]. split; [exact Hsel |].
  split; [reflexivity |]. cbn [max_score Engine.result_row snd].
  destruct (max_label_cases (matched_rows ivs group)) as (H1 & H2 & H3).
  cbv zeta. split; [| split; [| split]].
  - intros E. apply H1. rewrite E. constructor.
  - exact H1.
  - exact H2.
  - exact H3.
Qed.
End EngineClaims.

(* ===================================================================== *)
(** * The worked examples, checked *)
(* ===================================================================== *)

Section Worked.
Import Examples.

(** ** The supervisor *)

(** C9, the claim as stated fails: a callback interrupted from the
    keyboard is not caught; the exception reaches the caller and no
    message box is shown. *)
Lemma supervisor_lets_KeyboardInterrupt_through :
  failing interrupt tt [] = (Raised interrupt, []) /\
  supervised_failing interrupt tt [] = (Raised interrupt, []).
Proof. split; reflexivity. Qed.

(** C9 at an example: a [ValueError] raised by the callback is reported
    and [None] is returned. *)
Lemma supervisor_catches_Exception_witness :
  is_Exception no_data = true /\
  supervised_failing no_data tt [] = (Returned tt, [no_data]).
Proof.
  split; [reflexivity |].
  exact (proj1 (proj2 (supervisor_catches_Exception
                         (list exn) unit unit tt message_box
                         (failing no_data) tt []))
               no_data [] eq_refl eq_refl).
Defined.

(** ** The schedule *)

(** C4 at an example: saving the class "Math" with one interval. *)
Lemma class_save_then_init_witness :
  NoDup (keys (Schedule.class_info math_widget)) /\
  exists w' f',
    Schedule.class_save (math_widget, None) = (Returned tt, (w', f')) /\
    Schedule.class_info w' =
      dict_set (Schedule.class_info math_widget)
               (Schedule.currentText (Schedule.class_selection math_widget))
               (Schedule.intervals_of (Schedule.table math_widget)) /\
    (Schedule.is_placeholder (Schedule.class_info w') = false ->
     f' = Some (Schedule.dump (Schedule.class_info w')) /\
     option_map Schedule.class_info (Schedule.init f') =
       Some (Schedule.class_info w')) /\
    (Schedule.is_placeholder (Schedule.class_info w') = true ->
     f' = None /\
     option_map Schedule.class_info (Schedule.init f') = Some []).
Proof.
  assert (H : NoDup (keys (Schedule.class_info math_widget))).
  { simpl. repeat constructor. simpl. tauto. }
  exact (conj H (class_save_then_init math_widget None H)).
Defined.

(** The round trip of the specification: the class "Math" with one
    interval is written, and read back as it was. *)
Example save_math_then_init :
  exists w' j,
    Schedule.class_save (math_widget, None) = (Returned tt, (w', Some j)) /\
    Schedule.class_info w' =
      [("Math", [("2024-01-01 00:00", "2024-01-02 00:00")])] /\
    option_map Schedule.class_info (Schedule.init (Some j)) =
      Some [("Math", [("2024-01-01 00:00", "2024-01-02 00:00")])].
Proof. eexists _, _. repeat split. Qed.

(** Saving with no class and an empty table records the placeholder and
    removes the file. *)
Example save_placeholder_then_init :
  exists w',
    Schedule.class_save (empty_widget, Some Schedule.JNull) =
      (Returned tt, (w', None)) /\
    Schedule.class_info w' = [("", [])] /\
    option_map Schedule.class_info (Schedule.init None) = Some [].
Proof. eexists. repeat split. Qed.

(** ** The loader *)

(** C2, the claim as stated fails: a load that stops at the column check
    has already replaced the dataset.  Before the call [parent.data] is the
    frame loaded earlier; after it, it is the export that lacks its status
    column, while the model and the student filter still show the earlier
    frame. *)
Lemma load_data_failure_replaces_dataset :
  Loader.data (window "no_status.csv") = Some frame_loaded /\
  exists p',
    load_data (window "no_status.csv") =
      (Raised (mk_exn ValueError (MissingCols ["Statut"])), p') /\
    Loader.data p' = Some csv_no_status /\
    Loader.data p' <> Loader.data (window "no_status.csv") /\
    Loader.model p' = Loader.model (window "no_status.csv") /\
    Loader.widget_student_filter p' = [("Petit Zoé", true)].
Proof.
  split; [reflexivity |]. eexists. split; [reflexivity |].
  repeat split. discriminate.
Qed.

(** C2 as amended, at an example: the file cannot be read, and the window
    is as before. *)
Lemma load_data_failure_state_witness :
  read_csv "nothing.csv" =
    Raised (mk_exn OSError (Msg "No such file or directory")) /\
  load_data (window "nothing.csv") =
    (Raised (mk_exn OSError (Msg "No such file or directory")),
     window "nothing.csv").
Proof.
  split; [reflexivity |].
  exact (proj1 (load_data_failure_state
                  EXPECTED_COLUMNS read_csv to_datetime
                  Float64.float_of_string (window "nothing.csv"))
               _ eq_refl).
Defined.

(** C5 at an example: the export without its status column. *)
Lemma load_data_missing_columns_first_witness :
  read_csv "no_status.csv" = Returned csv_no_status /\
  difference EXPECTED_COLUMNS (Loader.columns csv_no_status) = ["Statut"] /\
  load_data (window "no_status.csv") =
    (Raised (mk_exn ValueError
               (MissingCols
                  (difference EXPECTED_COLUMNS (Loader.columns csv_no_status)))),
     Loader.set_data csv_no_status (window "no_status.csv")).
Proof.
  split; [reflexivity |]. split; [reflexivity |].
  refine (proj1 (load_data_missing_columns_first
                   EXPECTED_COLUMNS read_csv to_datetime
                   Float64.float_of_string (window "no_status.csv")
                   csv_no_status eq_refl _)).
  vm_compute. discriminate.
Defined.

(** C6 at an example: the score ["absent"] in the second row. *)
Lemma score_parsing_comma_decimal_witness :
  Loader.coercible Float64.float_of_string (Loader.CStr "absent") = false /\
  exists e d2,
    Loader.getitem d2 "Note/20,00" =
      Returned [Loader.CStr "15,50"; Loader.CStr "absent"] /\
    load_data (window "bad_score.csv") =
      (Raised e, Loader.set_data d2 (window "bad_score.csv")).
Proof.
  split; [reflexivity |].
  destruct (proj2 (proj2 (proj2 (proj2 (proj2
              (score_parsing_comma_decimal
                 EXPECTED_COLUMNS read_csv to_datetime
                 Float64.float_of_string)))))
              (window "bad_score.csv") _ _ _ _ _ _ (Loader.CStr "absent")
              eq_refl eq_refl eq_refl eq_refl eq_refl eq_refl eq_refl
              (or_intror (or_introl eq_refl)) eq_refl) as [e He].
  exists e. eexists. split; [| exact He]. reflexivity.
Defined.

(** ** The result engine *)

Lemma readable_new_year :
  Forall (Engine.readable Timestamp.parse_iso)
         (Schedule.intervals_of [new_year; morning]).
Proof.
  repeat constructor; simpl; discriminate.
Qed.

Lemma garbled_not_readable :
  Exists (fun iv => ~ Engine.readable Timestamp.parse_iso iv)
         (Schedule.intervals_of [garbled; new_year]).
Proof.
  apply Exists_cons_hd. intros [H _]. now apply H.
Qed.

(** C1, the claim as stated fails: with Durand Alice selected and a
    schedule whose first interval starts with a text that is no datetime,
    [compute] raises, although the second interval is valid and matches
    her three completed attempts; no row is added and no dialog shown.
    Under the supervisor the error ends in a message box and the grid
    stays empty.  With the valid interval alone her row is produced. *)
Lemma compute_aborts_on_unreadable_interval :
  Timestamp.parse_iso "demain" = None /\
  compute (parent alice_only [garbled; new_year]) fresh =
    (Raised Engine.invalid_comparison, fresh) /\
  Supervisor.decorated tt (fun _ : unit =>
                             compute (parent alice_only [garbled; new_year]))
                       tt (fresh, []) =
    (Returned tt, (fresh, [Engine.invalid_comparison])) /\
  compute (parent alice_only [new_year]) fresh =
    (Returned tt,
     {| Engine.layout_result :=
          [{| Engine.grid_row := 1;
              Engine.student := "Durand Alice";
              Engine.max_score := "18.00";
              Engine.notes := "12.50, 0.00, 18.00" |}];
        Engine.dialog_exec := 1 |}).
Proof. repeat split. Qed.

(** C1 as amended, at the same example. *)
Lemma compute_stops_at_unreadable_interval_witness :
  Engine.data (parent alice_only [garbled; new_year]) = Some frame /\
  issubset EXPECTED (Engine.columns frame) = true /\
  compute (parent alice_only [garbled; new_year]) fresh =
    (Raised Engine.invalid_comparison, fresh) /\
  forall boxes,
    Supervisor.decorated tt (fun _ : unit =>
                               compute (parent alice_only [garbled; new_year]))
                         tt (fresh, boxes) =
      (Returned tt, (fresh, boxes ++ [Engine.invalid_comparison])).
Proof.
  split; [reflexivity |]. split; [reflexivity |].
  refine (proj1 (proj1 (compute_stops_at_unreadable_interval
                          EXPECTED Timestamp.parse_iso
                          (parent alice_only [garbled; new_year]) frame fresh
                          eq_refl eq_refl)
                       garbled_not_readable) _).
  eexists. split; [left; reflexivity | reflexivity].
Defined.

(** C7 at an example: Martin Bob comes first in the frame and second in
    the groups; only Durand Alice is checked, and only she gets a row,
    although Bob has a matching attempt. *)
Lemma compute_selected_students_in_group_order_witness :
  Forall (Engine.readable Timestamp.parse_iso)
         (Schedule.intervals_of [new_year; morning]) /\
  StronglySorted Group.key_lt (map fst (Engine.groupby frame)) /\
  map fst (Engine.groupby frame) = [("Durand", "Alice"); ("Martin", "Bob")] /\
  exists new,
    compute (parent alice_only [new_year; morning]) fresh =
      (Returned tt,
       {| Engine.layout_result := new; Engine.dialog_exec := 1 |}) /\
    map Engine.student new = ["Durand Alice"] /\
    ~ In "Martin Bob" (map Engine.student new).
Proof.
  split; [exact readable_new_year |].
  destruct (compute_selected_students_in_group_order
              EXPECTED Timestamp.parse_iso
              (parent alice_only [new_year; morning]) frame fresh
              eq_refl eq_refl readable_new_year)
    as (Hsorted & _ & _ & new & Hc & Hnames & _ & Hout).
  split; [exact Hsorted |]. split; [reflexivity |].
  exists new. split; [exact Hc |]. split; [exact Hnames |].
  apply Hout. reflexivity.
Defined.

(** C8 at an example: two of Durand Alice's attempts lie within both
    intervals, and are listed twice. *)
Lemma compute_matched_rows_keep_duplicates_witness :
  Forall (Engine.readable Timestamp.parse_iso)
         (Schedule.intervals_of [new_year; morning]) /\
  exists new rr,
    compute (parent alice_only [new_year; morning]) fresh =
      (Returned tt,
       {| Engine.layout_result := new; Engine.dialog_exec := 1 |}) /\
    nth_error new 0 = Some rr /\
    Engine.student rr = "Durand Alice" /\
    Engine.notes rr = "12.50, 0.00, 18.00, 12.50, 0.00" /\
    count_occ Engine.Row_eq_dec
      (Engine.matched_rows Timestamp.parse_iso
         (Schedule.intervals_of [new_year; morning])
         (filter (Engine.in_group ("Durand", "Alice")) (Engine.rows frame)))
      (attempt "Durand" "Alice" "Terminée" 1 10 (score 1250)) = 2.
Proof.
  split; [exact readable_new_year |].
  destruct (compute_matched_rows_keep_duplicates
              EXPECTED Timestamp.parse_iso
              (parent alice_only [new_year; morning]) frame fresh
              eq_refl eq_refl readable_new_year)
    as (new & Hc & Hrows).
  destruct (Hrows 0 ("Durand", "Alice") _ eq_refl)
    as ((rr & Hnth & Hstudent & Hnotes) & _ & _ & Hcount & _).
  exists new, rr. split; [exact Hc |]. split; [exact Hnth |].
  split; [exact Hstudent |]. split; [exact Hnotes |].
  exact (Hcount (attempt "Durand" "Alice" "Terminée" 1 10 (score 1250))).
Defined.

(** C3, the claim as stated fails: Martin Bob's only matched attempt has
    the score NaN.  His matched rows are not empty and their maximum, NaN,
    is not at most zero, yet the maximum label is the empty text and not
    the formatted maximum. *)
Lemma max_label_empty_on_nan_scores :
  compute (parent bob_only [new_year]) fresh =
    (Returned tt,
     {| Engine.layout_result :=
          [{| Engine.grid_row := 1;
              Engine.student := "Martin Bob";
              Engine.max_score := "";
              Engine.notes := "nan" |}];
        Engine.dialog_exec := 1 |}) /\
  Engine.matched_rows Timestamp.parse_iso (Schedule.intervals_of [new_year])
    (filter (Engine.in_group ("Martin", "Bob")) (Engine.rows frame)) =
    [attempt "Martin" "Bob" "Terminée" 1 9 Float64.nan] /\
  Float64.le (Float64.nanmax [Float64.nan]) Float64.zero = false /\
  Float64.format_2f (Float64.nanmax [Float64.nan]) = "nan".
Proof. repeat split. Qed.

(** C3 as amended, at an example with both students checked. *)
Lemma compute_max_label_witness :
  Forall (Engine.readable Timestamp.parse_iso)
         (Schedule.intervals_of [new_year; morning]) /\
  exists new,
    compute (parent everyone [new_year; morning]) fresh =
      (Returned tt,
       {| Engine.layout_result := new; Engine.dialog_exec := 1 |}) /\
    map Engine.max_score new = ["18.00"; ""] /\
    forall rr, In rr new ->
      exists name group,
        In (name, group) (Engine.groupby frame) /\
        Engine.student rr = Group.full_name name /\
        (Float64.le
           (Float64.nanmax
              (map Engine.note
                 (Engine.matched_rows Timestamp.parse_iso
                    (Schedule.intervals_of [new_year; morning]) group)))
           Float64.zero = true ->
         Engine.max_score rr = "").
Proof.
  split; [exact readable_new_year |].
  destruct (compute_max_label
              EXPECTED Timestamp.parse_iso
              (parent everyone [new_year; morning]) frame fresh
              eq_refl eq_refl readable_new_year)
    as (new & Hc & Hrows).
  exists new. split; [exact Hc |]. split.
  - assert (E : new = Engine.layout_result
                        (snd (compute (parent everyone [new_year; morning])
                                      fresh)))
      by (unfold compute; rewrite Hc; reflexivity).
    rewrite E. reflexivity.
  - intros rr Hrr.
    destruct (Hrows rr Hrr) as (name & group & Hin & _ & Hs & _ & _ & Hle & _).
    exists name, group. split; [exact Hin |]. split; [exact Hs |]. exact Hle.
Defined.

(** The examples of the specification: scores 0 and 0 give no maximum;
    scores 12.5, 0 and 18 give the maximum 18.00 and the three notes in
    row order. *)
Example max_label_of_zero_scores :
  Engine.max_label [attempt "Durand" "Alice" "Terminée" 1 10 (score 0);
                    attempt "Durand" "Alice" "Terminée" 1 11 (score 0)] = "" /\
  Engine.max_label [] = "".
Proof. split; reflexivity. Qed.

Example labels_of_three_scores :
  let df := [attempt "Durand" "Alice" "Terminée" 1 10 (score 1250);
             attempt "Durand" "Alice" "Terminée" 1 11 (score 0);
             attempt "Durand" "Alice" "Terminée" 1 13 (score 1800)] in
  Engine.max_label df = "18.00" /\
  Engine.notes_list df = ["12.50"; "0.00"; "18.00"].
Proof. split; reflexivity. Qed.

(** A row of the table that was never edited is extracted as two empty
    texts, which the comparison reads as NaT: it selects nothing and the
    computation goes on. *)
Example untouched_row_selects_nothing :
  Schedule.get_data [untouched; new_year] =
    Returned [("", ""); ("2024-01-01 00:00", "2024-01-02 00:00")] /\
  compute (parent alice_only [untouched; new_year]) fresh =
    compute (parent alice_only [new_year]) fresh.
Proof. split; reflexivity. Qed.

(** Without a frame, and with a frame that lacks a column, [compute]
    raises before it looks at any row. *)
Example compute_without_data :
  compute {| Engine.data := None;
             Engine.widget_student_filter := everyone;
             Engine.widget_json_schedule := [new_year] |} fresh =
    (Raised (mk_exn ValueError (Msg "There is no data to compute")), fresh) /\
  compute {| Engine.data :=
               Some {| Engine.columns := ["Nom de famille"; "Prénom"];
                       Engine.rows := [] |};
             Engine.widget_student_filter := everyone;
             Engine.widget_json_schedule := [new_year] |} fresh =
    (Raised (mk_exn ValueError
               (MissingCols ["Statut"; "Commencé"; "Terminé"; "Note/20,00"])),
     fresh).
Proof. split; reflexivity. Qed.

(** A load that succeeds: the dates and the scores are converted, the
    four columns are moved to positions 2 to 5, and the student filter is
    reset to the students of the new frame, all checked. *)
Example load_data_succeeds :
  exists p',
    load_data (window "notes.csv") = (Returned tt, p') /\
    option_map Loader.columns (Loader.data p') =
      Some ["Nom de famille"; "Pr√©nom"; "Statut"; "Commenc√©"; "Termin√©";
            "Note/20,00"; "Adresse de courriel"] /\
    option_map (fun d => dict_get d "Note/20,00") (Loader.data p') =
      Some (Some [Loader.CFloat (S754_finite false (31 * 2 ^ 48) (-49));
                  Loader.CFloat (S754_zero false)]) /\
    Loader.widget_student_filter p' =
      [("Durand Alice", true); ("Martin Bob", true)].
Proof.
  exists (snd (load_data (window "notes.csv"))).
  split; [| split; [| split]]; vm_compute; reflexivity.
Qed.
End Worked.

(* ===================================================================== *)
(** * Facts: editing, saving and removing classes *)
(* ===================================================================== *)

Section DictFacts.
Context {V : Type}.
Implicit Types (d : dict V) (k : string) (v : V).

Lemma dict_get_set_same d k v : dict_get (dict_set d k v) k = Some v.
Proof.
  induction d as [| [k' v'] d IH]; simpl.
  - now rewrite String.eqb_refl.
  - destruct (String.eqb_spec k k') as [-> | Hne]; simpl.
    + now rewrite String.eqb_refl.
    + destruct (String.eqb_spec k k'); [contradiction | exact IH].
Qed.

Lemma dict_get_set_other d k k' v :
  k' <> k -> dict_get (dict_set d k v) k' = dict_get d k'.
Proof.
  intros Hne. induction d as [| [k0 v0] d IH]; simpl.
  - destruct (String.eqb_spec k' k); [contradiction | reflexivity].
  - destruct (String.eqb_spec k k0) as [-> | Hk]; simpl.
    + destruct (String.eqb_spec k' k0); [contradiction | reflexivity].
    + destruct (String.eqb_spec k' k0); [reflexivity | exact IH].
Qed.

Lemma dict_set_get_id d k v : dict_get d k = Some v -> dict_set d k v = d.
Proof.
  induction d as [| [k' v'] d IH]; simpl; [discriminate |].
  destruct (String.eqb_spec k k') as [-> | Hne].
  - now intros [= ->].
  - intros H. now rewrite IH.
Qed.

Lemma dict_set_idem d k v : dict_set (dict_set d k v) k v = dict_set d k v.
Proof. apply dict_set_get_id, dict_get_set_same. Qed.

Lemma dict_get_In_keys d k : In k (keys d) <-> dict_get d k <> None.
Proof.
  induction d as [| [k' v'] d IH]; simpl; [intuition congruence |].
  destruct (String.eqb_spec k k') as [-> | Hne].
  - split; [discriminate | auto].
  - rewrite <- IH. intuition congruence.
Qed.

Lemma dict_get_del_same d k :
  NoDup (keys d) -> dict_get (Schedule.dict_del d k) k = None.
Proof.
  induction d as [| [k' v'] d IH]; simpl; [reflexivity |].
  intros Hnd. inversion Hnd as [| ? ? Hnin Hnd']; subst.
  destruct (String.eqb_spec k k') as [-> | Hne].
  - destruct (dict_get d k') eqn:E; [| reflexivity].
    exfalso. apply Hnin, dict_get_In_keys. congruence.
  - simpl. destruct (String.eqb_spec k k'); [contradiction | now apply IH].
Qed.

Lemma dict_get_del_other d k k' :
  k' <> k -> dict_get (Schedule.dict_del d k) k' = dict_get d k'.
Proof.
  intros Hne. induction d as [| [k0 v0] d IH]; simpl; [reflexivity |].
  destruct (String.eqb_spec k k0) as [-> | Hk]; simpl.
  - destruct (String.eqb_spec k' k0); [contradiction | reflexivity].
  - destruct (String.eqb_spec k' k0); [reflexivity | exact IH].
Qed.

(** With unique keys, taking out the key at position [i] takes out the
    entry at position [i]. *)
Lemma dict_del_nth d : forall i,
  NoDup (keys d) -> i < List.length d ->
  Schedule.dict_del d (nth i (keys d) "") = firstn i d ++ skipn (S i) d.
Proof.
  induction d as [| [k' v'] d IH]; intros i Hnd Hi; simpl in *; [lia |].
  inversion Hnd as [| ? ? Hnin Hnd']; subst.
  destruct i as [| i]; simpl.
  - now rewrite String.eqb_refl.
  - destruct (String.eqb_spec (nth i (keys d) "") k') as [E | _].
    + exfalso. apply Hnin. rewrite <- E. apply nth_In.
      unfold keys. rewrite length_map. lia.
    + f_equal. apply IH; [assumption | lia].
Qed.
End DictFacts.

Section ClassFacts.
Import Schedule.

Lemma intervals_of_shown (l : list interval) :
  intervals_of (map (fun iv => (Some (fst iv), Some (snd iv))) l) = l.
Proof.
  unfold intervals_of. rewrite map_map. simpl.
  induction l as [| [a b] l IH]; simpl; [reflexivity | now rewrite IH].
Qed.

Lemma table_load_data w :
  intervals_of (table (load_data w)) =
    match dict_get (class_info w) (currentText (class_selection w)) with
    | Some l => l
    | None => []
    end.
Proof.
  unfold load_data.
  destruct (dict_get (class_info w) (currentText (class_selection w)));
    simpl; [apply intervals_of_shown | reflexivity].
Qed.

Lemma class_selection_load_data w :
  class_selection (load_data w) = class_selection w.
Proof.
  unfold load_data.
  destruct (dict_get (class_info w) (currentText (class_selection w)));
    reflexivity.
Qed.

(** [load_data] reads the collection and the selection only. *)
Lemma load_data_ext w w' :
  class_info w = class_info w' -> class_selection w = class_selection w' ->
  load_data w = load_data w'.
Proof. unfold load_data. intros -> ->. reflexivity. Qed.

Lemma load_data_idem w : load_data (load_data w) = load_data w.
Proof.
  apply load_data_ext;
    [apply class_info_load_data | apply class_selection_load_data].
Qed.

(** [class_save] in one step. *)
Lemma class_save_run w f :
  class_save (w, f) =
    let ci := dict_set (class_info w) (currentText (class_selection w))
                       (intervals_of (table w)) in
    (Returned tt,
     (set_class_info ci w,
      if is_placeholder ci then None else Some (dump ci))).
Proof.
  unfold class_save. rewrite get_data_spec. cbv zeta. simpl.
  unfold set_class_info.
  destruct (is_placeholder _); simpl; [destruct f |]; reflexivity.
Qed.

(** X1.  [load_data] shows the selected class: the table then holds the
    intervals recorded for the text selected in the drop-down, so that
    [get_data] returns them as recorded, and it is empty when no class has
    that text.  Rows of the table that were not saved are gone; the
    collection and the drop-down are left as they were. *)
Theorem load_data_shows_selected_class (w : TwoColumnWidget) :
  get_data (table (load_data w)) =
    Returned (match dict_get (class_info w)
                             (currentText (class_selection w)) with
              | Some schedule_list => schedule_list
              | None => []
              end) /\
  class_info (load_data w) = class_info w /\
  class_selection (load_data w) = class_selection w.
Proof.
  rewrite get_data_spec, table_load_data.
  split; [reflexivity |].
  split; [apply class_info_load_data | apply class_selection_load_data].
Qed.

(** X2.  What [class_save] records is what [load_data] shows again: after
    a save, selecting the class anew gives a table whose intervals are
    those of the table that was saved, the empty text standing for each
    item that was absent.  The intervals of every other class are
    untouched by the save, and so are the drop-down and the table. *)
Theorem class_save_then_load_data (w : TwoColumnWidget) (f : file) :
  exists w' f',
    class_save (w, f) = (Returned tt, (w', f')) /\
    get_data (table (load_data w')) = Returned (intervals_of (table w)) /\
    (forall k, k <> currentText (class_selection w) ->
               dict_get (class_info w') k = dict_get (class_info w) k) /\
    class_selection w' = class_selection w /\
    table w' = table w.
Proof.
  rewrite class_save_run. cbv zeta. eexists _, _.
  split; [reflexivity |].
  rewrite get_data_spec, table_load_data. simpl.
  rewrite dict_get_set_same.
  repeat split. intros k Hk. now apply dict_get_set_other.
Qed.

(** X3.  Saving twice is saving once: a second [class_save] with nothing
    edited in between changes neither the collection nor the file. *)
Theorem class_save_idempotent (w : TwoColumnWidget) (f : file) :
  bind class_save (fun _ => class_save) (w, f) = class_save (w, f).
Proof.
  unfold bind. rewrite class_save_run. cbv beta iota zeta.
  rewrite class_save_run. cbv zeta. simpl.
  rewrite dict_set_idem. reflexivity.
Qed.

(** X4.  A file written by a save and read at start is left as it is by
    a save with nothing edited: for a collection with at least one class
    that is not the placeholder [{'': []}], [__init__] on its document
    shows the first class, and [class_save] then writes the same document
    and leaves the widget as it is. *)
Theorem init_then_class_save (ci : dict (list interval)) :
  NoDup (keys ci) -> ci <> [] -> is_placeholder ci = false ->
  exists w,
    init (Some (dump ci)) = Some w /\
    class_info w = ci /\
    currentText (class_selection w) = hd "" (keys ci) /\
    class_save (w, Some (dump ci)) = (Returned tt, (w, Some (dump ci))).
Proof.
  intros Hnd Hne Hph. unfold init. rewrite (load_dump ci Hnd).
  destruct ci as [| [k l] ci]; [congruence |].
  assert (Hw : load_data
                 {| class_info := (k, l) :: ci;
                    class_selection :=
                      addItems {| items := []; currentIndex := None |}
                               (keys ((k, l) :: ci));
                    table := [] |} =
               {| class_info := (k, l) :: ci;
                  class_selection :=
                    {| items := k :: keys ci; currentIndex := Some 0 |};
                  table := map (fun iv => (Some (fst iv), Some (snd iv))) l |}).
  { unfold load_data. simpl. rewrite String.eqb_refl. reflexivity. }
  rewrite Hw. eexists. split; [reflexivity |].
  split; [reflexivity |]. split; [reflexivity |].
  rewrite class_save_run. cbv zeta. unfold set_class_info.
  simpl class_info. simpl class_selection. simpl table.
  rewrite intervals_of_shown.
  change (currentText {| items := k :: keys ci; currentIndex := Some 0 |})
    with k.
  assert (Hset : dict_set ((k, l) :: ci) k l = (k, l) :: ci)
    by (simpl; now rewrite String.eqb_refl).
  rewrite Hset, Hph. reflexivity.
Qed.

(** X5.  A save with no class at all cannot be told from a save of the
    placeholder: on a widget started from a file that holds no class, or
    from no file, [class_save] records the class named by the empty text
    with no interval, and the file is removed. *)
Theorem class_save_without_class (f : file) (w : TwoColumnWidget) :
  init f = Some w -> class_info w = [] ->
  class_save (w, f) =
    (Returned tt, (set_class_info [("", [])] w, None)).
Proof.
  unfold init. intros Hinit Hci.
  destruct (match f with Some j => load j | None => Some [] end)
    as [ci |]; [| discriminate].
  injection Hinit as <-. rewrite class_info_load_data in Hci.
  simpl in Hci. subst ci. rewrite class_save_run. reflexivity.
Qed.

(** ** Rows *)

Lemma intervals_of_app t t' :
  intervals_of (t ++ t') = intervals_of t ++ intervals_of t'.
Proof. apply map_app. Qed.

(** X6.  [add_row] adds one row at the end of the table, and [get_data]
    reads it as the pair of two empty texts after the intervals that were
    there. *)
Theorem add_row_appends_empty_interval (w : TwoColumnWidget) :
  get_data (table (add_row w)) =
    Returned (intervals_of (table w) ++ [("", "")]) /\
  rowCount (table (add_row w)) = Datatypes.S (rowCount (table w)) /\
  class_info (add_row w) = class_info w /\
  class_selection (add_row w) = class_selection w.
Proof.
  rewrite get_data_spec. unfold add_row, insertRow, rowCount. simpl.
  rewrite Nat.leb_refl, firstn_all, skipn_all, intervals_of_app, length_app.
  simpl. repeat split. lia.
Qed.

Lemma set_table_table w : set_table (table w) w = w.
Proof. destruct w; reflexivity. Qed.

(** X7.  [remove_selected_row] removes the current row and no other: with
    no current row (-1) the table is left as it is; with current row
    [row], the first row included, the intervals are those before and
    those after it. *)
Theorem remove_selected_row_removes_current (w : TwoColumnWidget) :
  (forall currentRow, (currentRow < 0)%Z ->
     remove_selected_row currentRow w = w) /\
  (forall row, row < rowCount (table w) ->
     get_data (table (remove_selected_row (Z.of_nat row) w)) =
       Returned (firstn row (intervals_of (table w)) ++
                 skipn (Datatypes.S row) (intervals_of (table w))) /\
     Datatypes.S (rowCount (table (remove_selected_row (Z.of_nat row) w))) =
       rowCount (table w)).
Proof.
  split.
  - intros r Hr. unfold remove_selected_row.
    destruct (Z.leb_spec 0 r); [lia | reflexivity].
  - intros row Hrow. unfold remove_selected_row.
    destruct (Z.leb_spec 0 (Z.of_nat row)); [| lia].
    rewrite Nat2Z.id, get_data_spec. unfold removeRow.
    destruct (Nat.ltb_spec row (rowCount (table w))); [| lia].
    unfold set_table. cbn [table]. unfold rowCount in *.
    unfold intervals_of. rewrite map_app, firstn_map, skipn_map.
    split; [reflexivity |].
    rewrite length_app, length_firstn, length_skipn. lia.
Qed.

Lemma removeRow_insertRow_end (t : QTableWidget) :
  removeRow (insertRow t (rowCount t)) (rowCount t) = t.
Proof.
  unfold insertRow, removeRow, rowCount.
  rewrite Nat.leb_refl, firstn_all, skipn_all, length_app.
  cbn [List.length].
  destruct (Nat.ltb_spec (List.length t) (List.length t + 1)); [| lia].
  rewrite firstn_app, Nat.sub_diag, firstn_all, firstn_O, app_nil_r.
  rewrite skipn_all2; [apply app_nil_r |].
  rewrite length_app. simpl. lia.
Qed.

(** X8.  Removing the row that [add_row] has just added gives the widget
    back. *)
Theorem add_row_then_remove_it (w : TwoColumnWidget) :
  remove_selected_row (Z.of_nat (rowCount (table w))) (add_row w) = w.
Proof.
  unfold remove_selected_row.
  destruct (Z.leb_spec 0 (Z.of_nat (rowCount (table w)))); [| lia].
  rewrite Nat2Z.id. unfold add_row, set_table. cbn [table class_info
  class_selection].
  rewrite removeRow_insertRow_end. destruct w; reflexivity.
Qed.
End ClassFacts.

Section DropDownFacts.
Import Schedule.

Lemma class_info_signal c c' w : class_info (signal c c' w) = class_info w.
Proof.
  unfold signal. destruct (String.eqb _ _);
    [reflexivity | apply class_info_load_data].
Qed.

Lemma class_selection_signal c c' w :
  class_selection (signal c c' w) = class_selection w.
Proof.
  unfold signal. destruct (String.eqb _ _);
    [reflexivity | apply class_selection_load_data].
Qed.

Lemma class_info_on_selection op w :
  class_info (on_selection op w) = class_info w.
Proof. unfold on_selection. cbv zeta. now rewrite class_info_signal. Qed.

Lemma class_selection_on_selection op w :
  class_selection (on_selection op w) = op (class_selection w).
Proof. unfold on_selection. cbv zeta. now rewrite class_selection_signal. Qed.

(** [findText] finds the first item with the text, if there is one. *)
Lemma findText_In (l : list string) text :
  In text l -> exists i, findText l text = Some i /\ nth i l "" = text.
Proof.
  induction l as [| x l IH]; simpl; [tauto |].
  intros H. destruct (String.eqb_spec x text) as [-> | Hne].
  - exists 0. split; reflexivity.
  - destruct H as [-> | Hin]; [congruence |].
    destruct (IH Hin) as [i [-> Hi]]. exists (Datatypes.S i).
    split; [reflexivity | exact Hi].
Qed.

Lemma currentText_setCurrentText c text :
  In text (items c) -> currentText (setCurrentText c text) = text.
Proof.
  intros Hin. destruct (findText_In _ _ Hin) as [i [Hf Hi]].
  unfold setCurrentText. rewrite Hf. exact Hi.
Qed.

Lemma items_setCurrentText c text : items (setCurrentText c text) = items c.
Proof.
  unfold setCurrentText. destruct (findText (items c) text); reflexivity.
Qed.

(** X9.  [class_add] with a name that was entered and confirmed: the class
    is recorded with no interval, whether or not a class of that name
    existed, and every other class keeps its intervals; the name is added
    at the end of the drop-down, which then shows it as its current text;
    the table is empty.  A dialog that is cancelled, or confirmed with no
    name, changes nothing. *)
Theorem class_add_selects_empty_class (w : TwoColumnWidget) (name : string) :
  name <> "" ->
  dict_get (class_info (class_add name true w)) name = Some [] /\
  (forall k, k <> name ->
     dict_get (class_info (class_add name true w)) k =
       dict_get (class_info w) k) /\
  items (class_selection (class_add name true w)) =
    items (class_selection w) ++ [name] /\
  currentText (class_selection (class_add name true w)) = name /\
  table (class_add name true w) = [] /\
  class_add name false w = w /\
  (forall ok, class_add "" ok w = w).
Proof.
  intros Hname. unfold class_add.
  destruct (String.eqb_spec name "") as [-> | _]; [congruence |].
  cbn [andb negb]. cbv zeta.
  set (w1 := set_class_info (dict_set (class_info w) name []) w).
  set (w2 := on_selection (fun c => addItem c name) w1).
  set (w3 := on_selection (fun c => setCurrentText c name) w2).
  assert (Hci : class_info w3 = dict_set (class_info w) name []).
  { unfold w3, w2. now rewrite !class_info_on_selection. }
  assert (Hsel : class_selection w3 =
                 setCurrentText (addItem (class_selection w) name) name).
  { unfold w3, w2. now rewrite !class_selection_on_selection. }
  assert (Hcur : currentText (class_selection w3) = name).
  { rewrite Hsel. apply currentText_setCurrentText. simpl.
    apply in_or_app. right. now left. }
  rewrite class_info_load_data, class_selection_load_data, Hci.
  split; [apply dict_get_set_same |].
  split; [intros k Hk; now apply dict_get_set_other |].
  split; [now rewrite Hsel, items_setCurrentText |].
  split; [exact Hcur |].
  split.
  - unfold load_data. rewrite Hcur, Hci, dict_get_set_same. reflexivity.
  - split; [reflexivity |]. intros ok. now rewrite andb_false_r.
Qed.

(** In a list without repetition, the element at a position is not among
    the others. *)
Lemma nth_not_In_others (l : list string) : forall i,
  NoDup l -> i < List.length l ->
  ~ In (nth i l "") (firstn i l ++ skipn (Datatypes.S i) l).
Proof.
  induction l as [| x l IH]; intros i Hnd Hi; simpl in Hi; [lia |].
  inversion Hnd as [| ? ? Hnin Hnd']; subst.
  destruct i as [| i]; simpl.
  - exact Hnin.
  - intros [E | Hin].
    + apply Hnin. rewrite E. apply nth_In. lia.
    + apply (IH i Hnd'); [lia | exact Hin].
Qed.

Lemma keys_remove_nth {V} (d : dict V) i :
  keys (firstn i d ++ skipn (Datatypes.S i) d) =
    firstn i (keys d) ++ skipn (Datatypes.S i) (keys d).
Proof. unfold keys. now rewrite map_app, firstn_map, skipn_map. Qed.

(** X10.  [class_remove] on a widget whose drop-down lists the classes of
    the collection, each once, and that has another class left: the
    selected class, whose name is not the empty text, is taken out of the
    collection and of the drop-down, the other classes keep their order
    and their intervals, the class that takes its place in the drop-down
    is selected and shown, and the file holds the document of the
    remaining collection.  What the table showed of the removed class is
    not saved under any class. *)
Theorem class_remove_removes_selected_class
        (w : TwoColumnWidget) (f : file) (i : nat) :
  items (class_selection w) = keys (class_info w) ->
  NoDup (keys (class_info w)) ->
  currentIndex (class_selection w) = Some i ->
  i < List.length (class_info w) ->
  currentText (class_selection w) <> "" ->
  2 <= List.length (class_info w) ->
  let ci' := firstn i (class_info w) ++ skipn (Datatypes.S i) (class_info w) in
  exists w',
    class_remove (w, f) =
      (Returned tt,
       (w', if is_placeholder ci' then None else Some (dump ci'))) /\
    class_info w' = ci' /\
    items (class_selection w') = keys ci' /\
    dict_get ci' (currentText (class_selection w)) = None /\
    (forall k, k <> currentText (class_selection w) ->
               dict_get ci' k = dict_get (class_info w) k) /\
    currentIndex (class_selection w') =
      Some (Nat.min (List.length ci' - 1) i) /\
    get_data (table w') =
      Returned (match dict_get ci' (currentText (class_selection w')) with
                | Some schedule_list => schedule_list
                | None => []
                end) /\
    In (currentText (class_selection w')) (keys ci').
Proof.
  intros Hitems Hnd Hidx Hi Hcur Hlen ci'.
  assert (Hcurrent : currentText (class_selection w) =
                     nth i (keys (class_info w)) "").
  { unfold currentText. now rewrite Hidx, Hitems. }
  assert (Hdel : dict_del (class_info w) (currentText (class_selection w))
                 = ci').
  { rewrite Hcurrent. now apply dict_del_nth. }
  assert (Hin : In (currentText (class_selection w)) (keys (class_info w))).
  { rewrite Hcurrent. apply nth_In. unfold keys. rewrite length_map. lia. }
  assert (Hlen' : Datatypes.S (List.length ci') = List.length (class_info w)).
  { unfold ci'. rewrite length_app, length_firstn, length_skipn. lia. }
  set (c' := removeItem (class_selection w) i).
  assert (Hc' : c' = {| items := keys ci';
                        currentIndex :=
                          Some (Nat.min (List.length ci' - 1) i) |}).
  { unfold c', removeItem. rewrite Hitems, Hidx, Nat.eqb_refl.
    unfold keys at 1. rewrite length_map.
    destruct (Nat.ltb_spec i (List.length (class_info w))); [| lia].
    rewrite <- keys_remove_nth. fold ci'.
    destruct ci' as [| e ci'']; [simpl in Hlen'; lia |].
    unfold keys. cbn [map List.length]. rewrite length_map. reflexivity. }
  assert (Hk' : In (currentText c') (keys ci')).
  { rewrite Hc'. unfold currentText. simpl. apply nth_In.
    unfold keys. rewrite length_map. lia. }
  assert (Hne : currentText (class_selection w) <> currentText c').
  { intros E. rewrite <- E in Hk'. unfold ci' in Hk'.
    rewrite keys_remove_nth, Hcurrent in Hk'.
    apply (nth_not_In_others (keys (class_info w)) i Hnd); [| exact Hk'].
    unfold keys. rewrite length_map. lia. }
  destruct (dict_get ci' (currentText c')) as [l' |] eqn:Hget;
    [| apply dict_get_In_keys in Hk'; contradiction].
  unfold class_remove.
  destruct (String.eqb_spec (currentText (class_selection w)) "");
    [contradiction |].
  cbn [negb].
  destruct (dict_get (class_info w) (currentText (class_selection w)))
    eqn:Hg; [| apply dict_get_In_keys in Hin; contradiction].
  rewrite Hdel. unfold set_class_info at 1. cbn [class_selection].
  rewrite Hidx. unfold on_selection. cbv zeta.
  unfold set_class_info, set_selection. cbn [class_selection class_info table].
  fold c'. unfold signal.
  destruct (String.eqb_spec (currentText (class_selection w))
                            (currentText c')); [contradiction |].
  rewrite class_save_run. cbv zeta.
  rewrite class_selection_load_data, class_info_load_data, table_load_data.
  cbn [class_selection class_info]. rewrite Hget.
  rewrite (dict_set_get_id _ _ _ Hget).
  eexists. split; [reflexivity |].
  unfold set_class_info. cbn [class_selection class_info table].
  rewrite class_selection_load_data. cbn [class_selection].
  split; [reflexivity |].
  split; [now rewrite Hc' |].
  split; [rewrite <- Hdel; now apply dict_get_del_same |].
  split; [intros k Hk; rewrite <- Hdel; now apply dict_get_del_other |].
  split; [now rewrite Hc' |].
  split; [| exact Hk'].
  rewrite get_data_spec, table_load_data. cbn [class_selection class_info].
  reflexivity.
Qed.

(** X11.  [class_remove] of the only class: the drop-down and the table
    are left empty and the file is removed, but the collection is not
    empty afterwards: it holds the class named by the empty text, with no
    interval.  That class cannot be removed: [class_remove] does nothing
    while the current text is empty. *)
Theorem class_remove_last_class
        (name : string) (l : list interval) (t : QTableWidget) (f : file) :
  name <> "" ->
  let w := {| class_info := [(name, l)];
              class_selection := {| items := [name]; currentIndex := Some 0 |};
              table := t |} in
  let w' := {| class_info := [("", [])];
               class_selection := {| items := []; currentIndex := None |};
               table := [] |} in
  class_remove (w, f) = (Returned tt, (w', None)) /\
  class_remove (w', None) = (Returned tt, (w', None)).
Proof.
  intros Hname w w'. split; [| reflexivity].
  unfold class_remove, w. cbn [class_selection class_info currentText nth
                               items currentIndex].
  destruct (String.eqb_spec name ""); [contradiction |]. cbn [negb].
  cbn [dict_get]. rewrite String.eqb_refl.
  unfold set_class_info. cbn [class_info class_selection table dict_del
                              currentIndex].
  rewrite String.eqb_refl.
  unfold on_selection, signal. cbv zeta.
  cbn [class_selection set_selection class_info table].
  unfold removeItem. cbn.
  destruct (String.eqb_spec name ""); [contradiction |].
  destruct f; reflexivity.
Qed.

(** X12.  [class_remove] raises [KeyError] when the text selected in the
    drop-down, not empty, names no class of the collection; the widget
    and the file are then as they were. *)
Theorem class_remove_unknown_class (w : TwoColumnWidget) (f : file) :
  currentText (class_selection w) <> "" ->
  dict_get (class_info w) (currentText (class_selection w)) = None ->
  class_remove (w, f) =
    (Raised (mk_exn KeyError (Msg (currentText (class_selection w)))),
     (w, f)).
Proof.
  intros Hcur Hget. unfold class_remove.
  destruct (String.eqb_spec (currentText (class_selection w)) "");
    [contradiction |].
  cbn [negb]. now rewrite Hget.
Qed.
End DropDownFacts.

(* ===================================================================== *)
(** * Facts: a load that succeeds, the model, and open_csv *)
(* ===================================================================== *)

Section FrameFacts.
Import Loader.

Lemma NoDup_app_disjoint {A} (l1 l2 : list A) a :
  NoDup (l1 ++ l2) -> In a l1 -> ~ In a l2.
Proof.
  induction l1 as [| x l1 IH]; simpl; [tauto |].
  intros H. inversion H as [| ? ? Hnin Hnd]; subst.
  intros [-> | Hin] H2.
  - apply Hnin, in_or_app. now right.
  - now apply (IH Hnd Hin).
Qed.

Lemma dict_get_mem {V} (d : dict V) k v :
  dict_get d k = Some v -> mem k (keys d) = true.
Proof.
  intros H. apply mem_In, dict_get_In_keys. congruence.
Qed.

Lemma columns_setitem d col s s' :
  getitem d col = Returned s -> columns (setitem d col s') = columns d.
Proof.
  unfold getitem, setitem, columns. intros H. rewrite keys_dict_set.
  destruct (dict_get d col) eqn:E; [| discriminate].
  now rewrite (dict_get_mem _ _ _ E).
Qed.

Lemma dict_get_app_r (pre rest : DataFrame) col :
  ~ In col (keys pre) -> dict_get (pre ++ rest) col = dict_get rest col.
Proof.
  induction pre as [| [c s] pre IH]; simpl; intros H; [reflexivity |].
  destruct (String.eqb_spec col c) as [-> | _]; [tauto |].
  apply IH. tauto.
Qed.

Lemma remove_app_r (pre rest : DataFrame) col :
  ~ In col (keys pre) -> remove (pre ++ rest) col = pre ++ remove rest col.
Proof.
  induction pre as [| [c s] pre IH]; simpl; intros H; [reflexivity |].
  destruct (String.eqb_spec col c) as [-> | _]; [tauto |].
  rewrite IH by tauto. reflexivity.
Qed.

Lemma In_keys_remove (d : DataFrame) col c :
  In c (keys (remove d col)) -> In c (keys d).
Proof.
  induction d as [| [c0 s0] d IH]; simpl; [tauto |].
  destruct (String.eqb_spec col c0) as [-> | _]; simpl; [tauto |].
  intros [E | H]; [now left | right; now apply IH].
Qed.

Lemma In_keys_remove_other (d : DataFrame) col c :
  c <> col -> In c (keys d) -> In c (keys (remove d col)).
Proof.
  intros Hne. induction d as [| [c0 s0] d IH]; simpl; [tauto |].
  destruct (String.eqb_spec col c0) as [-> | _]; simpl.
  - intros [E | H]; [congruence | exact H].
  - intros [E | H]; [now left | right; now apply IH].
Qed.

Lemma NoDup_keys_remove (d : DataFrame) col :
  NoDup (keys d) -> NoDup (keys (remove d col)) /\ ~ In col (keys (remove d col)).
Proof.
  induction d as [| [c0 s0] d IH]; simpl; intros H.
  - split; [constructor | tauto].
  - inversion H as [| ? ? Hnin Hnd]; subst.
    destruct (String.eqb_spec col c0) as [-> | Hne]; simpl.
    + split; assumption.
    + destruct (IH Hnd) as [H1 H2]. split.
      * constructor; [| exact H1]. intros Hin. apply Hnin.
        now apply In_keys_remove in Hin.
      * intros [E | Hin]; [congruence | contradiction].
Qed.

Lemma dict_get_remove_other (d : DataFrame) col c :
  c <> col -> dict_get (remove d col) c = dict_get d c.
Proof.
  intros Hne. induction d as [| [c0 s0] d IH]; simpl; [reflexivity |].
  destruct (String.eqb_spec col c0) as [-> | Hc]; simpl.
  - destruct (String.eqb_spec c c0); [contradiction | reflexivity].
  - destruct (String.eqb_spec c c0); [reflexivity | exact IH].
Qed.

Lemma length_remove (d : DataFrame) col s :
  dict_get d col = Some s ->
  Datatypes.S (List.length (remove d col)) = List.length d.
Proof.
  induction d as [| [c0 s0] d IH]; simpl; [discriminate |].
  destruct (String.eqb_spec col c0) as [-> | _]; simpl; [reflexivity |].
  intros H. now rewrite (IH H).
Qed.

(** One turn of the reordering loop, from a window whose [data] is [d]. *)
Lemma reorder_step col idx l d p :
  reorder ((col, idx) :: l) (set_data d p) =
    match pop d col with
    | Raised e => (Raised e, set_data d p)
    | Returned popped =>
        match insert (snd popped) idx col (fst popped) with
        | Raised e => (Raised e, set_data d p)
        | Returned d' => reorder l (set_data d' p)
        end
    end.
Proof.
  cbn [reorder]. unfold bind, the_data, lift, modify. simpl.
  destruct (pop d col) as [popped |]; [| reflexivity].
  destruct (insert (snd popped) idx col (fst popped)); reflexivity.
Qed.

(** A column found after the first [length pre] columns, none of which
    has its name, is moved to position [length pre]. *)
Lemma pop_insert_after (pre rest : DataFrame) col s :
  ~ In col (keys pre) -> NoDup (keys (pre ++ rest)) ->
  dict_get rest col = Some s ->
  pop (pre ++ rest) col = Returned (s, pre ++ remove rest col) /\
  insert (pre ++ remove rest col) (List.length pre) col s =
    Returned (pre ++ (col, s) :: remove rest col).
Proof.
  intros Hpre Hnd Hget. split.
  - unfold pop. now rewrite dict_get_app_r, Hget, remove_app_r.
  - unfold insert.
    assert (Hrest : NoDup (keys rest)).
    { unfold keys in Hnd. rewrite map_app in Hnd.
      now apply NoDup_app_remove_l in Hnd. }
    destruct (NoDup_keys_remove rest col Hrest) as [_ Hnin].
    destruct (mem col (columns (pre ++ remove rest col))) eqn:E.
    + apply mem_In in E. unfold columns, keys in E.
      rewrite map_app, in_app_iff in E. tauto.
    + destruct (Nat.ltb_spec (List.length (pre ++ remove rest col))
                             (List.length pre)) as [Hlt | _].
      * rewrite length_app in Hlt. lia.
      * rewrite firstn_app, Nat.sub_diag, firstn_all, firstn_O, app_nil_r.
        rewrite skipn_app, skipn_all, Nat.sub_diag. reflexivity.
Qed.

Lemma NoDup_moved (pre rest : DataFrame) col s :
  ~ In col (keys pre) -> NoDup (keys (pre ++ rest)) ->
  NoDup (keys ((pre ++ [(col, s)]) ++ remove rest col)).
Proof.
  intros Hpre Hnd. unfold keys in *. rewrite !map_app in *. simpl.
  rewrite <- app_assoc. simpl.
  assert (Hrest : NoDup (map fst rest)) by now apply NoDup_app_remove_l in Hnd.
  destruct (NoDup_keys_remove rest col Hrest) as [Hnd' Hnin].
  apply NoDup_app; [now apply NoDup_app_remove_r in Hnd | |].
  - constructor; assumption.
  - intros x Hx [<- | Hin]; [contradiction |].
    apply In_keys_remove in Hin.
    apply (NoDup_app_disjoint _ _ x Hnd); assumption.
Qed.
End FrameFacts.

Section ReorderFacts.
Import Loader.

#[local] Abbreviation moved :=
  (combine ["Statut"; "Commenc√©"; "Termin√©"; "Note/20,00"]
           [2; 3; 4; 5]%nat).

(** X13.  The reordering loop of [load_data] on a frame with distinct
    column names whose first two columns are none of the four it moves:
    the first two columns stay, ['Statut'], ['Commenc√©'], ['Termin√©']
    and ['Note/20,00'] follow at positions 2 to 5 with the cells they had,
    and the remaining columns come after them in the order they had. *)
Theorem reorder_puts_columns_at_2_to_5
        (p : MainWindow) (c0 c1 : string * Series) (rest : DataFrame)
        (statut commence termine note : Series) :
  NoDup (columns (c0 :: c1 :: rest)) ->
  ~ In (fst c0) ["Statut"; "Commenc√©"; "Termin√©"; "Note/20,00"] ->
  ~ In (fst c1) ["Statut"; "Commenc√©"; "Termin√©"; "Note/20,00"] ->
  dict_get rest "Statut" = Some statut ->
  dict_get rest "Commenc√©" = Some commence ->
  dict_get rest "Termin√©" = Some termine ->
  dict_get rest "Note/20,00" = Some note ->
  reorder moved (set_data (c0 :: c1 :: rest) p) =
    (Returned tt,
     set_data
       (c0 :: c1 :: ("Statut", statut) :: ("Commenc√©", commence)
           :: ("Termin√©", termine) :: ("Note/20,00", note)
           :: remove (remove (remove (remove rest "Statut") "Commenc√©")
                             "Termin√©") "Note/20,00")
       p).
Proof.
  intros Hnd H0 H1 Hs Hc Ht Hn. simpl in H0, H1.
  cbn [combine].
  (* Statut *)
  rewrite reorder_step.
  destruct (pop_insert_after [c0; c1] rest "Statut" statut)
    as [Hpop Hins]; [simpl; intuition congruence | exact Hnd | exact Hs |].
  cbn [app] in Hpop. rewrite Hpop. cbn [fst snd].
  cbn [app List.length] in Hins. rewrite Hins.
  pose proof (NoDup_moved [c0; c1] rest "Statut" statut) as Hnd1.
  cbn [app] in Hnd1. specialize (Hnd1 ltac:(simpl; intuition congruence) Hnd).
  (* Commencé *)
  set (rest1 := remove rest "Statut") in *.
  assert (Hc1 : dict_get rest1 "Commenc√©" = Some commence)
    by (unfold rest1; rewrite dict_get_remove_other; [exact Hc | discriminate]).
  assert (Ht1 : dict_get rest1 "Termin√©" = Some termine)
    by (unfold rest1; rewrite dict_get_remove_other; [exact Ht | discriminate]).
  assert (Hn1 : dict_get rest1 "Note/20,00" = Some note)
    by (unfold rest1; rewrite dict_get_remove_other; [exact Hn | discriminate]).
  rewrite reorder_step.
  destruct (pop_insert_after [c0; c1; ("Statut", statut)] rest1
                             "Commenc√©" commence)
    as [Hpop2 Hins2];
    [simpl; intuition congruence | exact Hnd1 | exact Hc1 |].
  cbn [app] in Hpop2. rewrite Hpop2. cbn [fst snd].
  cbn [app List.length] in Hins2. rewrite Hins2.
  pose proof (NoDup_moved [c0; c1; ("Statut", statut)] rest1
                          "Commenc√©" commence) as Hnd2.
  cbn [app] in Hnd2.
  specialize (Hnd2 ltac:(simpl; intuition congruence) Hnd1).
  (* Terminé *)
  set (rest2 := remove rest1 "Commenc√©") in *.
  assert (Ht2 : dict_get rest2 "Termin√©" = Some termine)
    by (unfold rest2; rewrite dict_get_remove_other;
        [exact Ht1 | discriminate]).
  assert (Hn2 : dict_get rest2 "Note/20,00" = Some note)
    by (unfold rest2; rewrite dict_get_remove_other;
        [exact Hn1 | discriminate]).
  rewrite reorder_step.
  destruct (pop_insert_after
              [c0; c1; ("Statut", statut); ("Commenc√©", commence)] rest2
              "Termin√©" termine)
    as [Hpop3 Hins3];
    [simpl; intuition congruence | exact Hnd2 | exact Ht2 |].
  cbn [app] in Hpop3. rewrite Hpop3. cbn [fst snd].
  cbn [app List.length] in Hins3. rewrite Hins3.
  pose proof (NoDup_moved
                [c0; c1; ("Statut", statut); ("Commenc√©", commence)] rest2
                "Termin√©" termine) as Hnd3.
  cbn [app] in Hnd3.
  specialize (Hnd3 ltac:(simpl; intuition congruence) Hnd2).
  (* Note/20,00 *)
  set (rest3 := remove rest2 "Termin√©") in *.
  assert (Hn3 : dict_get rest3 "Note/20,00" = Some note)
    by (unfold rest3; rewrite dict_get_remove_other;
        [exact Hn2 | discriminate]).
  rewrite reorder_step.
  destruct (pop_insert_after
              [c0; c1; ("Statut", statut); ("Commenc√©", commence);
               ("Termin√©", termine)] rest3 "Note/20,00" note)
    as [Hpop4 Hins4];
    [simpl; intuition congruence | exact Hnd3 | exact Hn3 |].
  cbn [app] in Hpop4. rewrite Hpop4. cbn [fst snd].
  cbn [app List.length] in Hins4. rewrite Hins4.
  reflexivity.
Qed.

Lemma In_firstn_skipn {A} n (l : list A) x :
  In x (firstn n l) \/ In x (skipn n l) <-> In x l.
Proof.
  rewrite <- (firstn_skipn n l) at 3. rewrite in_app_iff. tauto.
Qed.

(** A reordering that returns has moved columns, and neither dropped nor
    added one. *)
Lemma reorder_returned l : forall d p q,
  reorder l (set_data d p) = (Returned tt, q) ->
  exists d',
    q = set_data d' p /\
    (forall c, In c (columns d') <-> In c (columns d)) /\
    List.length d' = List.length d.
Proof.
  induction l as [| [col idx] l IH]; intros d p q H.
  - cbn in H. injection H as <-. exists d. repeat split; tauto.
  - rewrite reorder_step in H. unfold pop in H.
    destruct (dict_get d col) as [s |] eqn:Hget; [| discriminate].
    cbn [fst snd] in H. unfold insert in H.
    destruct (mem col (columns (remove d col))) eqn:Hmem; [discriminate |].
    destruct (Nat.ltb (List.length (remove d col)) idx) eqn:Hlt;
      [discriminate |].
    apply Nat.ltb_ge in Hlt.
    destruct (IH _ _ _ H) as (d' & -> & Hin & Hlen).
    exists d'. split; [reflexivity |]. split.
    + intros c. rewrite Hin. unfold columns, keys.
      rewrite map_app, in_app_iff. cbn [map In fst].
      rewrite <- firstn_map, <- skipn_map.
      assert (Hcol : In col (keys d))
        by (apply dict_get_In_keys; congruence).
      pose proof (In_firstn_skipn idx (map fst (remove d col)) c) as Hfs.
      split.
      * intros [Hc | [<- | Hc]]; [| exact Hcol |];
          apply (In_keys_remove d col); apply Hfs; tauto.
      * intros Hc. destruct (string_dec c col) as [-> | Hne];
          [right; now left |].
        apply (In_keys_remove_other d col c Hne), Hfs in Hc. tauto.
    + rewrite Hlen, length_app. simpl. rewrite length_firstn, length_skipn.
      rewrite <- (length_remove d col s Hget). lia.
Qed.
End ReorderFacts.

Section LoadSuccess.
Import Schedule Loader.

Variable EXPECTED_COLUMNS : list string.
Variable read_csv : string -> outcome DataFrame.
Variable to_datetime : Series -> outcome Series.
Variable float_of_text : string -> option Float64.float.

#[local] Abbreviation load :=
  (load_data EXPECTED_COLUMNS read_csv to_datetime float_of_text).
#[local] Abbreviation score := (score_of_cell float_of_text).

Lemma convert_column_returned col f d p q :
  convert_column col f (set_data d p) = (Returned tt, q) ->
  exists d', q = set_data d' p /\ columns d' = columns d.
Proof.
  rewrite convert_column_run.
  destruct (getitem d col) as [s |] eqn:Hs; [| discriminate].
  destruct (f s) as [s' |]; [| discriminate].
  intros [= <-]. exists (setitem d col s').
  split; [reflexivity | now apply (columns_setitem d col s s')].
Qed.

Lemma fold_add_checkable_item (names : list Group.key) :
  forall c,
    fold_left (fun c name => add_checkable_item c (Group.full_name name) true)
              names c =
    c ++ map (fun name => (Group.full_name name, true)) names.
Proof.
  induction names as [| n names IH]; intros c; simpl.
  - now rewrite app_nil_r.
  - rewrite IH. unfold add_checkable_item. now rewrite <- app_assoc.
Qed.

Lemma group_names_sorted d names :
  group_names d = Returned names -> StronglySorted Group.key_lt names.
Proof.
  unfold group_names.
  destruct (getitem d "Nom de famille"); [| discriminate].
  destruct (getitem d "Pr√©nom"); [| discriminate].
  simpl. intros [= <-]. apply sorted_keys_sorted.
Qed.

(** The window a load that returns leaves. *)
Lemma load_data_returned p p' :
  load p = (Returned tt, p') ->
  exists d0 d' names,
    read_csv (widget_input_file p) = Returned d0 /\
    (forall c, In c (columns d') <-> In c (columns d0)) /\
    List.length d' = List.length d0 /\
    group_names d' = Returned names /\
    p' = {| data := Some d';
            widget_input_file := widget_input_file p;
            model := Some {| _data := d'; _header := columns d' |};
            widget_table_data :=
              Some {| _data := d'; _header := columns d' |};
            widget_student_filter :=
              map (fun name => (Group.full_name name, true)) names |}.
Proof.
  rewrite load_data_run.
  destruct (read_csv (widget_input_file p)) as [d0 |]; [| discriminate].
  destruct (difference EXPECTED_COLUMNS (columns d0)); [| discriminate].
  unfold bind at 1.
  destruct (convert_column "Commenc√©" to_datetime (set_data d0 p))
    as [[[] |] q1] eqn:H1; [| discriminate].
  destruct (convert_column_returned _ _ _ _ _ H1) as (d1 & -> & Hc1).
  unfold bind at 1.
  destruct (convert_column "Termin√©" to_datetime (set_data d1 p))
    as [[[] |] q2] eqn:H2; [| discriminate].
  destruct (convert_column_returned _ _ _ _ _ H2) as (d2 & -> & Hc2).
  unfold bind at 1.
  destruct (convert_column "Note/20,00" (apply score) (set_data d2 p))
    as [[[] |] q3] eqn:H3; [| discriminate].
  destruct (convert_column_returned _ _ _ _ _ H3) as (d3 & -> & Hc3).
  unfold bind at 1.
  destruct (reorder _ (set_data d3 p)) as [[[] |] q4] eqn:H4;
    [| discriminate].
  destruct (reorder_returned _ _ _ _ H4) as (d4 & -> & Hin & Hlen).
  unfold bind, the_data, modify, lift. cbn [data set_data].
  destruct (group_names d4) as [names |] eqn:Hnames; [| discriminate].
  intros [= <-]. exists d0, d4, names.
  split; [reflexivity |].
  split; [intros c; rewrite Hin, Hc3, Hc2, Hc1; tauto |].
  split.
  { rewrite Hlen.
    rewrite <- (length_map fst d3), <- (length_map fst d0).
    change (List.length (columns d3) = List.length (columns d0)).
    now rewrite Hc3, Hc2, Hc1. }
  split; [exact Hnames |].
  unfold set_student_filter, set_table_model, set_model, set_data.
  cbn [data widget_input_file model widget_table_data widget_student_filter].
  rewrite fold_add_checkable_item. reflexivity.
Qed.


(** X15.  A load that returns keeps the columns of the file, no more and
    no fewer, whatever their new order, and leaves the text of the input
    line as it was; the model it builds holds the frame of the window,
    and the table view shows that model. *)
Theorem load_data_keeps_columns (p p' : MainWindow) :
  load p = (Returned tt, p') ->
  exists d0 d',
    read_csv (widget_input_file p) = Returned d0 /\
    data p' = Some d' /\
    (forall c, In c (columns d') <-> In c (columns d0)) /\
    List.length (columns d') = List.length (columns d0) /\
    model p' = Some {| _data := d'; _header := columns d' |} /\
    widget_table_data p' = model p' /\
    widget_input_file p' = widget_input_file p.
Proof.
  intros H. destruct (load_data_returned _ _ H)
    as (d0 & d' & names & Hread & Hin & Hlen & _ & ->).
  exists d0, d'. cbn [data model widget_table_data widget_input_file].
  unfold columns, keys. rewrite !length_map. repeat split; auto;
    apply Hin.
Qed.

(** X16.  After a load that returns, the horizontal header of the model
    has one text per column of the frame: section [i] below
    [columnCount] is headed by the name of column [i], and a section from
    [columnCount] on raises [IndexError].  For the vertical header the
    model answers as its base class. *)
Theorem load_data_header_of_each_column (p p' : MainWindow) :
  load p = (Returned tt, p') ->
  exists m,
    widget_table_data p' = Some m /\
    data p' = Some (getDataFrame m) /\
    (forall section, section < columnCount m ->
       exists name,
         nth_error (columns (getDataFrame m)) section = Some name /\
         headerData m section Horizontal DisplayRole =
           Returned (HeaderText name)) /\
    (forall section, columnCount m <= section ->
       headerData m section Horizontal DisplayRole =
         Raised (mk_exn IndexError (Msg "list index out of range"))) /\
    (forall section role,
       headerData m section Vertical role = Returned BaseHeader).
Proof.
  intros H. destruct (load_data_returned _ _ H)
    as (d0 & d' & names & _ & _ & _ & _ & ->).
  eexists. cbn [widget_table_data data]. split; [reflexivity |].
  unfold getDataFrame, columnCount, headerData. cbn [_data _header].
  split; [reflexivity |]. split; [| split].
  - intros section Hlt.
    destruct (nth_error (columns d') section) as [name |] eqn:E.
    + exists name. split; reflexivity.
    + apply nth_error_None in E. unfold columns, keys in E.
      rewrite length_map in E. lia.
  - intros section Hge.
    assert (E : nth_error (columns d') section = None).
    { apply nth_error_None. unfold columns, keys. rewrite length_map. lia. }
    now rewrite E.
  - intros section role. reflexivity.
Qed.

(** X17.  [updateDataFrame] replaces the frame and never the header: with
    a new frame of more columns than the header has texts, the first
    section without a text is a column of the model whose header raises
    [IndexError], and the sections before it keep the texts of the old
    frame. *)
Theorem updateDataFrame_keeps_old_header (m : PandasModel) (new_df : DataFrame) :
  List.length (_header m) < List.length new_df ->
  let m' := updateDataFrame new_df m in
  getDataFrame m' = new_df /\
  List.length (_header m) < columnCount m' /\
  headerData m' (List.length (_header m)) Horizontal DisplayRole =
    Raised (mk_exn IndexError (Msg "list index out of range")) /\
  (forall section,
     headerData m' section Horizontal DisplayRole =
       headerData m section Horizontal DisplayRole).
Proof.
  intros Hlt m'. unfold m', updateDataFrame, getDataFrame, columnCount,
    headerData. cbn [_data _header].
  split; [reflexivity |]. split; [exact Hlt |]. split; [| reflexivity].
  assert (E : nth_error (_header m) (List.length (_header m)) = None)
    by (apply nth_error_None; lia).
  now rewrite E.
Qed.

(** ** open_csv *)

#[local] Abbreviation open_csv :=
  (Loader.open_csv EXPECTED_COLUMNS read_csv to_datetime float_of_text).
#[local] Abbreviation load_data_supervised :=
  (Loader.load_data_supervised EXPECTED_COLUMNS read_csv to_datetime
                               float_of_text).

Lemma load_data_supervised_run (g : gui) :
  load_data_supervised tt g =
    match load (fst g) with
    | (Returned v, p') => (Returned v, (p', snd g))
    | (Raised e, p') =>
        if is_Exception e then (Returned tt, (p', snd g ++ [e]))
        else (Raised e, (p', snd g))
    end.
Proof.
  unfold Loader.load_data_supervised, Supervisor.decorated,
    Supervisor.supervisor, Supervisor.wrapper.
  destruct (load (fst g)) as [[v | e] p']; cbn [fst snd]; reflexivity.
Qed.

Lemma open_csv_run filename (g : gui) :
  open_csv filename g =
    match filename with
    | EmptyString => (Returned tt, g)
    | _ =>
        if endswith (Timestamp.lowercase filename) ".csv" then
          load_data_supervised
            tt (set_input_file ("File: " ++ filename) (fst g), snd g)
        else
          (Returned tt,
           (fst g,
            snd g ++ [mk_exn ValueError
                        (Msg ("Unsupported file type: " ++ filename))]))
    end.
Proof.
  unfold Loader.open_csv, Supervisor.supervisor, Supervisor.wrapper,
    open_csv_body.
  destruct filename as [| a filename]; [reflexivity |].
  destruct (endswith _ ".csv"); cbn [negb].
  - rewrite load_data_supervised_run. cbn [fst snd].
    destruct (load _) as [[v | e] p']; [reflexivity |].
    destruct (is_Exception e) eqn:E; [reflexivity |]. now rewrite E.
  - reflexivity.
Qed.

(** X18.  [open_csv] when no file is loaded: a dialog that is cancelled
    changes nothing and shows nothing; a name that does not end in
    [.csv], in any case of letters, is reported in one message box as an
    unsupported file type, and the window, its input line included, is as
    it was. *)
Theorem open_csv_without_csv_file (filename : string) (g : gui) :
  open_csv "" g = (Returned tt, g) /\
  (filename <> "" ->
   endswith (Timestamp.lowercase filename) ".csv" = false ->
   open_csv filename g =
     (Returned tt,
      (fst g,
       snd g ++ [mk_exn ValueError
                   (Msg ("Unsupported file type: " ++ filename))]))).
Proof.
  split; [reflexivity |]. intros Hne Hend. rewrite open_csv_run, Hend.
  destruct filename; [congruence | reflexivity].
Qed.

(** X19.  [open_csv] with the name of a CSV file: the input line shows
    the name after the text ["File: "], and that very text of the input
    line, prefix included, is the path [read_csv] is given.  When
    [read_csv] raises an exception of class [Exception] on it, the error
    is reported in one message box, not two, the frame loaded before is
    still the data of the window, and [open_csv] returns. *)
Theorem open_csv_reads_input_line (filename : string) (g : gui) :
  filename <> "" ->
  endswith (Timestamp.lowercase filename) ".csv" = true ->
  open_csv filename g =
    load_data_supervised
      tt (set_input_file ("File: " ++ filename) (fst g), snd g) /\
  (forall e,
     read_csv ("File: " ++ filename) = Raised e -> is_Exception e = true ->
     open_csv filename g =
       (Returned tt,
        (set_input_file ("File: " ++ filename) (fst g), snd g ++ [e]))) /\
  (forall p',
     load (set_input_file ("File: " ++ filename) (fst g)) = (Returned tt, p') ->
     open_csv filename g = (Returned tt, (p', snd g)) /\
     widget_input_file p' = ("File: " ++ filename)%string).
Proof.
  intros Hne Hend. rewrite open_csv_run, Hend.
  destruct filename as [| a filename]; [congruence |].
  split; [reflexivity |]. split.
  - intros e Hread He. rewrite load_data_supervised_run. cbn [fst snd].
    rewrite load_data_run. cbn [widget_input_file set_input_file].
    rewrite Hread, He. reflexivity.
  - intros p' Hload. rewrite load_data_supervised_run. cbn [fst snd].
    rewrite Hload. split; [reflexivity |].
    destruct (load_data_returned _ _ Hload)
      as (d0 & d' & names & _ & _ & _ & _ & ->).
    reflexivity.
Qed.

(** X20.  One call of [open_csv] shows at most one message box, and no
    exception of class [Exception] leaves it: it returns, or it raises an
    exception that the loader raised and that is not of that class, with
    no message box shown. *)
Theorem open_csv_reports_at_most_once (filename : string) (g : gui) :
  exists out g' shown,
    open_csv filename g = (out, g') /\
    snd g' = snd g ++ shown /\
    (out = Returned tt /\ List.length shown <= 1 \/
     exists e, out = Raised e /\ is_Exception e = false /\ shown = []).
Proof.
  rewrite open_csv_run.
  destruct filename as [| a filename].
  - exists (Returned tt), g, []. rewrite app_nil_r. repeat split. left.
    split; [reflexivity | simpl; lia].
  - destruct (endswith _ ".csv").
    + rewrite load_data_supervised_run. cbn [fst snd].
      destruct (load _) as [[[] | e] p'].
      * eexists _, _, []. rewrite app_nil_r. split; [reflexivity |].
        split; [reflexivity |]. left. split; [reflexivity | simpl; lia].
      * destruct (is_Exception e) eqn:E.
        -- eexists _, _, [e]. split; [reflexivity |].
           split; [reflexivity |]. left. split; [reflexivity | simpl; lia].
        -- eexists _, _, []. rewrite app_nil_r. split; [reflexivity |].
           split; [reflexivity |]. right. exists e. repeat split. exact E.
    + eexists _, _, [_]. split; [reflexivity |]. split; [reflexivity |].
      left. split; [reflexivity | simpl; lia].
Qed.
End LoadSuccess.

(* ===================================================================== *)
(** * Facts: the student filter, compute under the supervisor, scores *)
(* ===================================================================== *)

Section FilterFacts.
Import Schedule.

Lemma nth_error_split_at {A} (l : list A) : forall i x,
  nth_error l i = Some x ->
  l = firstn i l ++ x :: skipn (Datatypes.S i) l /\
  List.length (firstn i l) = i.
Proof.
  induction l as [| y l IH]; intros [| i] x H; simpl in *; try discriminate.
  - injection H as ->. split; reflexivity.
  - destruct (IH i x H) as [E L]. split; [now rewrite <- E | now rewrite L].
Qed.

Lemma checked_items_app c c' :
  checked_items (c ++ c') = checked_items c ++ checked_items c'.
Proof. rewrite !checked_items_spec, filter_app, map_app. reflexivity. Qed.

(** X21.  Pressing an item of the student filter inverts its check state
    and nothing else: the texts and the other check states stay, the
    item enters the checked items at the place its position gives it when
    it was unchecked and leaves them when it was checked, and pressing it
    again restores the filter. *)
Theorem handle_item_pressed_toggles_one_item
        (c : CheckableComboBox) (index : nat) (text : string) (checked : bool) :
  nth_error c index = Some (text, checked) ->
  exists c',
    handle_item_pressed c index = Returned c' /\
    handle_item_pressed c' index = Returned c /\
    map fst c' = map fst c /\
    nth_error c' index = Some (text, negb checked) /\
    (forall i, i <> index -> nth_error c' i = nth_error c i) /\
    checked_items c =
      checked_items (firstn index c) ++ (if checked then [text] else []) ++
      checked_items (skipn (Datatypes.S index) c) /\
    checked_items c' =
      checked_items (firstn index c) ++ (if checked then [] else [text]) ++
      checked_items (skipn (Datatypes.S index) c).
Proof.
  intros H. destruct (nth_error_split_at c index _ H) as [Hc Hlen].
  set (pre := firstn index c) in *.
  set (post := skipn (Datatypes.S index) c) in *.
  clearbody pre post. subst index. subst c. clear H.
  assert (Hnth : forall b, nth_error (pre ++ (text, b) :: post)
                                     (List.length pre) = Some (text, b)).
  { intros b. rewrite nth_error_app2, Nat.sub_diag by lia. reflexivity. }
  assert (Hfirst : forall b, firstn (List.length pre)
                                    (pre ++ (text, b) :: post) = pre).
  { intros b. rewrite firstn_app, Nat.sub_diag, firstn_O, app_nil_r.
    apply firstn_all. }
  assert (Hskip : forall b, skipn (Datatypes.S (List.length pre))
                                  (pre ++ (text, b) :: post) = post).
  { intros b. rewrite skipn_app.
    replace (Datatypes.S (List.length pre) - List.length pre) with 1 by lia.
    rewrite skipn_all2 by lia. reflexivity. }
  exists (pre ++ (text, negb checked) :: post).
  split; [unfold handle_item_pressed; now rewrite Hnth, Hfirst, Hskip |].
  split.
  { unfold handle_item_pressed.
    now rewrite Hnth, Hfirst, Hskip, negb_involutive. }
  split; [rewrite !map_app; reflexivity |].
  split; [apply Hnth |].
  split.
  { intros i Hi.
    destruct (Nat.lt_ge_cases i (List.length pre)) as [Hlt | Hge].
    - rewrite !nth_error_app1 by lia. reflexivity.
    - rewrite !nth_error_app2 by lia.
      destruct (i - List.length pre) as [| k] eqn:E; [lia | reflexivity]. }
  rewrite !checked_items_app.
  change ((text, checked) :: post) with ([(text, checked)] ++ post).
  change ((text, negb checked) :: post) with ([(text, negb checked)] ++ post).
  rewrite !checked_items_app. destruct checked; split; reflexivity.
Qed.
End FilterFacts.

Section SupervisorTwice.
Variables S Args A : Type.
Variable py_None : A.
Variable critical : exn -> S -> S.

#[local] Abbreviation supervised :=
  (Supervisor.supervisor S Args A py_None critical).

(** X22.  A function decorated twice behaves as the function decorated
    once: what the inner wrapper lets through, the outer one lets
    through, no exception is reported twice, and no state is changed by
    the second wrapper. *)
Theorem supervisor_twice_is_once (func : Args -> M S A) (args : Args) (s : S) :
  supervised (supervised func) args s = supervised func args s.
Proof.
  unfold Supervisor.supervisor, Supervisor.wrapper.
  destruct (func args s) as [[v | e] s']; [reflexivity |].
  destruct (is_Exception e) eqn:E; [reflexivity |]. now rewrite E.
Qed.
End SupervisorTwice.

Section ComputeFacts.
Import Schedule Engine.

Variable EXPECTED_COLUMNS : list string.
Variable parse_timestamp : string -> option Timestamp.time.

#[local] Abbreviation compute :=
  (Engine.compute EXPECTED_COLUMNS parse_timestamp).
#[local] Abbreviation compute_supervised :=
  (Engine.compute_supervised EXPECTED_COLUMNS parse_timestamp).
#[local] Abbreviation result_rows := (Engine.result_rows parse_timestamp).

(** What [compute] does depends on the parent window only: it raises and
    leaves the widget as it is, or it returns, having added rows that
    the parent determines and shown the dialog. *)
Lemma compute_cases (p : Parent) :
  (exists e, forall w, compute p w = (Raised e, w)) \/
  (exists new,
     map grid_row new = seq 1 (List.length new) /\
     forall w,
       compute p w =
         (Returned tt,
          {| layout_result := layout_result w ++ new;
             dialog_exec := Datatypes.S (dialog_exec w) |})).
Proof.
  destruct (data p) as [d |] eqn:Hd.
  - destruct (issubset EXPECTED_COLUMNS (columns d)) eqn:Hsub.
    + pose proof (compute_spec EXPECTED_COLUMNS parse_timestamp p d) as Hc.
      cbv zeta in Hc.
      destruct (forallb _ (intervals_of (widget_json_schedule p))).
      * right. eexists. split.
        -- rewrite result_rows_grid_row, result_rows_length. reflexivity.
        -- intros w. now rewrite (Hc w Hd Hsub).
      * destruct (existsb _ (groupby d)).
        -- left. eexists. intros w. now rewrite (Hc w Hd Hsub).
        -- right. exists []. split; [reflexivity |].
           intros w. rewrite (Hc w Hd Hsub), app_nil_r. reflexivity.
    + left. eexists. intros w. unfold Engine.compute.
      rewrite Hd, Hsub. reflexivity.
  - left. eexists. intros w. unfold Engine.compute. rewrite Hd. reflexivity.
Qed.


(** X24.  [compute] checks the data before anything else.  With no frame
    loaded it raises [ValueError], "There is no data to compute",
    whatever the schedule and the selection; with a frame that lacks
    expected columns it raises [ValueError] with the set of exactly the
    expected columns the frame does not have, which is not empty.  In
    both cases the grid and the dialog are as they were. *)
Theorem compute_checks_data_first (p : Parent) (w : WidgetResult) :
  (data p = None ->
   compute p w =
     (Raised (mk_exn ValueError (Msg "There is no data to compute")), w)) /\
  (forall d,
     data p = Some d ->
     issubset EXPECTED_COLUMNS (columns d) = false ->
     compute p w =
       (Raised (mk_exn ValueError
                  (MissingCols (difference EXPECTED_COLUMNS (columns d)))),
        w) /\
     difference EXPECTED_COLUMNS (columns d) <> [] /\
     forall c, In c (difference EXPECTED_COLUMNS (columns d)) <->
               In c EXPECTED_COLUMNS /\ ~ In c (columns d)).
Proof.
  split.
  - intros Hd. unfold Engine.compute. now rewrite Hd.
  - intros d Hd Hsub. split; [| split].
    + unfold Engine.compute. now rewrite Hd, Hsub.
    + intros E. apply issubset_difference in E. congruence.
    + intros c. apply difference_spec.
Qed.

(** X25.  [compute] never clears the grid.  A second [compute] that
    follows one that returned, with the parent window unchanged, returns
    as well and adds the same rows again, numbered from 1 as the first
    time: the grid then holds the rows of both runs on the same grid
    rows, after those it held before. *)
Theorem compute_twice_adds_rows_twice (p : Parent) (w w1 : WidgetResult) :
  compute p w = (Returned tt, w1) ->
  exists new,
    layout_result w1 = layout_result w ++ new /\
    map grid_row new = seq 1 (List.length new) /\
    compute p w1 =
      (Returned tt,
       {| layout_result := layout_result w ++ new ++ new;
          dialog_exec := Datatypes.S (Datatypes.S (dialog_exec w)) |}).
Proof.
  intros H. destruct (compute_cases p) as [[e He] | (new & Hnew & Hc)].
  - rewrite He in H. discriminate.
  - rewrite Hc in H. injection H as <-. exists new.
    split; [reflexivity |]. split; [exact Hnew |].
    rewrite Hc. cbn [layout_result dialog_exec]. now rewrite <- app_assoc.
Qed.
End ComputeFacts.

Section ScoreRoundTrip.
Import Loader.

(** X26.  Scores survive the way from the file to the grid: for every
    number of hundredths from 0.00 to 20.00, the text that [compute]
    prints for it, written with a comma as in the file, is converted by
    the score conversion of [load_data] to a float that [compute] prints
    as that same text. *)
Theorem score_text_round_trip (n : Z) :
  (0 <= n <= 2000)%Z ->
  exists x,
    score_of_cell Float64.float_of_string
                  (CStr (replace "." "," (Float64.fixed2 n))) =
      Returned (CFloat x) /\
    Float64.format_2f x = Float64.fixed2 n.
Proof.
  intros Hn.
  assert (Hall :
    forallb (fun k =>
               match score_of_cell Float64.float_of_string
                       (CStr (replace "." "," (Float64.fixed2 (Z.of_nat k))))
               with
               | Returned (CFloat x) =>
                   String.eqb (Float64.format_2f x)
                              (Float64.fixed2 (Z.of_nat k))
               | _ => false
               end) (seq 0 2001) = true) by (vm_compute; reflexivity).
  rewrite forallb_forall in Hall.
  specialize (Hall (Z.to_nat n)).
  rewrite Z2Nat.id in Hall by lia.
  assert (Hin : In (Z.to_nat n) (seq 0 2001)) by (apply in_seq; lia).
  specialize (Hall Hin).
  destruct (score_of_cell _ _) as [[| | x | |] |]; try discriminate.
  exists x. split; [reflexivity |]. now apply String.eqb_eq.
Qed.
End ScoreRoundTrip.

(* ===================================================================== *)
(** * Facts: the toolbar *)
(* ===================================================================== *)

Section ToolBarFacts.
Variable slot : Type.

#[local] Abbreviation QAction := (ToolBar.QAction slot).
#[local] Abbreviation objectName := (ToolBar.objectName slot).
#[local] Abbreviation connected := (ToolBar.connected slot).
#[local] Abbreviation add_action := (ToolBar.add_action slot).
#[local] Abbreviation on_triggered := (ToolBar.on_triggered slot).

Lemma findChild_None (t : ToolBar.ToolBar slot) name :
  ~ In name (map objectName t) -> ToolBar.findChild slot t name = None.
Proof.
  induction t as [| a t IH]; simpl; [reflexivity |].
  intros H. destruct (String.eqb_spec (objectName a) name); [tauto |].
  apply IH. tauto.
Qed.

Lemma on_triggered_first (pre post : ToolBar.ToolBar slot) (a : QAction)
      function :
  ~ In (objectName a) (map objectName pre) ->
  on_triggered (objectName a) function (pre ++ a :: post) =
    Returned (pre ++ {| ToolBar.objectName := objectName a;
                        ToolBar.connected := connected a ++ [function] |}
                  :: post).
Proof.
  unfold ToolBar.on_triggered. intros Hpre.
  assert (Hf : ToolBar.findChild slot (pre ++ a :: post) (objectName a) =
               Some a).
  { induction pre as [| b pre IH]; simpl in *.
    - now rewrite String.eqb_refl.
    - destruct (String.eqb_spec (objectName b) (objectName a)); [tauto |].
      apply IH. tauto. }
  rewrite Hf. f_equal.
  induction pre as [| b pre IH]; simpl in *.
  - now rewrite String.eqb_refl.
  - destruct (String.eqb_spec (objectName b) (objectName a)); [tauto |].
    f_equal. apply IH; [tauto |].
    destruct (String.eqb_spec (objectName b) (objectName a)); tauto.
Qed.

(** X27.  [on_triggered] raises [ValueError] for a name that no action of
    the toolbar has, and otherwise connects the function to the first
    action of that name and to no other: an action added under a name
    that an earlier action has can never be connected.  An action that
    [add_action] has just added under a new name is connected by an
    [on_triggered] on that name. *)
Theorem on_triggered_connects_first_action
        (t : ToolBar.ToolBar slot) (action_name : string) (function : slot) :
  action_name <> "" ->
  (~ In action_name (map objectName t) ->
   on_triggered action_name function t =
     Raised (mk_exn ValueError
               (Msg ("Action '" ++ action_name ++ "' not found in toolbar.")))
   /\
   on_triggered action_name function (add_action action_name t) =
     Returned (t ++ [{| ToolBar.objectName := action_name;
                        ToolBar.connected := [function] |}])) /\
  (forall pre a post,
     t = pre ++ a :: post -> objectName a = action_name ->
     ~ In action_name (map objectName pre) ->
     on_triggered action_name function (add_action action_name t) =
       Returned (pre ++ {| ToolBar.objectName := action_name;
                           ToolBar.connected := connected a ++ [function] |}
                     :: post
                     ++ [{| ToolBar.objectName := action_name;
                            ToolBar.connected := [] |}])).
Proof.
  intros _. split.
  - intros Hnin. split.
    + unfold ToolBar.on_triggered. now rewrite findChild_None.
    + unfold ToolBar.add_action.
      apply (on_triggered_first
               t [] {| ToolBar.objectName := action_name;
                       ToolBar.connected := [] |} function Hnin).
  - intros pre a post -> <- Hpre. unfold ToolBar.add_action.
    rewrite <- app_assoc. cbn [app].
    now rewrite on_triggered_first.
Qed.
End ToolBarFacts.

(* ===================================================================== *)
(** * Worked scenarios *)
(* ===================================================================== *)

Section WorkedScenarios.
Import Schedule.

(** ** Classes *)

Lemma two_classes_NoDup : NoDup (keys (class_info Scenarios.two_classes)).
Proof. simpl. repeat constructor; simpl; intuition discriminate. Qed.

(** X4 at an example: the file of two classes, read and saved again. *)
Lemma init_then_class_save_witness :
  NoDup (keys (class_info Scenarios.two_classes)) /\
  class_info Scenarios.two_classes <> [] /\
  is_placeholder (class_info Scenarios.two_classes) = false /\
  exists w,
    init Scenarios.two_classes_file = Some w /\
    class_info w = class_info Scenarios.two_classes /\
    currentText (class_selection w) = "Math" /\
    class_save (w, Scenarios.two_classes_file) =
      (Returned tt, (w, Scenarios.two_classes_file)).
Proof.
  assert (H : class_info Scenarios.two_classes <> []) by discriminate.
  exact (conj two_classes_NoDup
           (conj H
              (conj eq_refl
                 (init_then_class_save (class_info Scenarios.two_classes)
                                       two_classes_NoDup H eq_refl)))).
Defined.

(** X5 at an example: a start without file, then a save. *)
Lemma class_save_without_class_witness :
  init None = Some Examples.empty_widget /\
  class_info Examples.empty_widget = [] /\
  class_save (Examples.empty_widget, None) =
    (Returned tt,
     ({| class_info := [("", [])];
         class_selection := {| items := []; currentIndex := None |};
         table := [] |}, None)).
Proof.
  exact (conj eq_refl
           (conj eq_refl
              (class_save_without_class None Examples.empty_widget
                                        eq_refl eq_refl))).
Defined.

(** X7 at an example: the second row of the table of two rows. *)
Lemma remove_selected_row_removes_current_witness :
  remove_selected_row (-1) Scenarios.two_classes = Scenarios.two_classes /\
  get_data (table (remove_selected_row 1 Scenarios.two_classes)) =
    Returned [("2024-02-01 08:00", "2024-02-01 12:00")].
Proof.
  destruct (remove_selected_row_removes_current Scenarios.two_classes)
    as [Hnone Hrow].
  split; [apply Hnone; reflexivity |].
  apply (Hrow 1). simpl. lia.
Defined.

(** X9 at an example: a third class, and a class added under the name
    of one that has intervals. *)
Lemma class_add_selects_empty_class_witness :
  "Math" <> "" /\
  dict_get (class_info (class_add "Math" true Scenarios.two_classes)) "Math"
    = Some [] /\
  items (class_selection (class_add "Math" true Scenarios.two_classes)) =
    ["Math"; "Physics"; "Math"] /\
  currentText (class_selection (class_add "Math" true Scenarios.two_classes))
    = "Math" /\
  table (class_add "Math" true Scenarios.two_classes) = [].
Proof.
  assert (H : "Math" <> "") by discriminate.
  destruct (class_add_selects_empty_class Scenarios.two_classes "Math" H)
    as (H1 & _ & H3 & H4 & H5 & _).
  exact (conj H (conj H1 (conj H3 (conj H4 H5)))).
Defined.

(** X10 at an example: the class "Physics" is removed while its table
    has an edit that is not saved. *)
Lemma class_remove_removes_selected_class_witness :
  items (class_selection Scenarios.two_classes) =
    keys (class_info Scenarios.two_classes) /\
  currentIndex (class_selection Scenarios.two_classes) = Some 1 /\
  currentText (class_selection Scenarios.two_classes) <> "" /\
  exists w',
    class_remove (Scenarios.two_classes, Scenarios.two_classes_file) =
      (Returned tt,
       (w', Some (dump [("Math",
                         [("2024-01-01 00:00", "2024-01-02 00:00")])]))) /\
    class_info w' = [("Math", [("2024-01-01 00:00", "2024-01-02 00:00")])] /\
    items (class_selection w') = ["Math"] /\
    currentIndex (class_selection w') = Some 0 /\
    get_data (table w') = Returned [("2024-01-01 00:00", "2024-01-02 00:00")].
Proof.
  assert (Hcur : currentText (class_selection Scenarios.two_classes) <> "")
    by discriminate.
  assert (Hi : 1 < List.length (class_info Scenarios.two_classes))
    by (simpl; lia).
  assert (Hlen : 2 <= List.length (class_info Scenarios.two_classes))
    by (simpl; lia).
  destruct (class_remove_removes_selected_class
              Scenarios.two_classes Scenarios.two_classes_file 1
              eq_refl two_classes_NoDup eq_refl Hi Hcur Hlen)
    as (w' & Hrun & Hci & Hitems & _ & _ & Hidx & Hget & _).
  split; [reflexivity |]. split; [reflexivity |]. split; [exact Hcur |].
  exists w'. split; [exact Hrun |]. split; [exact Hci |].
  split; [exact Hitems |]. split; [exact Hidx |].
  rewrite Hget. unfold currentText. rewrite Hidx, Hitems. reflexivity.
Defined.

(** X11 at an example: the only class is removed, and then the class
    that is left cannot be. *)
Lemma class_remove_last_class_witness :
  "Math" <> "" /\
  class_remove (Examples.math_widget, Some (dump [("Math", [])])) =
    (Returned tt,
     ({| class_info := [("", [])];
         class_selection := {| items := []; currentIndex := None |};
         table := [] |}, None)).
Proof.
  assert (H : "Math" <> "") by discriminate.
  exact (conj H
           (proj1 (class_remove_last_class
                     "Math" [] (table Examples.math_widget)
                     (Some (dump [("Math", [])])) H))).
Defined.

(** X12 at an example. *)
Lemma class_remove_unknown_class_witness :
  currentText (class_selection Scenarios.orphan) <> "" /\
  dict_get (class_info Scenarios.orphan)
           (currentText (class_selection Scenarios.orphan)) = None /\
  class_remove (Scenarios.orphan, None) =
    (Raised (mk_exn KeyError (Msg "Math")), (Scenarios.orphan, None)).
Proof.
  assert (H : currentText (class_selection Scenarios.orphan) <> "")
    by discriminate.
  exact (conj H
           (conj eq_refl
              (class_remove_unknown_class Scenarios.orphan None H eq_refl))).
Defined.

(** X21 at an example: the second student is checked by a press. *)
Lemma handle_item_pressed_toggles_one_item_witness :
  nth_error Scenarios.filter 1 = Some ("Martin Bob", false) /\
  checked_items Scenarios.filter = ["Durand Alice"; "Petit Zoé"] /\
  exists c',
    handle_item_pressed Scenarios.filter 1 = Returned c' /\
    handle_item_pressed c' 1 = Returned Scenarios.filter /\
    checked_items c' = ["Durand Alice"; "Martin Bob"; "Petit Zoé"].
Proof.
  destruct (handle_item_pressed_toggles_one_item
              Scenarios.filter 1 "Martin Bob" false eq_refl)
    as (c' & H1 & H2 & _ & _ & _ & _ & H7).
  split; [reflexivity |]. split; [reflexivity |].
  exists c'. split; [exact H1 |]. split; [exact H2 |]. exact H7.
Defined.

(** ** The loader *)

(** X13 at an example: the export, whose columns are led by the two
    names of the student and an address. *)
Lemma reorder_puts_columns_at_2_to_5_witness :
  exists c0 c1 rest,
    Examples.csv_notes ["15,50"; "0,00"] = c0 :: c1 :: rest /\
    NoDup (Loader.columns (c0 :: c1 :: rest)) /\
    exists d',
      Loader.reorder
        (combine ["Statut"; "Commenc√©"; "Termin√©"; "Note/20,00"]
                 [2; 3; 4; 5]%nat)
        (Loader.set_data (c0 :: c1 :: rest) (Examples.window "notes.csv")) =
        (Returned tt, Loader.set_data d' (Examples.window "notes.csv")) /\
      Loader.columns d' =
        ["Nom de famille"; "Pr√©nom"; "Statut"; "Commenc√©"; "Termin√©";
         "Note/20,00"; "Adresse de courriel"].
Proof.
  eexists _, _, _. split; [reflexivity |].
  assert (Hnd : NoDup (Loader.columns (Examples.csv_notes ["15,50"; "0,00"]))).
  { simpl. repeat constructor; simpl; intuition discriminate. }
  split; [exact Hnd |].
  eexists. split.
  - refine (reorder_puts_columns_at_2_to_5
              (Examples.window "notes.csv") _ _ _ _ _ _ _ Hnd _ _
              eq_refl eq_refl eq_refl eq_refl);
      simpl; intuition discriminate.
  - reflexivity.
Defined.

#[local] Abbreviation load_example :=
  (Loader.load_data Examples.EXPECTED_COLUMNS Examples.read_csv
                    Examples.to_datetime Float64.float_of_string).

Lemma load_notes :
  load_example (Examples.window "notes.csv") =
    (Returned tt, Scenarios.loaded).
Proof. vm_compute. reflexivity. Qed.


(** X15 at an example. *)
Lemma load_data_keeps_columns_witness :
  load_example (Examples.window "notes.csv") =
    (Returned tt, Scenarios.loaded) /\
  exists d',
    Loader.data Scenarios.loaded = Some d' /\
    List.length (Loader.columns d') = 7 /\
    Loader.widget_table_data Scenarios.loaded = Loader.model Scenarios.loaded.
Proof.
  destruct (load_data_keeps_columns
              Examples.EXPECTED_COLUMNS Examples.read_csv Examples.to_datetime
              Float64.float_of_string (Examples.window "notes.csv")
              Scenarios.loaded load_notes)
    as (d0 & d' & Hread & Hd & _ & Hlen & _ & Hview & _).
  split; [exact load_notes |].
  exists d'. split; [exact Hd |]. split; [| exact Hview].
  rewrite Hlen. injection Hread as <-. reflexivity.
Defined.

(** X16 at an example. *)
Lemma load_data_header_of_each_column_witness :
  load_example (Examples.window "notes.csv") =
    (Returned tt, Scenarios.loaded) /\
  exists m,
    Loader.widget_table_data Scenarios.loaded = Some m /\
    Loader.headerData m 7 Loader.Horizontal Loader.DisplayRole =
      Raised (mk_exn IndexError (Msg "list index out of range")).
Proof.
  destruct (load_data_header_of_each_column
              Examples.EXPECTED_COLUMNS Examples.read_csv Examples.to_datetime
              Float64.float_of_string (Examples.window "notes.csv")
              Scenarios.loaded load_notes)
    as (m & Hm & _ & _ & Hout & _).
  split; [exact load_notes |].
  exists m. split; [exact Hm |]. apply Hout.
  assert (E : Some m = Loader.widget_table_data Scenarios.loaded)
    by (now rewrite Hm).
  vm_compute in E. injection E as ->. vm_compute. lia.
Defined.

(** X17 at an example: the model of six columns is given the export of
    seven. *)
Lemma updateDataFrame_keeps_old_header_witness :
  List.length (Loader._header Scenarios.old_model) <
    List.length (Examples.csv_notes ["15,50"; "0,00"]) /\
  Loader.columnCount
    (Loader.updateDataFrame (Examples.csv_notes ["15,50"; "0,00"])
                            Scenarios.old_model) = 7 /\
  Loader.headerData
    (Loader.updateDataFrame (Examples.csv_notes ["15,50"; "0,00"])
                            Scenarios.old_model)
    6 Loader.Horizontal Loader.DisplayRole =
    Raised (mk_exn IndexError (Msg "list index out of range")).
Proof.
  assert (H : List.length (Loader._header Scenarios.old_model) <
              List.length (Examples.csv_notes ["15,50"; "0,00"]))
    by (simpl; lia).
  destruct (updateDataFrame_keeps_old_header
              Scenarios.old_model (Examples.csv_notes ["15,50"; "0,00"]) H)
    as (_ & _ & Hraise & _).
  split; [exact H |]. split; [reflexivity | exact Hraise].
Defined.

(** X18 at an example: a spreadsheet is chosen. *)
Lemma open_csv_without_csv_file_witness :
  Scenarios.open_csv "" Scenarios.gui = (Returned tt, Scenarios.gui) /\
  Scenarios.open_csv "/home/prof/notes.xlsx" Scenarios.gui =
    (Returned tt,
     (Examples.window "",
      [Examples.no_data;
       mk_exn ValueError
              (Msg "Unsupported file type: /home/prof/notes.xlsx")])).
Proof.
  destruct (open_csv_without_csv_file
              Examples.EXPECTED_COLUMNS Scenarios.read_csv
              Examples.to_datetime Float64.float_of_string
              "/home/prof/notes.xlsx" Scenarios.gui)
    as [Hcancel Hother].
  split; [exact Hcancel |].
  apply Hother; [discriminate | reflexivity].
Defined.

(** X19 at an example: the extension is in capitals; then a file that
    cannot be read. *)
Lemma open_csv_reads_input_line_witness :
  "/home/prof/absent.csv" <> "" /\
  Loader.endswith (Timestamp.lowercase "/home/prof/notes.CSV") ".csv" = true /\
  Scenarios.open_csv "/home/prof/absent.csv" Scenarios.gui =
    (Returned tt,
     (Loader.set_input_file "File: /home/prof/absent.csv" (Examples.window ""),
      [Examples.no_data;
       mk_exn OSError (Msg "No such file or directory")])) /\
  exists p',
    Scenarios.open_csv "/home/prof/notes.CSV" Scenarios.gui =
      (Returned tt, (p', [Examples.no_data])) /\
    Loader.widget_input_file p' = "File: /home/prof/notes.CSV".
Proof.
  assert (H : "/home/prof/absent.csv" <> "") by discriminate.
  split; [exact H |]. split; [reflexivity |]. split.
  - destruct (open_csv_reads_input_line
                Examples.EXPECTED_COLUMNS Scenarios.read_csv
                Examples.to_datetime Float64.float_of_string
                "/home/prof/absent.csv" Scenarios.gui H eq_refl)
      as (_ & Hraise & _).
    apply (Hraise (mk_exn OSError (Msg "No such file or directory")));
      reflexivity.
  - assert (H' : "/home/prof/notes.CSV" <> "") by discriminate.
    destruct (open_csv_reads_input_line
                Examples.EXPECTED_COLUMNS Scenarios.read_csv
                Examples.to_datetime Float64.float_of_string
                "/home/prof/notes.CSV" Scenarios.gui H' eq_refl)
      as (_ & _ & Hload).
    eexists. apply Hload. vm_compute. reflexivity.
Defined.

(** ** The result engine *)

Lemma compute_new_year :
  Examples.compute (Examples.parent Examples.everyone [Examples.new_year])
                   Examples.fresh =
    (Returned tt, Scenarios.computed).
Proof. vm_compute. reflexivity. Qed.

(** X24 at an example: no frame is loaded. *)
Lemma compute_checks_data_first_witness :
  Examples.compute
    {| Engine.data := None;
       Engine.widget_student_filter := Examples.everyone;
       Engine.widget_json_schedule := [Examples.garbled] |}
    Examples.fresh =
    (Raised Examples.no_data, Examples.fresh).
Proof.
  apply (proj1 (compute_checks_data_first
                  Examples.EXPECTED Timestamp.parse_iso
                  {| Engine.data := None;
                     Engine.widget_student_filter := Examples.everyone;
                     Engine.widget_json_schedule := [Examples.garbled] |}
                  Examples.fresh)).
  reflexivity.
Defined.

(** X25 at an example: two runs on the example frame, both students
    selected. *)
Lemma compute_twice_adds_rows_twice_witness :
  Examples.compute (Examples.parent Examples.everyone [Examples.new_year])
                   Examples.fresh =
    (Returned tt, Scenarios.computed) /\
  exists w2,
    Examples.compute (Examples.parent Examples.everyone [Examples.new_year])
                     Scenarios.computed = (Returned tt, w2) /\
    map Engine.grid_row (Engine.layout_result w2) = [1; 2; 1; 2] /\
    Engine.dialog_exec w2 = 2.
Proof.
  destruct (compute_twice_adds_rows_twice
              Examples.EXPECTED Timestamp.parse_iso
              (Examples.parent Examples.everyone [Examples.new_year])
              Examples.fresh Scenarios.computed compute_new_year)
    as (new & Hnew & Hrows & Hrun).
  split; [exact compute_new_year |].
  eexists. split; [exact Hrun |].
  cbn [Engine.layout_result Engine.dialog_exec Examples.fresh app].
  split; [| reflexivity].
  rewrite map_app, Hrows.
  assert (Hlen : List.length new = 2).
  { change (Engine.layout_result Examples.fresh) with (@nil Engine.ResultRow)
      in Hnew.
    cbn [app] in Hnew. rewrite <- Hnew. vm_compute. reflexivity. }
  rewrite Hlen. reflexivity.
Defined.

(** X26 at an example: the score 15,50. *)
Lemma score_text_round_trip_witness :
  (0 <= 1550 <= 2000)%Z /\
  replace "." "," (Float64.fixed2 1550) = "15,50" /\
  exists x,
    Loader.score_of_cell Float64.float_of_string (Loader.CStr "15,50") =
      Returned (Loader.CFloat x) /\
    Float64.format_2f x = "15.50".
Proof.
  assert (H : (0 <= 1550 <= 2000)%Z) by lia.
  exact (conj H (conj eq_refl (score_text_round_trip 1550 H))).
Defined.

(** ** The toolbar *)

(** X27 at an example: the action OPEN and a function for it. *)
Lemma on_triggered_connects_first_action_witness :
  "OPEN" <> "" /\
  ToolBar.on_triggered nat "OPEN" 7 (ToolBar.add_action nat "OPEN" []) =
    Returned [{| ToolBar.objectName := "OPEN";
                 ToolBar.connected := [7] |}] /\
  ToolBar.on_triggered nat "SAVE" 7 (ToolBar.add_action nat "OPEN" []) =
    Raised (mk_exn ValueError (Msg "Action 'SAVE' not found in toolbar.")).
Proof.
  assert (H : "OPEN" <> "") by discriminate.
  assert (H' : "SAVE" <> "") by discriminate.
  split; [exact H |]. split.
  - apply (proj1 (on_triggered_connects_first_action nat [] "OPEN" 7 H)).
    simpl. tauto.
  - apply (proj1 (on_triggered_connects_first_action
                    nat (ToolBar.add_action nat "OPEN" []) "SAVE" 7 H')).
    simpl. intuition discriminate.
Defined.
End WorkedScenarios.

